(** * calver-release: the decision engine, embedded and verified

    A shallow embedding of the code that decides a release: the
    version-format resolver, the commit classifier, the change-set mapper
    and the version resolver of [src/release-core.js] (the second, current
    copy in that file; line numbers are those of the file), the defaults
    of [src/config.ts], and the sequential orchestrator with its lifecycle
    hooks ([calverRelease], [analyzeStep] and [runPlugins] of the module
    that [release-core] is imported into, [src/unnamed/part_003]; line
    numbers of the orchestrator are those of that file).

    Conventions of the embedding:
    - a JS string is a Rocq [string]; every [ascii] stands for one code unit
      (only code units below 256 are representable);
    - what the code reads from its environment ([new Date()], [execSync],
      [fs]) is an explicit [World] argument;
    - a JS number that holds a counter is an [N]; JS doubles are exact up to
      [MAX_SAFE_INTEGER], and so is the embedding for counters below it
      ([safe], [safeTag]). *)

From Stdlib Require Import Bool List Arith NArith Lia.
From Stdlib Require Import Strings.Ascii Strings.String.
From Stdlib Require Import Numbers.DecimalString Numbers.DecimalN.
From Stdlib Require Import Sorting.Sorted.
Import ListNotations.

Local Open Scope list_scope.
Local Open Scope string_scope.

(* ================================================================== *)
(** * JavaScript string primitives used by the sources *)
(* ================================================================== *)

Module Js.

(** [s.startsWith(p)] *)
Definition startsWith (s p : string) : bool := String.prefix p s.

(** [s.includes(sub)] *)
Fixpoint includes (s sub : string) : bool :=
  String.prefix sub s ||
  match s with
  | EmptyString => false
  | String _ s' => includes s' sub
  end.

(** [s.split(sep)] for a non-empty separator: left to right, matches do not
    overlap.  [skip] counts the code units of a matched separator that are
    still to be dropped, [cur] is the piece being built. *)
Fixpoint split_go (sep : string) (skip : nat) (cur : string) (s : string)
  : list string :=
  match s with
  | EmptyString => [cur]
  | String c s' =>
      match skip with
      | S k => split_go sep k cur s'
      | O =>
          if String.prefix sep s
          then cur :: split_go sep (String.length sep - 1) EmptyString s'
          else split_go sep 0 (cur ++ String c EmptyString) s'
      end
  end.

Definition split (sep s : string) : list string := split_go sep 0 EmptyString s.

(** [l.join(sep)] *)
Fixpoint join (sep : string) (l : list string) : string :=
  match l with
  | [] => EmptyString
  | [x] => x
  | x :: rest => x ++ sep ++ join sep rest
  end.

(** White space removed by [trim()], among the code units below 256:
    TAB, LF, VT, FF, CR, SPACE, NBSP. *)
Definition is_space (c : ascii) : bool :=
  let n := nat_of_ascii c in
  ((n =? 9) || (n =? 10) || (n =? 11) || (n =? 12) || (n =? 13)
   || (n =? 32) || (n =? 160))%nat.

(** Truthiness of [s.trim()]: some code unit is not white space. *)
Fixpoint trim_truthy (s : string) : bool :=
  match s with
  | EmptyString => false
  | String c s' => negb (is_space c) || trim_truthy s'
  end.

(** [s.trim()] *)
Fixpoint trimStart (s : string) : string :=
  match s with
  | EmptyString => EmptyString
  | String c s' => if is_space c then trimStart s' else s
  end.

Fixpoint trimEnd (s : string) : string :=
  match s with
  | EmptyString => EmptyString
  | String c s' =>
      match trimEnd s' with
      | EmptyString => if is_space c then EmptyString else String c EmptyString
      | r => String c r
      end
  end.

Definition trim (s : string) : string := trimEnd (trimStart s).

(** [\d] *)
Definition is_digit (c : ascii) : bool :=
  let n := nat_of_ascii c in ((48 <=? n) && (n <=? 57))%nat.

(** [\w]: letters, digits, underscore *)
Definition is_word (c : ascii) : bool :=
  let n := nat_of_ascii c in
  (((48 <=? n) && (n <=? 57)) || ((65 <=? n) && (n <=? 90))
   || ((97 <=? n) && (n <=? 122)) || (n =? 95))%nat.

(** [.] without the [s] flag: anything but a line terminator (LF, CR among
    the representable code units). *)
Definition is_dot (c : ascii) : bool :=
  let n := nat_of_ascii c in negb ((n =? 10) || (n =? 13))%nat.

(** The longest prefix whose code units satisfy [p], and what follows it. *)
Fixpoint span (p : ascii -> bool) (s : string) : string * string :=
  match s with
  | EmptyString => (EmptyString, EmptyString)
  | String c s' =>
      if p c then let (a, b) := span p s' in (String c a, b)
      else (EmptyString, s)
  end.

(** [s.indexOf(c)] for a single code unit; [None] is JS's -1. *)
Fixpoint indexOf (c : ascii) (s : string) : option nat :=
  match s with
  | EmptyString => None
  | String d s' =>
      if Ascii.eqb d c then Some 0 else option_map S (indexOf c s')
  end.

(** [s.substring(n)] *)
Fixpoint substring_from (n : nat) (s : string) : string :=
  match n, s with
  | O, _ => s
  | S k, EmptyString => EmptyString
  | S k, String _ s' => substring_from k s'
  end.

(** [s.slice(-2)] *)
Definition slice_last2 (s : string) : string :=
  substring_from (String.length s - 2) s.

(** [s.padStart(2, '0')] *)
Definition padStart2 (s : string) : string :=
  match String.length s with
  | 0 => "00"
  | 1 => "0" ++ s
  | _ => s
  end.

(** A JS number as far as the sources use one: a non-negative integer, or
    NaN. *)
Inductive number := Num (n : N) | NaN.

Definition MAX_SAFE_INTEGER : N := 9007199254740991.

(** [Number(s)] on a run of decimal digits (the empty string gives 0),
    which is all the tag patterns let through to it.  The other numeric
    literals of JS (sign, fraction, exponent, white space) are not
    modelled: every other string comes out as [NaN].  The value is the
    one of JS up to [MAX_SAFE_INTEGER]; above it JS rounds to a double
    and this function does not. *)
Definition Number (s : string) : number :=
  match NilEmpty.uint_of_string s with
  | Some d => Num (N.of_uint d)
  | None => NaN
  end.

(** [String(n)] / template-literal conversion of a number: the decimal
    digits, as JS prints an integer below 10^21 (from there on JS prints
    an exponent, which is outside [MAX_SAFE_INTEGER] as well). *)
Definition toString (x : number) : string :=
  match x with
  | Num n => NilZero.string_of_uint (N.to_uint n)
  | NaN => "NaN"
  end.

(** [x + 1], exact as long as [x] is below [MAX_SAFE_INTEGER]; the
    properties that count or print a counter assume that bound of the
    tags ([safe], [safeTag]). *)
Definition succ (x : number) : number :=
  match x with
  | Num n => Num (n + 1)
  | NaN => NaN
  end.

(** [a > b] on strings: code-unit lexicographic order. *)
Definition str_gt (a b : string) : bool := String.ltb b a.

(** [path.basename(p)] (POSIX): the last segment, trailing slashes
    dropped. *)
Fixpoint basename_go (cur last : string) (s : string) : string :=
  match s with
  | EmptyString => if String.eqb cur EmptyString then last else cur
  | String c s' =>
      if Ascii.eqb c "/"
      then basename_go EmptyString
             (if String.eqb cur EmptyString then last else cur) s'
      else basename_go (cur ++ String c EmptyString) last s'
  end.

Definition basename (p : string) : string :=
  basename_go EmptyString EmptyString p.

End Js.

(* ================================================================== *)
(** * Configuration ([src/types.ts], [src/config.ts]) *)
(* ================================================================== *)

(** [PluginDefinition = string | [string, any] | { path; options? }];
    plugin options are opaque to the decision engine. *)
Definition PluginOptions := list (string * string).

Inductive PluginDefinition :=
| PluginName (name : string)
| PluginTuple (name : string) (opts : PluginOptions)
| PluginObject (path : string) (opts : option PluginOptions).

(** [CalverReleaseOptions]; [None] is an absent property. *)
Record Options := mkOptions {
  branches : option (list string);
  tagFormat : option string;
  dryRun : option bool;
  debug : option bool;
  ci : option bool;
  repositoryUrl : option string;
  autoUpdateMonth : option bool;
  versionFormat : option string;
  plugins : option (list PluginDefinition)
}.

Definition no_options : Options :=
  mkOptions None None None None None None None None None.

(** Truthiness of an optional boolean and of an optional string. *)
Definition truthy (b : option bool) : bool :=
  match b with Some true => true | _ => false end.

Definition truthy_str (s : option string) : bool :=
  match s with
  | Some s => negb (String.eqb s EmptyString)
  | None => false
  end.

(** Object spread [{...a, ...b}]: a property of [b] wins when present. *)
Definition over {A} (a b : option A) : option A :=
  match b with Some _ => b | None => a end.

Definition spread (a b : Options) : Options :=
  mkOptions (over (branches a) (branches b))
            (over (tagFormat a) (tagFormat b))
            (over (dryRun a) (dryRun b))
            (over (debug a) (debug b))
            (over (ci a) (ci b))
            (over (repositoryUrl a) (repositoryUrl b))
            (over (autoUpdateMonth a) (autoUpdateMonth b))
            (over (versionFormat a) (versionFormat b))
            (over (plugins a) (plugins b)).

(** The [defaults] object of [getConfig] (config.ts, lines 16-33). *)
Definition default_plugins : list PluginDefinition :=
  [ PluginName "@calver-release/commit-analyzer";
    PluginName "@calver-release/release-notes-generator";
    PluginName "@calver-release/changelog";
    PluginName "@calver-release/npm";
    PluginName "@calver-release/git";
    PluginName "@calver-release/gitlab";
    PluginName "@calver-release/github" ].

Definition defaults : Options :=
  mkOptions (Some ["main"; "master"])
            (Some "v-${version}")
            (Some false)
            (Some false)
            (Some true)
            (Some EmptyString)
            (Some false)
            None
            (Some default_plugins).

(** The environment variables [getConfig] consults. *)
Record ProcessEnv := mkEnv {
  DRY_RUN : option string;
  DEBUG : option string;
  CI : option string;
  GITLAB_CI : option string
}.

Definition env_is_true (v : option string) : bool :=
  match v with Some s => String.eqb s "true" | None => false end.

(** [getConfig]: defaults < config file < package.json < options, then the
    environment variables.  [configFileConfig] and [packageJsonConfig] are
    what [loadConfigFile] and [loadPackageJsonConfig] returned. *)
Definition getConfig (env : ProcessEnv)
    (configFileConfig packageJsonConfig options : Options) : Options :=
  let config :=
    spread (spread (spread defaults configFileConfig) packageJsonConfig)
           options in
  mkOptions (branches config)
            (tagFormat config)
            (Some (truthy (dryRun config) || env_is_true (DRY_RUN env)))
            (Some (truthy (debug config) || env_is_true (DEBUG env)))
            (Some (truthy (ci config)
                   && (env_is_true (CI env) || env_is_true (GITLAB_CI env))))
            (repositoryUrl config)
            (autoUpdateMonth config)
            (versionFormat config)
            (plugins config).

(* ================================================================== *)
(** * VersionFormatResolver ([determineVersionFormat]) *)
(* ================================================================== *)

Definition ThreePart : string := "YY.MM.PATCH".
Definition FourPart : string := "YY.MM.MINOR.PATCH".

(** The callback of [options.plugins.some(...)]. *)
Definition isNpmPlugin (plugin : PluginDefinition) : bool :=
  match plugin with
  | PluginName name => Js.includes name "npm"
  | PluginTuple name _ => Js.includes name "npm"
  | PluginObject path _ =>
      negb (String.eqb path EmptyString) && Js.includes path "npm"
  end.

(** The auto-detection half of [determineVersionFormat] (lines 1101-1121). *)
Definition detectFormat (options : Options) : string :=
  match plugins options with
  | Some ps => if existsb isNpmPlugin ps then ThreePart else FourPart
  | None => FourPart
  end.

Definition determineVersionFormat (options : Options) : string :=
  match versionFormat options with
  | Some f =>
      if negb (String.eqb f EmptyString) && negb (String.eqb f "auto")
      then f
      else detectFormat options
  | None => detectFormat options
  end.

(* ================================================================== *)
(** * The environment the decision engine reads *)
(* ================================================================== *)

(** [new Date()], as far as [getFullYear()] and [getMonth()] (0-11) go. *)
Record Date := mkDate { getFullYear : N; getMonth : N }.

(** What [execSync] and [fs] answer.  [None] for a git query means that
    [execSync] throws. *)
Record World := mkWorld {
  (** the [version] property of [<packagePath>/package.json]; [None] when
      the file is missing or unreadable, or has no version *)
  packageJsonVersionAt : string -> option string;
  (** stdout of [git tag -l --sort=-version:refname] *)
  gitTagList : option string;
  (** stdout of [git describe --tags --abbrev=0] *)
  gitDescribe : option string;
  (** stdout of [git diff --name-only <latestTag>..HEAD] *)
  gitDiffSinceTag : option string;
  (** stdout of [git diff --name-only HEAD~1] *)
  gitDiffHead1 : option string;
  (** stdout of [git ls-files] *)
  gitLsFiles : option string;
  now : Date
}.

(** The two separators the sources split on.  The JS literal ['\n'] is the
    line feed; the JS literal ['\\n'] (lines 813-818 and 973) is the two
    code units backslash, n.  A Rocq string has no escapes, so the second
    one is written as it is. *)
Definition LF : string := String (ascii_of_nat 10) EmptyString.
Definition BACKSLASH_N : string := "\n".

(* ================================================================== *)
(** * VersionResolver ([generateCalVerVersion]) *)
(* ================================================================== *)

Inductive ReleaseType := major | minor | patch.

Definition nonempty (s : string) : bool := negb (String.eqb s EmptyString).

(** The common prefix [\d{2}\.\d{2}\.] of the tag patterns: what follows
    it, when it matches. *)
Definition eat_yymm (s : string) : option string :=
  match s with
  | String a (String b (String p (String c (String d (String q rest))))) =>
      if Js.is_digit a && Js.is_digit b && Ascii.eqb p "."
         && Js.is_digit c && Js.is_digit d && Ascii.eqb q "."
      then Some rest else None
  | _ => None
  end.

(** [\d+(\.\d+)?$] *)
Definition counters_to_end (s : string) : bool :=
  let (d1, r1) := Js.span Js.is_digit s in
  nonempty d1 &&
  match r1 with
  | EmptyString => true
  | String c r2 =>
      Ascii.eqb c "." &&
      (let (d2, r3) := Js.span Js.is_digit r2 in
       nonempty d2 && String.eqb r3 EmptyString)
  end.

(** [/^\d{2}\.\d{2}\.\d+(\.\d+)?$/] (lines 994 and 1012) *)
Definition is_calver (s : string) : bool :=
  match eat_yymm s with
  | Some rest => counters_to_end rest
  | None => false
  end.

(** [/^v-\d{2}\.\d{2}\.\d+(\.\d+)?$/] (line 981) *)
Definition is_v_calver (tag : string) : bool :=
  match tag with
  | String a (String b rest) =>
      Ascii.eqb a "v" && Ascii.eqb b "-" && is_calver rest
  | _ => false
  end.

(** [tag.match(/^v-(\d{2}\.\d{2}\.\d+(?:\.\d+)?)-/)]: the captured group
    (line 987). *)
Definition capture_version (tag : string) : option string :=
  match tag with
  | String a (String b body) =>
      if Ascii.eqb a "v" && Ascii.eqb b "-" then
        match eat_yymm body with
        | Some rest =>
            let yymm := String.substring 0 6 body in
            let (d1, r1) := Js.span Js.is_digit rest in
            if nonempty d1 then
              match r1 with
              | String c r2 =>
                  if Ascii.eqb c "-" then Some (yymm ++ d1)
                  else if Ascii.eqb c "." then
                    let (d2, r3) := Js.span Js.is_digit r2 in
                    if nonempty d2 && Js.startsWith r3 "-"
                    then Some (yymm ++ d1 ++ "." ++ d2)
                    else None
                  else None
              | EmptyString => None
              end
            else None
        | None => None
        end
      else None
  | _ => None
  end.

(** [tag.replace(/^v-/, '')] (line 991) *)
Definition strip_v (tag : string) : string :=
  if Js.startsWith tag "v-" then Js.substring_from 2 tag else tag.

(** [packageName] of line 970. *)
Definition packageNameOf (packagePath : string) : string :=
  if String.eqb packagePath "." then EmptyString else Js.basename packagePath.

(** The callbacks of the second [filter] and of the [map], lines 975-993. *)
Definition tagFilter (packageName tag : string) : bool :=
  if nonempty packageName
  then Js.includes tag ("-" ++ packageName ++ "-release")
  else is_v_calver tag.

Definition tagVersion (packageName tag : string) : string :=
  if nonempty packageName
  then match capture_version tag with Some v => v | None => EmptyString end
  else strip_v tag.

(** Lines 962-997: [existingTags]. *)
Definition parseTags (packagePath tagOutput : string) : list string :=
  let packageName := packageNameOf packagePath in
  filter is_calver
    (map (tagVersion packageName)
       (filter (tagFilter packageName)
          (filter Js.trim_truthy (Js.split BACKSLASH_N tagOutput)))).

Definition existingTags (w : World) (packagePath : string) : list string :=
  match gitTagList w with
  | Some tagOutput => parseTags packagePath tagOutput
  | None => []
  end.

(** Lines 1006-1010. *)
Definition currentYearMonth (d : Date) : string :=
  let currentYear := Js.slice_last2 (Js.toString (Js.Num (getFullYear d))) in
  let currentMonth := Js.padStart2 (Js.toString (Js.Num (getMonth d + 1))) in
  currentYear ++ "." ++ currentMonth.

(** [const [y, m] = v.split('.'); `${y}.${m}`] (lines 1014-1015 and
    1030-1031); a missing element prints as [undefined]. *)
Definition yearMonthOf (v : string) : string :=
  match Js.split "." v with
  | y :: m :: _ => y ++ "." ++ m
  | [y] => y ++ ".undefined"
  | [] => "undefined.undefined"
  end.

(** The three variables fixed by lines 1001-1042. *)
Record Target := mkTarget {
  targetYearMonth : string;
  isManualBump : bool;
  isAutoMonthUpdate : bool
}.

Definition determineTarget (packageJsonVersion : option string)
    (tags : list string) (options : Options) (current : string) : Target :=
  match packageJsonVersion with
  | Some v =>
      if nonempty v && is_calver v then
        let packageYearMonth := yearMonthOf v in
        let auto :=
          truthy (autoUpdateMonth options)
          && Js.str_gt current packageYearMonth in
        let target := if auto then current else packageYearMonth in
        let manual :=
          negb auto &&
          match tags with
          | latestTag :: _ => negb (String.eqb target (yearMonthOf latestTag))
          | [] => false
          end in
        mkTarget target manual auto
      else mkTarget current false false
  | None => mkTarget current false false
  end.

(** Lines 1045-1054: [currentMonthTags]. *)
Definition currentMonthTags (isNpmCompatible : bool) (target : string)
    (tags : list string) : list string :=
  filter (fun tag =>
            let parts := Js.split "." tag in
            if isNpmCompatible then (List.length parts =? 3)%nat
            else (List.length parts =? 4)%nat)
    (filter (fun tag => Js.startsWith tag target) tags).

(** [latestTag.split('.').map(Number)] and its destructuring; an element
    that is missing is not a number. *)
Definition counter (i : nat) (tag : string) : Js.number :=
  nth i (map Js.Number (Js.split "." tag)) Js.NaN.

Definition firstOfMonth (isNpmCompatible : bool) (target : string) : string :=
  if isNpmCompatible then target ++ ".1" else target ++ ".0.1".

(** Lines 1064-1091. *)
Definition increment (isNpmCompatible : bool) (releaseType : ReleaseType)
    (target latestTag : string) : string :=
  if isNpmCompatible then
    target ++ "." ++ Js.toString (Js.succ (counter 2 latestTag))
  else
    match releaseType with
    | minor | major =>
        target ++ "." ++ Js.toString (Js.succ (counter 2 latestTag))
               ++ "." ++ Js.toString (Js.Num 1)
    | patch =>
        target ++ "." ++ Js.toString (counter 2 latestTag)
               ++ "." ++ Js.toString (Js.succ (counter 3 latestTag))
    end.

(** Lines 1056-1091. *)
Definition computeVersion (isNpmCompatible : bool) (releaseType : ReleaseType)
    (t : Target) (monthTags : list string) : string :=
  match monthTags with
  | [] => firstOfMonth isNpmCompatible (targetYearMonth t)
  | latestTag :: _ =>
      if isManualBump t || isAutoMonthUpdate t
      then firstOfMonth isNpmCompatible (targetYearMonth t)
      else increment isNpmCompatible releaseType (targetYearMonth t) latestTag
  end.

(** The resolver once its volatile inputs are at hand: the declared
    version, the tag list and the current year-month. *)
Definition resolveVersion (releaseType : ReleaseType) (options : Options)
    (packageJsonVersion : option string) (tags : list string)
    (current : string) : string :=
  let isNpmCompatible := String.eqb (determineVersionFormat options) ThreePart in
  let t := determineTarget packageJsonVersion tags options current in
  computeVersion isNpmCompatible releaseType t
    (currentMonthTags isNpmCompatible (targetYearMonth t) tags).

(** [generateCalVerVersion(releaseType, packagePath, options)]: it reads the
    declared version, the tags and the date itself. *)
Definition generateCalVerVersion (w : World) (releaseType : ReleaseType)
    (packagePath : string) (options : Options) : string :=
  resolveVersion releaseType options
    (packageJsonVersionAt w packagePath)
    (existingTags w packagePath)
    (currentYearMonth (now w)).

(* ================================================================== *)
(** * CommitClassifier ([analyzeCommits]) *)
(* ================================================================== *)

(** [const message = spaceIndex > 0 ? commit.substring(spaceIndex + 1)
    : commit] (lines 874-875): the hash prefix of a [--oneline] line is
    dropped. *)
Definition messageOf (commit : string) : string :=
  match Js.indexOf " " commit with
  | Some (S i) => Js.substring_from (S (S i)) commit
  | _ => commit
  end.

(** [message.match(/^\w+\(([^)]+)\):/)]: the captured scope (lines 839 and
    879). *)
Definition scopeOf (message : string) : option string :=
  let (w, r) := Js.span Js.is_word message in
  if nonempty w then
    match r with
    | String c r1 =>
        if Ascii.eqb c "(" then
          let (scope, r2) := Js.span (fun x => negb (Ascii.eqb x ")")) r1 in
          if nonempty scope && Js.startsWith r2 "):" then Some scope else None
        else None
    | EmptyString => None
    end
  else None.

(** [.+] followed by the literal [lit]; [seen] tells that one code unit has
    been consumed by [.+] already. *)
Fixpoint dots_then (lit : string) (seen : bool) (s : string) : bool :=
  (seen && Js.startsWith s lit) ||
  match s with
  | EmptyString => false
  | String c s' => Js.is_dot c && dots_then lit true s'
  end.

(** [message.match(/^<ty>(\(.+\))?:/)] for [ty] one of feat, fix, perf
    (lines 891-897). *)
Definition hasType (ty message : string) : bool :=
  Js.startsWith message ty &&
  (let r := Js.substring_from (String.length ty) message in
   Js.startsWith r ":" ||
   match r with
   | String c r1 => Ascii.eqb c "(" && dots_then "):" false r1
   | EmptyString => false
   end).

(** The prefix pushed with the message onto [releaseCommits]: the sparkles,
    bug, high-voltage and collision emoji of lines 893-902. *)
Inductive Annotation := Sparkles | Bug | Zap | Collision.

(** The if / else-if chain of lines 891-903: first match wins. *)
Definition classify (message : string) : option Annotation :=
  if hasType "feat" message then Some Sparkles
  else if hasType "fix" message then Some Bug
  else if hasType "perf" message then Some Zap
  else if Js.includes message "BREAKING CHANGE"
          || dots_then "!:" false message then Some Collision
  else None.

(** Lines 877-888: is the commit passed over for this package? *)
Definition skippedForPackage (packagePath message : string) : bool :=
  negb (String.eqb packagePath ".") &&
  match scopeOf message with
  | Some scope =>
      let pkgName := Js.basename packagePath in
      negb (String.eqb scope pkgName) && negb (Js.includes scope pkgName)
  | None => false
  end.

Record CommitAnalysis := mkAnalysis {
  shouldRelease : bool;
  releaseType : ReleaseType;
  hasBreakingChange : bool;
  hasFeature : bool;
  hasFix : bool;
  releaseCommits : list (Annotation * string)
}.

(** The four variables of lines 868-871. *)
Record Flags := mkFlags {
  fFeature : bool;
  fFix : bool;
  fBreaking : bool;
  fCommits : list (Annotation * string)
}.

Definition noFlags : Flags := mkFlags false false false [].

(** Lines 891-903 on one message. *)
Definition applyClass (message : string) (st : Flags) : Flags :=
  match classify message with
  | Some Sparkles =>
      mkFlags true (fFix st) (fBreaking st)
              (fCommits st ++ [(Sparkles, message)])%list
  | Some Bug =>
      mkFlags (fFeature st) true (fBreaking st)
              (fCommits st ++ [(Bug, message)])%list
  | Some Zap =>
      mkFlags (fFeature st) true (fBreaking st)
              (fCommits st ++ [(Zap, message)])%list
  | Some Collision =>
      mkFlags (fFeature st) (fFix st) true
              (fCommits st ++ [(Collision, message)])%list
  | None => st
  end.

(** Lines 905-908. *)
Definition applyFooter (message : string) (st : Flags) : Flags :=
  if Js.includes message "BREAKING CHANGE:"
  then mkFlags (fFeature st) (fFix st) true (fCommits st)
  else st.

(** One turn of the loop of lines 873-915.  The test of lines 910-914 ends
    the turn it is the last statement of, and only logs. *)
Definition analyzeOne (packagePath : string) (st : Flags) (commit : string)
  : Flags :=
  let message := messageOf commit in
  if skippedForPackage packagePath message then st
  else applyFooter message (applyClass message st).

Definition commitLines (commitMessages : string) : list string :=
  filter Js.trim_truthy (Js.split LF commitMessages).

(** [analyzeCommits(commitMessages, packagePath)]; [None] is [null]. *)
Definition analyzeCommits (commitMessages packagePath : string)
  : option CommitAnalysis :=
  let st := fold_left (analyzeOne packagePath) (commitLines commitMessages)
                      noFlags in
  let should :=
    fFeature st || fFix st || fBreaking st
    || negb (Nat.eqb (List.length (fCommits st)) 0) in
  if should then
    Some (mkAnalysis true
            (if fBreaking st then major
             else if fFeature st then minor else patch)
            (fBreaking st) (fFeature st) (fFix st) (fCommits st))
  else None.

(* ================================================================== *)
(** * ChangeSetMapper ([getChangedPackages]) *)
(* ================================================================== *)

Record Package := mkPackage {
  name : string;
  path : string;
  packageJson : string
}.

(** The [Set] of line 799 holds package objects; a package is identified
    by its position in [packages], and the set keeps insertion order. *)
Definition set_add (i : nat) (s : list nat) : list nat :=
  if existsb (Nat.eqb i) s then s else (s ++ [i])%list.

(** The position of the first element that satisfies [p]. *)
Fixpoint findIndex {A} (p : A -> bool) (l : list A) : option nat :=
  match l with
  | [] => None
  | x :: rest => if p x then Some 0 else option_map S (findIndex p rest)
  end.

(** Lines 803-819: [changedFiles]; [None] when an [execSync] that is not
    guarded by an inner [try] throws. *)
Definition changedFiles (w : World) : option (list string) :=
  let latestTag :=
    match gitDescribe w with
    | Some out => Js.trim out
    | None => EmptyString
    end in
  let listing :=
    if nonempty latestTag then
      match gitDiffSinceTag w with
      | Some out => Some out
      | None => gitDiffHead1 w
      end
    else gitLsFiles w in
  option_map (fun out => Js.split BACKSLASH_N (Js.trim out)) listing.

(** Lines 822-831. *)
Definition ownsFile (file : string) (pkg : Package) : bool :=
  String.eqb (path pkg) "." || Js.startsWith file (path pkg ++ "/").

Definition addFile (packages : list Package) (changed : list nat)
    (file : string) : list nat :=
  if negb (Js.trim_truthy file) then changed
  else
    match findIndex (ownsFile file) packages with
    | Some i => set_add i changed
    | None => changed
    end.

(** Lines 835-851. *)
Definition scopeMatches (scope : string) (pkg : Package) : bool :=
  Js.includes (name pkg) scope
  || Js.includes (path pkg) scope
  || String.eqb (Js.basename (path pkg)) scope.

Definition addCommit (packages : list Package) (changed : list nat)
    (commit : string) : list nat :=
  let message := Js.substring_from 8 commit in
  match scopeOf message with
  | Some scope =>
      match findIndex (scopeMatches scope) packages with
      | Some i => set_add i changed
      | None => changed
      end
  | None => changed
  end.

Definition isSinglePackage (packages : list Package) : bool :=
  match packages with
  | [p] => String.eqb (name p) "root"
  | _ => false
  end.

Definition selectPackages (packages : list Package) (changed : list nat)
  : list Package :=
  flat_map (fun i => match nth_error packages i with
                     | Some p => [p]
                     | None => []
                     end) changed.

(** [getChangedPackages(packages, commitMessages)] *)
Definition getChangedPackages (w : World) (packages : list Package)
    (commitMessages : string) : list Package :=
  if isSinglePackage packages then packages
  else
    match changedFiles w with
    | None => packages
    | Some files =>
        let byFile := fold_left (addFile packages) files [] in
        let changed :=
          fold_left (addCommit packages) (commitLines commitMessages) byFile in
        match selectPackages packages changed with
        | [] => packages
        | result => result
        end
    end.

(* ================================================================== *)
(** * ReleaseOrchestrator ([calverRelease], [runPlugins], [analyzeStep]) *)
(* ================================================================== *)

Module Orchestrator.

(** One entry of [releases] in [analyzeStep] (lines 186-194); the notes
    text produced by [generateReleaseNotes] is not part of the decision
    and is left out. *)
Record ReleaseResult := mkRelease {
  package : Package;
  analysis : CommitAnalysis;
  version : string;
  packageName : option string;
  tagName : string
}.

(** [NextRelease]: one release, or [{ type: 'multi', releases }]; [notes]
    is attached by the orchestrator at line 103. *)
Inductive ReleaseSet :=
| Single (r : ReleaseResult)
| Multi (rs : list ReleaseResult).

Record NextRelease := mkNext {
  releases : ReleaseSet;
  notes : option string
}.

(** The lifecycle context, shared by reference with every hook, which may
    change any of it.  [config] is the object of line 62, which the
    orchestrator consults at line 106; [ctx.options] refers to that same
    object (line 72) until a hook assigns the property, and
    [optionsProp] is [Some] from then on. *)
Record Ctx := mkCtx {
  config : Options;
  optionsProp : option Options;
  nextRelease : option NextRelease;
  packages : option (list Package);
  fields : list (string * string)
}.

(** [ctx.options] *)
Definition options (c : Ctx) : Options :=
  match optionsProp c with
  | Some o => o
  | None => config c
  end.

Definition Error := string.

Inductive Outcome (A : Type) :=
| Returned (a : A)
| Threw (e : Error).
Arguments Returned {A} a.
Arguments Threw {A} e.

(** What a hook hands back: a string (notes), an array (publish results),
    or nothing ([undefined]). *)
Inductive Value := Str (s : string) | Arr (items : list string).

(** A lifecycle hook: called with the context and, for failure hooks, the
    error; it returns or throws, and leaves the context as it likes. *)
Definition Hook := Ctx -> list Error -> Outcome (option Value) * Ctx.

Record PluginCollection := mkPlugins {
  verifyConditions : list Hook;
  analyzeCommitsHooks : list Hook;
  verifyRelease : list Hook;
  generateNotes : list Hook;
  prepare : list Hook;
  publish : list Hook;
  success : list Hook;
  fail : list Hook
}.

Inductive Stage :=
| VerifyConditions | VerifyRelease | GenerateNotes
| Prepare | Publish | Success | Fail.

Definition Stage_eqb (a b : Stage) : bool :=
  match a, b with
  | VerifyConditions, VerifyConditions | VerifyRelease, VerifyRelease
  | GenerateNotes, GenerateNotes | Prepare, Prepare | Publish, Publish
  | Success, Success | Fail, Fail => true
  | _, _ => false
  end.

(** The run state: the context, and the record of which hook was called,
    in order ([(stage, position in the stage's list)]). *)
Record State := mkState {
  ctx : Ctx;
  calls : list (Stage * nat)
}.

Definition M (A : Type) := State -> Outcome A * State.

Definition ret {A} (a : A) : M A := fun st => (Returned a, st).

Definition bind {A B} (m : M A) (k : A -> M B) : M B :=
  fun st =>
    match m st with
    | (Returned a, st') => k a st'
    | (Threw e, st') => (Threw e, st')
    end.

Definition throw {A} (e : Error) : M A := fun st => (Threw e, st).

(** [try { m } catch (error) { h(error) }] *)
Definition try_catch {A} (m : M A) (h : Error -> M A) : M A :=
  fun st =>
    match m st with
    | (Returned a, st') => (Returned a, st')
    | (Threw e, st') => h e st'
    end.

Notation "x <- m ;; k" := (bind m (fun x => k))
  (at level 61, m at next level, right associativity).

(** [await plugin(ctx, ...args)] *)
Definition call (stage : Stage) (i : nat) (plugin : Hook) (args : list Error)
  : M (option Value) :=
  fun st =>
    let (o, c) := plugin (ctx st) args in
    (o, mkState c (calls st ++ [(stage, i)])%list).

(** The loop of [runPlugins] (lines 243-254) from position [i] on: the
    [catch] logs and throws the error again, which ends the loop. *)
Fixpoint runPluginsFrom (stage : Stage) (i : nat) (plugins : list Hook)
    (args : list Error) (results : list Value) : M (list Value) :=
  match plugins with
  | [] => ret results
  | plugin :: rest =>
      result <- call stage i plugin args ;;
      runPluginsFrom stage (S i) rest args
        (match result with
         | Some v => (results ++ [v])%list
         | None => results
         end)
  end.

Definition runPlugins (stage : Stage) (plugins : list Hook)
    (args : list Error) : M (list Value) :=
  runPluginsFrom stage 0 plugins args [].

(** What [analyzeStep] reads besides the [World] of the release core:
    [discoverWorkspaces(detectMonorepoConfig())] and
    [getCommitsSinceLastRelease()]; [None] when they throw, and
    [Some None] for the [null] of an empty log. *)
Record Repo := mkRepo {
  world : World;
  discovered : option (list Package);
  commitsSinceLastRelease : option (option string)
}.

Definition releaseOf (w : World) (opts : Options) (commits : string)
    (pkg : Package) : list ReleaseResult :=
  match analyzeCommits commits (path pkg) with
  | Some a =>
      if shouldRelease a then
        let v := generateCalVerVersion w (releaseType a) (path pkg) opts in
        let pn := if String.eqb (name pkg) "root" then None
                  else Some (name pkg) in
        let tag := match pn with
                   | Some n =>
                       if nonempty n then "v-" ++ v ++ "-" ++ n ++ "-release"
                       else "v-" ++ v
                   | None => "v-" ++ v
                   end in
        [mkRelease pkg a v pn tag]
      else []
  | None => []
  end.

(** [analyzeStep(ctx)] (lines 148-210): [None] is
    [{ shouldRelease: false }]. *)
Definition analyzeStep (r : Repo) : M (option NextRelease) :=
  fun st =>
    match discovered r with
    | None => (Threw "discoverWorkspaces", st)
    | Some pkgs =>
        let c := ctx st in
        let st1 :=
          mkState (mkCtx (config c) (optionsProp c) (nextRelease c)
                         (Some pkgs) (fields c))
                  (calls st) in
        match commitsSinceLastRelease r with
        | None => (Threw "getCommitsSinceLastRelease", st1)
        | Some None => (Returned None, st1)
        | Some (Some commits) =>
            if nonempty commits then
              let toRelease := getChangedPackages (world r) pkgs commits in
              match flat_map (releaseOf (world r) (options c) commits)
                             toRelease with
              | [] => (Returned None, st1)
              | [one] => (Returned (Some (mkNext (Single one) None)), st1)
              | many => (Returned (Some (mkNext (Multi many) None)), st1)
              end
            else (Returned None, st1)
        end
    end.

(** [ctx.nextRelease = analysis.nextRelease] *)
Definition setNextRelease (n : NextRelease) : M unit :=
  fun st =>
    let c := ctx st in
    (Returned tt,
     mkState (mkCtx (config c) (optionsProp c) (Some n) (packages c)
                    (fields c))
             (calls st)).

(** Truthiness and string conversion of a hook's value, for
    [notes.filter(n => n).join(...)]. *)
Definition value_truthy (v : Value) : bool :=
  match v with
  | Str s => nonempty s
  | Arr _ => true
  end.

Definition value_string (v : Value) : string :=
  match v with
  | Str s => s
  | Arr items => Js.join "," items
  end.

(** Line 103: [ctx.nextRelease!.notes = notes.filter(n => n).join('\\n\\n')];
    a hook may have removed [ctx.nextRelease], then the assignment
    throws. *)
Definition attachNotes (vs : list Value) : M unit :=
  fun st =>
    let c := ctx st in
    match nextRelease c with
    | Some n =>
        let text :=
          Js.join (BACKSLASH_N ++ BACKSLASH_N)
                  (map value_string (filter value_truthy vs)) in
        (Returned tt,
         mkState (mkCtx (config c) (optionsProp c)
                        (Some (mkNext (releases n) (Some text)))
                        (packages c) (fields c))
                 (calls st))
    | None => (Threw "TypeError", st)
    end.

Definition getCtx : M Ctx := fun st => (Returned (ctx st), st).

Inductive CalverReleaseResult :=
| NoRelease                                    (* { released: false } *)
| DryRunComplete (next : option NextRelease)   (* { released: false, dryRun: true, nextRelease } *)
| Released (next : option NextRelease) (published : list string).

(** [publishResult.flat()] *)
Definition flat (vs : list Value) : list string :=
  flat_map (fun v => match v with
                     | Str s => [s]
                     | Arr items => items
                     end) vs.

(** Lines 82-103 of the [try] block: up to the notes being attached.
    [None] is the early [return { released: false }] of line 92. *)
Definition untilNotes (r : Repo) (plugins : PluginCollection)
  : M (option unit) :=
  _ <- runPlugins VerifyConditions (verifyConditions plugins) [] ;;
  found <- analyzeStep r ;;
  match found with
  | None => ret None
  | Some next =>
      _ <- setNextRelease next ;;
      _ <- runPlugins VerifyRelease (verifyRelease plugins) [] ;;
      produced <- runPlugins GenerateNotes (generateNotes plugins) [] ;;
      _ <- attachNotes produced ;;
      ret (Some tt)
  end.

(** Lines 105-134: the dry-run test and the three stages behind it. *)
Definition afterNotes (plugins : PluginCollection) : M CalverReleaseResult :=
  c <- getCtx ;;
  if truthy (dryRun (config c)) then
    ret (DryRunComplete (nextRelease c))
  else
    _ <- runPlugins Prepare (prepare plugins) [] ;;
    publishResult <- runPlugins Publish (publish plugins) [] ;;
    _ <- runPlugins Success (success plugins) [] ;;
    c' <- getCtx ;;
    ret (Released (nextRelease c') (flat publishResult)).

(** The [try] block of [calverRelease] (lines 80-134). *)
Definition pipeline (r : Repo) (plugins : PluginCollection)
  : M CalverReleaseResult :=
  reached <- untilNotes r plugins ;;
  match reached with
  | None => ret NoRelease
  | Some _ => afterNotes plugins
  end.

(** [calverRelease]: the [try] block, and the [catch] of lines 136-142:
    [await runPlugins(plugins.fail || [], ctx, error); throw error]. *)
Definition calverRelease (r : Repo) (plugins : PluginCollection)
  : M CalverReleaseResult :=
  try_catch (pipeline r plugins)
    (fun error =>
       _ <- runPlugins Fail (fail plugins) [error] ;;
       throw error).

(** The calls of one stage, in the order they were made. *)
Definition callsOf (stage : Stage) (st : State) : list nat :=
  map snd (filter (fun c => Stage_eqb (fst c) stage) (calls st)).

Definition start (c : Ctx) : State := mkState c [].

(** The stages that act on the outside world. *)
Definition sideEffectStage (s : Stage) : bool :=
  match s with
  | Prepare | Publish | Success => true
  | _ => false
  end.

End Orchestrator.

(* ================================================================== *)
(** * Vocabulary of the properties *)
(* ================================================================== *)

Import Orchestrator.

(** ** The resolver's variables *)

(** The variables of [generateCalVerVersion] as functions of what it is
    given and what it reads. *)
Definition isNpmCompatibleOf (options : Options) : bool :=
  String.eqb (determineVersionFormat options) ThreePart.

Definition targetOf (w : World) (packagePath : string) (options : Options)
  : Target :=
  determineTarget (packageJsonVersionAt w packagePath)
                  (existingTags w packagePath) options
                  (currentYearMonth (now w)).

Definition monthTagsOf (w : World) (packagePath : string) (options : Options)
  : list string :=
  currentMonthTags (isNpmCompatibleOf options)
                   (targetYearMonth (targetOf w packagePath options))
                   (existingTags w packagePath).

(** ** Strings *)

(** Every code unit of [s] satisfies [p]. *)
Fixpoint all (p : ascii -> bool) (s : string) : bool :=
  match s with
  | EmptyString => true
  | String c s' => p c && all p s'
  end.

Definition notDot (c : ascii) : bool := negb (Ascii.eqb c ".").

Definition notBackslash (c : ascii) : bool := negb (Ascii.eqb c "\").

Definition digitOrDot (c : ascii) : bool :=
  Js.is_digit c || Ascii.eqb c ".".

(** The decimal numeral of [n], as a template literal prints it. *)
Definition dec (n : N) : string := Js.toString (Js.Num n).

(** A year-month as the resolver builds it: two runs of digits around a
    dot. *)
Definition ymShape (t : string) : Prop :=
  exists y m,
    t = (y ++ "." ++ m)%string
    /\ all Js.is_digit y = true /\ all Js.is_digit m = true.

(** ** The order of versions *)

(** A version as a tuple of numbers, and the tuple order: the first
    difference decides, a proper prefix comes first. *)
Definition tupleOf (v : string) : list Js.number :=
  map Js.Number (Js.split "." v).

Fixpoint tupleLtb (a b : list Js.number) : bool :=
  match a, b with
  | [], _ :: _ => true
  | Js.Num x :: a', Js.Num y :: b' =>
      (x <? y)%N || ((x =? y)%N && tupleLtb a' b')
  | _, _ => false
  end.

(** The counters of a version: what follows year and month.  Within one
    year-month and format the tuple order is the order of the counters. *)
Definition countersOf (v : string) : list Js.number := skipn 2 (tupleOf v).

Definition countersLtb (a b : string) : bool :=
  tupleLtb (countersOf a) (countersOf b).

(** Tags of one month and format in the order of
    [git tag --sort=-version:refname]: highest first. *)
Definition highestFirst (tags : list string) : Prop :=
  StronglySorted (fun a b => countersLtb a b = false) tags.

(** A counter that a JS double holds exactly, with room to add one. *)
Definition safe (x : Js.number) : Prop :=
  match x with
  | Js.Num n => (n < Js.MAX_SAFE_INTEGER)%N
  | Js.NaN => True
  end.

Definition safeTag (tag : string) : Prop := Forall safe (tupleOf tag).

(** ** Commits *)

(** The commits of a log that [analyzeCommits] does not pass over for a
    package, as messages. *)
Definition attributed (packagePath commit : string) : bool :=
  negb (skippedForPackage packagePath (messageOf commit)).

Definition attributedMessages (packagePath commitMessages : string)
  : list string :=
  map messageOf (filter (attributed packagePath) (commitLines commitMessages)).

(** What one message does to the three flags and to [releaseCommits]. *)
Definition qualifies (message : string) : bool :=
  match classify message with Some _ => true | None => false end.

Definition setsFeature (message : string) : bool :=
  match classify message with Some Sparkles => true | _ => false end.

Definition setsFix (message : string) : bool :=
  match classify message with Some Bug | Some Zap => true | _ => false end.

Definition setsBreaking (message : string) : bool :=
  match classify message with Some Collision => true | _ => false end
  || Js.includes message "BREAKING CHANGE:".

Definition annotate (message : string) : list (Annotation * string) :=
  match classify message with
  | Some a => [(a, message)]
  | None => []
  end.

(** ** Runs *)

(** A hook that leaves the [config] object as it found it. *)
Definition keepsConfig (h : Hook) : Prop :=
  forall c args, config (snd (h c args)) = config c.

(** No call of a stage that acts on the outside world is on record. *)
Definition quiet (st : State) : Prop :=
  Forall (fun c => sideEffectStage (fst c) = false) (calls st).

(* ================================================================== *)
(** * Scenarios *)
(* ================================================================== *)

Definition july2025 : Date := mkDate 2025 6.
Definition august2025 : Date := mkDate 2025 7.

(** A repository in which no git query succeeds and no package.json is
    found, in August 2025. *)
Definition bareWorld : World :=
  mkWorld (fun _ => None) None None None None None august2025.

(** A repository with a declared version and a tag listing. *)
Definition worldWith (declared : option string) (tagOutput : string)
    (d : Date) : World :=
  mkWorld (fun _ => declared) (Some tagOutput) None None None None d.

(** A repository with a tag, whose diff since that tag is [listing]. *)
Definition diffWorld (listing : string) : World :=
  mkWorld (fun _ => None) None (Some ("v-25.07.1" ++ LF)) (Some listing)
          None None august2025.

Definition withFormat (f : string) : Options :=
  mkOptions None None None None None None None (Some f) None.

Definition withAutoMonth (f : string) : Options :=
  mkOptions None None None None None None (Some true) (Some f) None.

(** Scenario B as git reports it: the listing of the tags v-25.07.3 and
    v-25.07.2, one per line. *)
Definition twoTagsListed : string :=
  "v-25.07.3" ++ LF ++ "v-25.07.2" ++ LF.

(** Scenario E: the packages core and ui, and a log with the single line
    [abc1234 feat(core): x] of [git log --oneline]. *)
Definition corePackage : Package :=
  mkPackage "core" "packages/core" "packages/core/package.json".
Definition uiPackage : Package :=
  mkPackage "ui" "packages/ui" "packages/ui/package.json".
Definition coreAndUi : list Package := [corePackage; uiPackage].
Definition coreLog : string := "abc1234 feat(core): x".

(** Hooks. *)
Definition quietHook : Hook := fun c _ => (Returned None, c).
Definition throwingHook (e : Error) : Hook := fun c _ => (Threw e, c).
Definition notesHook (text : string) : Hook :=
  fun c _ => (Returned (Some (Str text)), c).

Definition rootPackage : Package := mkPackage "root" "." "package.json".

(** A single-package repository with one feature commit, in August 2025,
    no tag and no declared version. *)
Definition featureRepo : Repo :=
  mkRepo bareWorld (Some [rootPackage]) (Some (Some "abc1234 feat: x")).

Definition ctxOf (cfg : Options) : Ctx := mkCtx cfg None None None [].

Definition dryConfig : Options :=
  mkOptions (Some ["main"]) None (Some true) None None None None None
            (Some default_plugins).

Definition liveConfig : Options :=
  mkOptions (Some ["main"]) None (Some false) None None None None None
            (Some default_plugins).

(** Every stage has a hook; the publish hook throws, the first failure
    hook throws as well. *)
Definition failingPlugins : PluginCollection :=
  mkPlugins [quietHook] [] [quietHook] [notesHook "notes"]
            [quietHook] [throwingHook "publish failed"] [quietHook]
            [throwingHook "notify failed"; quietHook].


(** [options] with another [dryRun]. *)
Definition setDryRun (b : bool) (o : Options) : Options :=
  mkOptions (branches o) (tagFormat o) (Some b) (debug o) (ci o)
            (repositoryUrl o) (autoUpdateMonth o) (versionFormat o)
            (plugins o).

(** A hook that does [ctx.options.dryRun = false]: [ctx.options] is the
    [config] object itself (line 72) unless a hook has assigned the
    property. *)
Definition flipHook : Hook :=
  fun c _ =>
    (Returned None,
     match optionsProp c with
     | None =>
         mkCtx (setDryRun false (config c)) None (nextRelease c)
               (packages c) (fields c)
     | Some o =>
         mkCtx (config c) (Some (setDryRun false o)) (nextRelease c)
               (packages c) (fields c)
     end).

(** Every stage has a hook and none throws; the verifyRelease hook writes
    the configuration. *)
Definition flippingPlugins : PluginCollection :=
  mkPlugins [quietHook] [] [flipHook] [notesHook "notes"]
            [quietHook] [quietHook] [quietHook] [].


(* ================================================================== *)
(** * The statements of the specification that the code does not meet *)
(* ================================================================== *)


(** C2 as worded: with the emitted version entered first in the tag list
    and everything else as it was, the next emitted version is strictly
    above it, and the emitted version is not among the tags it was
    computed from. *)
Definition emitted_versions_increase (rt1 rt2 : ReleaseType)
    (options : Options) (declared : option string) (tags : list string)
    (current : string) : Prop :=
  let v1 := resolveVersion rt1 options declared tags current in
  let v2 := resolveVersion rt2 options declared (v1 :: tags) current in
  countersLtb v1 v2 = true /\ ~ In v1 tags.

(** C3 as worded: the declared parameters alone fix the result. *)
Definition pure_in_declared_inputs : Prop :=
  forall (w1 w2 : World) rt packagePath options,
    generateCalVerVersion w1 rt packagePath options
    = generateCalVerVersion w2 rt packagePath options.

(** C6 as worded: a manual bump is flagged exactly when [autoUpdateMonth]
    is off and the year-month of the parseable declared version differs
    from that of the most recent tag. *)
Definition manual_bump_as_claimed (declared : option string)
    (tags : list string) (options : Options) (current : string) : Prop :=
  isManualBump (determineTarget declared tags options current) = true
  <->
  (truthy (autoUpdateMonth options) = false
   /\ exists v latestTag rest,
        declared = Some v /\ is_calver v = true
        /\ tags = latestTag :: rest
        /\ yearMonthOf v <> yearMonthOf latestTag).


(** C8 as worded: the attribution rule of the classifier, and scenario E
    for whatever the repository holds. *)
Definition scoping_as_claimed : Prop :=
  (forall packagePath commit scope,
      packagePath <> "." ->
      scopeOf (messageOf commit) = Some scope ->
      attributed packagePath commit = true ->
      Js.includes scope (Js.basename packagePath) = true)
  /\ (forall packagePath commit,
        scopeOf (messageOf commit) = None ->
        attributed packagePath commit = true)
  /\ (forall w, getChangedPackages w coreAndUi coreLog = [corePackage])
  /\ analyzeCommits coreLog (path uiPackage) = None.

(* ================================================================== *)
(** * Reading the commit log ([getCommitsSinceLastRelease]) *)
(* ================================================================== *)

(** What [git log] answers; [None] when [execSync] throws. *)
Record GitLog := mkGitLog {
  (** stdout of [git log --oneline <latestTag>..HEAD] *)
  gitLogSinceTag : option string;
  (** stdout of [git log --oneline] *)
  gitLogAll : option string
}.

(** [getCommitsSinceLastRelease()] (orchestrator, lines 215-235): [None]
    when an [execSync] that no [try] guards throws, [Some None] for
    [null]. *)
Definition getCommitsSinceLastRelease (w : World) (g : GitLog)
  : option (option string) :=
  let latestTag :=
    match gitDescribe w with
    | Some out => Js.trim out
    | None => EmptyString
    end in
  let commits :=
    if nonempty latestTag then
      match gitLogSinceTag g with
      | Some out => Some (Js.trim out)
      | None => option_map Js.trim (gitLogAll g)
      end
    else option_map Js.trim (gitLogAll g) in
  option_map (fun c => if nonempty c then Some c else None) commits.

(* ================================================================== *)
(** * Workspace discovery ([detectMonorepoConfig], [discoverWorkspaces]) *)
(* ================================================================== *)

(** The [workspaces] property of the root package.json: an array, or an
    object with an optional [packages] array. *)
Inductive Workspaces :=
| WorkspaceList (patterns : list string)
| WorkspaceObject (patterns : option (list string)).

(** What [fs], [JSON.parse], [require('js-yaml')] and [path.join] answer.
    For a read, [None] means that reading or parsing throws; for a
    property, [None] means that it is absent (or falsy). *)
Record Files := mkFiles {
  existsSync : string -> bool;
  (** [readdirSync(dir, { withFileTypes: true })], the names of the
      entries that are directories *)
  readdirDirs : string -> option (list string);
  (** the [name] of the package.json at a path *)
  packageJsonName : string -> option (option string);
  (** the [workspaces] of the root package.json *)
  rootWorkspaces : option (option Workspaces);
  (** the [packages] of lerna.json *)
  lernaPackages : option (option (list string));
  (** [workspaceLayout.libsDir] and [workspaceLayout.appsDir] of nx.json *)
  nxLayout : option (option string * option string);
  (** the [packages] of pnpm-workspace.yaml as js-yaml gives them; [None]
      when anything in the inner [try] (lines 677-681) throws *)
  pnpmYamlPackages : option (option (list string));
  (** the text of pnpm-workspace.yaml *)
  pnpmWorkspaceText : option string;
  pathJoin : string -> string -> string
}.

Inductive MonorepoConfig :=
| LernaConfig | NxConfig | RushConfig | PnpmWorkspaceConfig
| NpmWorkspacesConfig (workspaces : Workspaces)
| SingleConfig.

(** [detectMonorepoConfig()] (lines 614-642); [None] when
    [JSON.parse(fs.readFileSync('package.json'))] throws. *)
Definition detectMonorepoConfig (fs : Files) : option MonorepoConfig :=
  if existsSync fs "lerna.json" then Some LernaConfig
  else if existsSync fs "nx.json" then Some NxConfig
  else if existsSync fs "rush.json" then Some RushConfig
  else if existsSync fs "pnpm-workspace.yaml" then Some PnpmWorkspaceConfig
  else if existsSync fs "package.json" then
    match rootWorkspaces fs with
    | None => None
    | Some (Some ws) => Some (NpmWorkspacesConfig ws)
    | Some None => Some SingleConfig
    end
  else Some SingleConfig.

(** [packageJson.name || fallback] *)
Definition nameOr (n : option string) (fallback : string) : string :=
  if truthy_str n then match n with Some s => s | None => fallback end
  else fallback.

(** The loop over [dirs] in [expandGlobPatterns] (lines 732-744).  An
    exception leaves the loop for the [catch] of line 757, which keeps
    what was pushed. *)
Fixpoint expandDirs (fs : Files) (baseDir : string) (dirs : list string)
    (packages : list Package) : list Package :=
  match dirs with
  | [] => packages
  | dir :: rest =>
      let pkgPath := pathJoin fs baseDir dir in
      let packageJsonPath := pathJoin fs pkgPath "package.json" in
      if existsSync fs packageJsonPath then
        match packageJsonName fs packageJsonPath with
        | Some n =>
            expandDirs fs baseDir rest
              (packages ++ [mkPackage (nameOr n dir) pkgPath packageJsonPath])%list
        | None => packages
        end
      else expandDirs fs baseDir rest packages
  end.

(** One turn of the loop over [patterns] (lines 721-759). *)
Definition expandPattern (fs : Files) (packages : list Package)
    (pattern : string) : list Package :=
  if Js.includes pattern "*" then
    let baseDir := hd EmptyString (Js.split "*" pattern) in
    if existsSync fs baseDir then
      match readdirDirs fs baseDir with
      | Some dirs => expandDirs fs baseDir dirs packages
      | None => packages
      end
    else packages
  else
    let packageJsonPath := pathJoin fs pattern "package.json" in
    if existsSync fs packageJsonPath then
      match packageJsonName fs packageJsonPath with
      | Some n =>
          (packages
           ++ [mkPackage (nameOr n (Js.basename pattern)) pattern
                         packageJsonPath])%list
      | None => packages
      end
    else packages.

(** [expandGlobPatterns(patterns)] (lines 718-762) *)
Definition expandGlobPatterns (fs : Files) (patterns : list string)
  : list Package :=
  fold_left (expandPattern fs) patterns [].

(** The loop of [findPackagesInDir] (lines 774-788); here an exception is
    not caught. *)
Fixpoint findInItems (fs : Files) (dir : string) (items : list string)
    (packages : list Package) : option (list Package) :=
  match items with
  | [] => Some packages
  | item :: rest =>
      let pkgPath := pathJoin fs dir item in
      let packageJsonPath := pathJoin fs pkgPath "package.json" in
      if existsSync fs packageJsonPath then
        match packageJsonName fs packageJsonPath with
        | Some n =>
            findInItems fs dir rest
              (packages ++ [mkPackage (nameOr n item) pkgPath packageJsonPath])%list
        | None => None
        end
      else findInItems fs dir rest packages
  end.

(** [findPackagesInDir(dir)] (lines 765-791); [None] when it throws. *)
Definition findPackagesInDir (fs : Files) (dir : string)
  : option (list Package) :=
  if negb (existsSync fs dir) then Some []
  else
    match readdirDirs fs dir with
    | Some items => findInItems fs dir items []
    | None => None
    end.

(** The fallback parsing of pnpm-workspace.yaml (lines 685-692).  In the
    regular expression
    [/packages:\\s*([\\s\\S]*?)(?:\\n\\w|$)/] every backslash is doubled,
    so each pair stands for the backslash itself: after [packages:] it
    asks for a backslash, any number of [s], a shortest run of code units
    among backslash, [s] and [S] (the captured group), and then the four
    code units backslash, n, backslash, w, or the end of the text. *)
Definition inGroupClass (c : ascii) : bool :=
  Ascii.eqb c "\" || Ascii.eqb c "s" || Ascii.eqb c "S".

(** The lazy group from one position on: what is captured when the rest
    of the pattern matches, trying the shortest run first. *)
Fixpoint lazyGroup (captured : string) (s : string) : option string :=
  if Js.startsWith s "\n\w" || String.eqb s EmptyString then Some captured
  else
    match s with
    | String c s' =>
        if inGroupClass c then lazyGroup (captured ++ String c EmptyString) s'
        else None
    | EmptyString => None
    end.

(** The pattern tried at the beginning of [s]. *)
Definition packagesMatchHere (s : string) : option string :=
  if Js.startsWith s "packages:\" then
    lazyGroup EmptyString
      (snd (Js.span (fun c => Ascii.eqb c "s") (Js.substring_from 10 s)))
  else None.

(** [yamlContent.match(...)]: the captured group of the leftmost match. *)
Fixpoint packagesMatch (s : string) : option string :=
  match packagesMatchHere s with
  | Some captured => Some captured
  | None =>
      match s with
      | String _ s' => packagesMatch s'
      | EmptyString => None
      end
  end.

(** The [replace] of line 690 with its [g] flag: every double and every
    single quotation mark is removed. *)
Fixpoint dropQuotes (s : string) : string :=
  match s with
  | EmptyString => EmptyString
  | String c s' =>
      if Ascii.eqb c (ascii_of_nat 34) || Ascii.eqb c "'" then dropQuotes s'
      else String c (dropQuotes s')
  end.

(** Lines 687-690: [packageLines]. *)
Definition packageLines (captured : string) : list string :=
  map (fun line => dropQuotes (Js.substring_from 2 line))
    (filter (fun line => Js.startsWith line "- ")
       (map Js.trim (Js.split BACKSLASH_N captured))).

(** What the [switch] of lines 653-701 pushes onto [packages]; [None] when
    an exception reaches the [catch] of line 702. *)
Definition collectPackages (fs : Files) (cfg : MonorepoConfig)
  : option (list Package) :=
  match cfg with
  | LernaConfig =>
      match lernaPackages fs with
      | Some found =>
          Some (expandGlobPatterns fs
                  (match found with
                   | Some patterns => patterns
                   | None => ["packages/*"]
                   end))
      | None => None
      end
  | NxConfig =>
      match nxLayout fs with
      | Some (libsDir, appsDir) =>
          let inDir (d : option string) : option (list Package) :=
            if truthy_str d
            then findPackagesInDir fs
                   (match d with Some s => s | None => EmptyString end)
            else Some [] in
          match inDir libsDir with
          | Some libs =>
              match inDir appsDir with
              | Some apps =>
                  match (libs ++ apps)%list with
                  | [] =>
                      Some (expandGlobPatterns fs
                              ["packages/*"; "apps/*"; "libs/*"])
                  | packages => Some packages
                  end
              | None => None
              end
          | None => None
          end
      | None => None
      end
  | RushConfig => Some []
  | PnpmWorkspaceConfig =>
      match pnpmYamlPackages fs with
      | Some found =>
          Some (expandGlobPatterns fs
                  (match found with
                   | Some patterns => patterns
                   | None => []
                   end))
      | None =>
          match pnpmWorkspaceText fs with
          | Some yamlContent =>
              match packagesMatch yamlContent with
              | Some captured =>
                  Some (expandGlobPatterns fs (packageLines captured))
              | None => Some []
              end
          | None => None
          end
      end
  | NpmWorkspacesConfig (WorkspaceList patterns) =>
      Some (expandGlobPatterns fs patterns)
  | NpmWorkspacesConfig (WorkspaceObject (Some patterns)) =>
      Some (expandGlobPatterns fs patterns)
  | NpmWorkspacesConfig (WorkspaceObject None) =>
      Some (expandGlobPatterns fs [])
  | SingleConfig => Some []
  end.

(** [discoverWorkspaces(monorepoConfig)] (lines 645-715) *)
Definition discoverWorkspaces (fs : Files) (cfg : MonorepoConfig)
  : list Package :=
  match cfg with
  | SingleConfig => [rootPackage]
  | _ =>
      match collectPackages fs cfg with
      | Some packages =>
          filter (fun pkg =>
                    existsSync fs (pathJoin fs (path pkg) "package.json"))
                 packages
      | None => [rootPackage]
      end
  end.

(** The repository as [analyzeStep] reads it (orchestrator, lines
    152-160). *)
Definition repoOf (w : World) (fs : Files) (g : GitLog) : Repo :=
  mkRepo w
         (option_map (discoverWorkspaces fs) (detectMonorepoConfig fs))
         (getCommitsSinceLastRelease w g).

(* ================================================================== *)
(** * The changelog ([updateChangelog]) *)
(* ================================================================== *)

(** The text a missing CHANGELOG.md stands for (line 1181). *)
Definition defaultChangelog : string :=
  "# Changelog" ++ LF ++ LF
  ++ "All notable changes to this project will be documented in this file."
  ++ LF ++ LF.

(** The loop of lines 1189-1198 from position [i] on; [previous] is
    [lines[i-1]] when [i > 0]. *)
Fixpoint insertIndexFrom (i : nat) (previous : option string)
    (lines : list string) (insertIndex : nat) : nat :=
  match lines with
  | [] => insertIndex
  | line :: rest =>
      if Js.startsWith line "## " then i
      else
        insertIndexFrom (S i) (Some line) rest
          (match previous with
           | Some p =>
               if Js.trim_truthy p && String.eqb (Js.trim line) EmptyString
               then S i else insertIndex
           | None => insertIndex
           end)
  end.

(** [updateChangelog(releaseNotes, packagePath)] (lines 1174-1209): the
    text written to [<packagePath>/CHANGELOG.md], given what the file
    holds ([None] when it does not exist). *)
Definition updateChangelog (existing : option string) (releaseNotes : string)
  : string :=
  let existingChangelog :=
    match existing with
    | Some text => text
    | None => defaultChangelog
    end in
  let lines := Js.split LF existingChangelog in
  let insertIndex := insertIndexFrom 0 None lines (List.length lines) in
  Js.join LF
    (firstn insertIndex lines
     ++ [releaseNotes; EmptyString] ++ skipn insertIndex lines)%list.

(* ================================================================== *)
(** * Loading the plugins ([getPlugins], plugins.ts) *)
(* ================================================================== *)

(** A loaded plugin: each lifecycle method is there or not. *)
Record Plugin := mkPlugin {
  onVerifyConditions : option Hook;
  onAnalyzeCommits : option Hook;
  onVerifyRelease : option Hook;
  onGenerateNotes : option Hook;
  onPrepare : option Hook;
  onPublish : option Hook;
  onSuccess : option Hook;
  onFail : option Hook
}.

(** [if (plugin.m) plugins.m.push(plugin.m.bind(plugin))] *)
Definition push (hooks : list Hook) (method : option Hook) : list Hook :=
  match method with
  | Some h => (hooks ++ [h])%list
  | None => hooks
  end.

(** Lines 44-51. *)
Definition register (plugins : PluginCollection) (plugin : Plugin)
  : PluginCollection :=
  mkPlugins (push (verifyConditions plugins) (onVerifyConditions plugin))
            (push (analyzeCommitsHooks plugins) (onAnalyzeCommits plugin))
            (push (verifyRelease plugins) (onVerifyRelease plugin))
            (push (generateNotes plugins) (onGenerateNotes plugin))
            (push (prepare plugins) (onPrepare plugin))
            (push (publish plugins) (onPublish plugin))
            (push (success plugins) (onSuccess plugin))
            (push (fail plugins) (onFail plugin)).

(** The loop of [getPlugins] (lines 40-52); [loadPlugin] is what
    [loadPlugin(pluginConfig, context)] answers, it may throw. *)
Fixpoint getPluginsFrom (loadPlugin : PluginDefinition -> Outcome Plugin)
    (pluginConfigs : list PluginDefinition) (plugins : PluginCollection)
  : Outcome PluginCollection :=
  match pluginConfigs with
  | [] => Returned plugins
  | pluginConfig :: rest =>
      match loadPlugin pluginConfig with
      | Returned plugin =>
          getPluginsFrom loadPlugin rest (register plugins plugin)
      | Threw e => Threw e
      end
  end.

Definition getPlugins (loadPlugin : PluginDefinition -> Outcome Plugin)
    (pluginConfigs : list PluginDefinition) : Outcome PluginCollection :=
  getPluginsFrom loadPlugin pluginConfigs (mkPlugins [] [] [] [] [] [] [] []).

(* ================================================================== *)
(** * Vocabulary of the further properties *)
(* ================================================================== *)

(** A code unit other than [c]. *)
Definition notChar (c d : ascii) : bool := negb (Ascii.eqb c d).

(** A line that opens a release section of the changelog. *)
Definition isHeading (line : string) : bool := Js.startsWith line "## ".

(** The text [updateChangelog] starts from. *)
Definition changelogText (existing : option string) : string :=
  match existing with
  | Some text => text
  | None => defaultChangelog
  end.

(** A package whose [packageJson] is the package.json of its path, and
    which the file system holds. *)
Definition found (fs : Files) (pkg : Package) : Prop :=
  packageJson pkg = pathJoin fs (path pkg) "package.json"
  /\ existsSync fs (packageJson pkg) = true.

(** The first [k] calls of a stage's loop, as [call] records them: the
    stage and the position in the loop. *)
Definition block (stage : Stage) (k : nat) : list (Stage * nat) :=
  map (pair stage) (seq 0 k).

(** [path.join] on the paths of the scenarios: the two parts with one
    slash between them. *)
Fixpoint joinPaths (a b : string) : string :=
  match a with
  | EmptyString => b
  | String c EmptyString =>
      if Ascii.eqb c "/" then String c b else String c ("/" ++ b)
  | String c a' => String c (joinPaths a' b)
  end.

(** A file system that holds only the files listed. *)
Definition filesWith (present : list string) : Files :=
  mkFiles (fun p => existsb (String.eqb p) present)
          (fun _ => None) (fun _ => None) None None None None None
          joinPaths.

(** A lerna monorepo with the default [packages/*] and the packages
    [core] and [ui]; the package.json of [ui] has no name. *)
Definition lernaFiles : Files :=
  mkFiles (fun p => existsb (String.eqb p)
                      ["lerna.json"; "package.json"; "packages/";
                       "packages/core/package.json";
                       "packages/ui/package.json"])
          (fun dir => if String.eqb dir "packages/"
                      then Some ["core"; "docs"; "ui"] else None)
          (fun p => if String.eqb p "packages/core/package.json"
                    then Some (Some "core") else Some None)
          (Some None) (Some None) None None None
          joinPaths.

(** A pnpm workspace as it is on disk: a [pnpm-workspace.yaml] that
    lists [packages/*], read as text because js-yaml is not there. *)
Definition pnpmFiles : Files :=
  mkFiles (fun p => existsb (String.eqb p)
                      ["pnpm-workspace.yaml"; "package.json";
                       "packages/"; "packages/core/package.json"])
          (fun dir => if String.eqb dir "packages/" then Some ["core"]
                      else None)
          (fun _ => Some (Some "core"))
          (Some None) None None None
          (Some ("packages:" ++ LF ++ "  - 'packages/*'" ++ LF))
          joinPaths.






(** The plugins of a configuration, loaded in its order; the first one
    that fails to load decides. *)
Fixpoint loadAll (loadPlugin : PluginDefinition -> Outcome Plugin)
    (pluginConfigs : list PluginDefinition) : Outcome (list Plugin) :=
  match pluginConfigs with
  | [] => Returned []
  | pluginConfig :: rest =>
      match loadPlugin pluginConfig with
      | Returned plugin =>
          match loadAll loadPlugin rest with
          | Returned loaded => Returned (plugin :: loaded)
          | Threw e => Threw e
          end
      | Threw e => Threw e
      end
  end.

(** The hooks that the loaded plugins have for one lifecycle method, in
    the order of the plugins. *)
Definition methods (method : Plugin -> option Hook) (loaded : list Plugin)
  : list Hook :=
  flat_map (fun plugin => match method plugin with
                          | Some h => [h]
                          | None => []
                          end) loaded.

Definition collectionOf (loaded : list Plugin) : PluginCollection :=
  mkPlugins (methods onVerifyConditions loaded)
            (methods onAnalyzeCommits loaded)
            (methods onVerifyRelease loaded)
            (methods onGenerateNotes loaded)
            (methods onPrepare loaded)
            (methods onPublish loaded)
            (methods onSuccess loaded)
            (methods onFail loaded).

(** One collection after another, stage by stage. *)
Definition merge (a b : PluginCollection) : PluginCollection :=
  mkPlugins (verifyConditions a ++ verifyConditions b)%list
            (analyzeCommitsHooks a ++ analyzeCommitsHooks b)%list
            (verifyRelease a ++ verifyRelease b)%list
            (generateNotes a ++ generateNotes b)%list
            (prepare a ++ prepare b)%list
            (publish a ++ publish b)%list
            (success a ++ success b)%list
            (fail a ++ fail b)%list.

(** A year-month of two digits, a dot and two digits. *)
Definition yymm (t : string) : Prop :=
  exists a b c d,
    t = String a (String b (String "." (String c (String d ""))))
    /\ Js.is_digit a = true /\ Js.is_digit b = true
    /\ Js.is_digit c = true /\ Js.is_digit d = true.

(** The tag that [analyzeStep] builds for a version (line 184);
    [packageName] is [None] for the root package. *)
Definition tagNameOf (version : string) (packageName : option string)
  : string :=
  match packageName with
  | Some n =>
      if nonempty n then "v-" ++ version ++ "-" ++ n ++ "-release"
      else "v-" ++ version
  | None => "v-" ++ version
  end.

(** [options] with another [versionFormat]. *)
Definition setVersionFormat (f : string) (o : Options) : Options :=
  mkOptions (branches o) (tagFormat o) (dryRun o) (debug o) (ci o)
            (repositoryUrl o) (autoUpdateMonth o) (Some f) (plugins o).

(** The first property that is present, from the strongest source to the
    weakest. *)
Fixpoint firstPresent {A} (sources : list (option A)) : option A :=
  match sources with
  | [] => None
  | Some a :: _ => Some a
  | None :: rest => firstPresent rest
  end.

(** Where a run stands when [analyzeStep] has proposed the release of
    [featureRepo] and line 97 has stored it. *)
Definition releaseProposed : State :=
  Eval vm_compute in
    snd ((found <- analyzeStep featureRepo ;;
          match found with
          | Some next => setNextRelease next
          | None => ret tt
          end) (start (ctxOf liveConfig))).

(** A date as [new Date()] gives it: a year that a JS number holds
    exactly, and a month index from 0 to 11. *)
Definition safeDate (d : Date) : Prop :=
  safe (Js.Num (getFullYear d)) /\ (getMonth d <= 11)%N.

(** The text that the callback of lines 1103-1111 searches: the plugin's
    name for a string or an array, its path for an object. *)
Definition pluginText (plugin : PluginDefinition) : string :=
  match plugin with
  | PluginName name => name
  | PluginTuple name _ => name
  | PluginObject path _ => path
  end.

(** Options that leave the format to the detection and configure the
    npm plugin, with options of its own, after the GitHub plugin. *)
Definition autoWithNpm : Options :=
  mkOptions None None None None None None None (Some "auto")
            (Some [PluginName "@calver-release/github";
                   PluginTuple "@calver-release/npm" []]).

(* ================================================================== *)
(** * Theorems *)
(* ================================================================== *)

(** ** Facts about the string primitives *)

Lemma append_assoc' :
  forall a b c : string, ((a ++ b) ++ c = a ++ (b ++ c))%string.
Proof.
  induction a as [| x a IH]; intros b c; cbn; [| rewrite IH]; reflexivity.
Qed.

Lemma append_nil_r : forall a : string, (a ++ "")%string = a.
Proof.
  induction a as [| x a IH]; cbn; [| rewrite IH]; reflexivity.
Qed.

Lemma prefix_nil : forall s, String.prefix "" s = true.
Proof. destruct s; reflexivity. Qed.

Lemma prefix_cons :
  forall a p b s,
    String.prefix (String a p) (String b s)
    = if Ascii.eqb a b then String.prefix p s else false.
Proof.
  intros a p b s.
  change (String.prefix (String a p) (String b s))
    with (match ascii_dec a b with
          | left _ => String.prefix p s
          | right _ => false
          end).
  destruct (ascii_dec a b) as [-> | N].
  - rewrite Ascii.eqb_refl. reflexivity.
  - apply Ascii.eqb_neq in N. rewrite N. reflexivity.
Qed.

Lemma prefix_app : forall p s, String.prefix p (p ++ s) = true.
Proof.
  induction p as [| c p IH]; intros s; cbn [append].
  - apply prefix_nil.
  - rewrite prefix_cons, Ascii.eqb_refl. apply IH.
Qed.

Lemma prefix_weaken :
  forall a b s, String.prefix (a ++ b) s = true -> String.prefix a s = true.
Proof.
  induction a as [| c a IH]; intros b s H.
  - apply prefix_nil.
  - destruct s as [| d s]; [discriminate H |].
    cbn [append] in H. rewrite prefix_cons in *.
    destruct (Ascii.eqb c d); [eapply IH; eassumption | discriminate].
Qed.

Lemma prefix_refl : forall s, String.prefix s s = true.
Proof.
  intros s. rewrite <- (append_nil_r s) at 2. apply prefix_app.
Qed.

Lemma includes_refl : forall s, Js.includes s s = true.
Proof.
  intros s. destruct s; cbn [Js.includes]; rewrite prefix_refl; reflexivity.
Qed.

Lemma includes_weaken :
  forall s a b, Js.includes s (a ++ b) = true -> Js.includes s a = true.
Proof.
  induction s as [| c s IH]; intros a b H; cbn [Js.includes] in *.
  - rewrite orb_false_r in *. eapply prefix_weaken; eassumption.
  - apply orb_true_iff in H. apply orb_true_iff. destruct H as [H | H].
    + left. eapply prefix_weaken; eassumption.
    + right. eapply IH; eassumption.
Qed.

Lemma all_app :
  forall p a b, all p (a ++ b) = all p a && all p b.
Proof.
  induction a as [| c a IH]; intros b; cbn.
  - reflexivity.
  - rewrite IH, andb_assoc. reflexivity.
Qed.

Lemma digit_notDot : forall c, Js.is_digit c = true -> notDot c = true.
Proof.
  intros c H. unfold notDot.
  destruct (Ascii.eqb_spec c ".") as [-> | N]; [discriminate H | reflexivity].
Qed.

Lemma all_digit_notDot :
  forall s, all Js.is_digit s = true -> all notDot s = true.
Proof.
  induction s as [| c s IH]; cbn; intros H; [reflexivity |].
  apply andb_true_iff in H. destruct H as [Hc Hs].
  rewrite (digit_notDot c Hc), (IH Hs). reflexivity.
Qed.

Lemma prefix_dot :
  forall c s, String.prefix "." (String c s) = Ascii.eqb c ".".
Proof.
  intros c s. rewrite prefix_cons, prefix_nil, Ascii.eqb_sym.
  destruct (Ascii.eqb c "."); reflexivity.
Qed.

(** Splitting at dots: a dot-free piece is kept whole. *)
Lemma split_go_nodot :
  forall X cur,
    all notDot X = true -> Js.split_go "." 0 cur X = [(cur ++ X)%string].
Proof.
  induction X as [| c X IH]; intros cur H.
  - cbn. rewrite append_nil_r. reflexivity.
  - cbn [all] in H. apply andb_true_iff in H. destruct H as [Hc HX].
    cbn [Js.split_go]. rewrite prefix_dot.
    unfold notDot in Hc. apply negb_true_iff in Hc. rewrite Hc.
    rewrite (IH _ HX), append_assoc'. reflexivity.
Qed.

Lemma split_go_dot :
  forall X cur s,
    all notDot X = true ->
    Js.split_go "." 0 cur (X ++ String "." s)
    = (cur ++ X)%string :: Js.split_go "." 0 "" s.
Proof.
  induction X as [| c X IH]; intros cur s H.
  - cbn [append Js.split_go]. rewrite prefix_dot. cbn.
    rewrite append_nil_r. reflexivity.
  - cbn [all] in H. apply andb_true_iff in H. destruct H as [Hc HX].
    cbn [append Js.split_go]. rewrite prefix_dot.
    unfold notDot in Hc. apply negb_true_iff in Hc. rewrite Hc.
    rewrite (IH _ _ HX), append_assoc'. reflexivity.
Qed.

Lemma split_nodot :
  forall X, all notDot X = true -> Js.split "." X = [X].
Proof. intros X H. unfold Js.split. rewrite split_go_nodot; auto. Qed.

Lemma split_dot :
  forall X s,
    all notDot X = true ->
    Js.split "." (X ++ String "." s) = X :: Js.split "." s.
Proof. intros X s H. unfold Js.split. rewrite split_go_dot; auto. Qed.

(** Numerals. *)
Lemma uint_of_digit :
  forall c d, Js.is_digit c = true -> exists d', uint_of_char c (Some d) = Some d'.
Proof.
  intros c d H.
  destruct c as [[|] [|] [|] [|] [|] [|] [|] [|]];
    try discriminate H; cbn; eauto.
Qed.

Lemma Number_digits :
  forall s, all Js.is_digit s = true -> exists n, Js.Number s = Js.Num n.
Proof.
  intros s H. unfold Js.Number.
  assert (E : exists d, NilEmpty.uint_of_string s = Some d).
  { induction s as [| c s IH]; cbn.
    - eauto.
    - cbn [all] in H. apply andb_true_iff in H. destruct H as [Hc Hs].
      destruct (IH Hs) as [d ->]. apply uint_of_digit. exact Hc. }
  destruct E as [d ->]. eauto.
Qed.

Lemma string_of_uint_digits :
  forall d, all Js.is_digit (NilEmpty.string_of_uint d) = true.
Proof. induction d; cbn; auto. Qed.

Lemma to_uint_nonnil : forall n, N.to_uint n <> Decimal.Nil.
Proof.
  intros [| p]; cbn.
  - discriminate.
  - apply DecimalPos.Unsigned.to_uint_nonnil.
Qed.

Lemma dec_NilEmpty :
  forall n, dec n = NilEmpty.string_of_uint (N.to_uint n).
Proof.
  intros n. unfold dec, Js.toString, NilZero.string_of_uint.
  pose proof (to_uint_nonnil n) as H.
  destruct (N.to_uint n); [contradiction | reflexivity ..].
Qed.

Lemma dec_digits : forall n, all Js.is_digit (dec n) = true.
Proof. intros n. rewrite dec_NilEmpty. apply string_of_uint_digits. Qed.

Lemma Number_dec : forall n, Js.Number (dec n) = Js.Num n.
Proof.
  intros n. rewrite dec_NilEmpty. unfold Js.Number.
  rewrite NilEmpty.usu, DecimalN.Unsigned.of_to. reflexivity.
Qed.

(** ** The shape of tags and of year-months *)

Lemma span_spec :
  forall p s a b,
    Js.span p s = (a, b) ->
    s = (a ++ b)%string /\ all p a = true.
Proof.
  intros p. induction s as [| c s IH]; intros a b H; cbn in H.
  - injection H as <- <-. split; reflexivity.
  - destruct (p c) eqn:Hc.
    + destruct (Js.span p s) as [a' b'] eqn:Hs.
      injection H as <- <-.
      destruct (IH a' b' eq_refl) as [-> Ha].
      split; [reflexivity |]. cbn. rewrite Hc, Ha. reflexivity.
    + injection H as <- <-. split; reflexivity.
Qed.

(** What [is_calver] accepts: YY.MM.D or YY.MM.D.D, all digits. *)
Lemma is_calver_shape :
  forall t,
    is_calver t = true ->
    exists y m d1,
      all Js.is_digit y = true /\ all Js.is_digit m = true
      /\ String.length y = 2 /\ String.length m = 2
      /\ all Js.is_digit d1 = true
      /\ (t = (y ++ "." ++ m ++ "." ++ d1)%string
          \/ exists d2,
               all Js.is_digit d2 = true
               /\ t = (y ++ "." ++ m ++ "." ++ d1 ++ "." ++ d2)%string).
Proof.
  intros t H. unfold is_calver, eat_yymm in H.
  destruct t as [| a [| b [| p [| c [| d [| q rest]]]]]]; try discriminate H.
  destruct (Js.is_digit a) eqn:Ha; [| discriminate H].
  destruct (Js.is_digit b) eqn:Hb; [| discriminate H].
  destruct (Ascii.eqb_spec p ".") as [-> | N]; [| discriminate H].
  destruct (Js.is_digit c) eqn:Hc; [| discriminate H].
  destruct (Js.is_digit d) eqn:Hd; [| discriminate H].
  destruct (Ascii.eqb_spec q ".") as [-> | N]; [| discriminate H].
  cbn [andb] in H. unfold counters_to_end in H.
  destruct (Js.span Js.is_digit rest) as [d1 r1] eqn:Hs1.
  destruct (span_spec _ _ _ _ Hs1) as [-> Hd1].
  apply andb_true_iff in H. destruct H as [_ H].
  exists (String a (String b "")), (String c (String d "")), d1.
  cbn [all String.length]. rewrite Ha, Hb, Hc, Hd.
  repeat (split; [reflexivity || exact Hd1 |]).
  destruct r1 as [| x r2].
  - left. rewrite append_nil_r. reflexivity.
  - right. apply andb_true_iff in H. destruct H as [Hx H].
    apply Ascii.eqb_eq in Hx. subst x.
    destruct (Js.span Js.is_digit r2) as [d2 r3] eqn:Hs2.
    destruct (span_spec _ _ _ _ Hs2) as [-> Hd2].
    apply andb_true_iff in H. destruct H as [_ H].
    apply String.eqb_eq in H. subst r3.
    exists d2. split; [exact Hd2 |]. rewrite append_nil_r. reflexivity.
Qed.

Lemma tupleOf_three :
  forall y m d1,
    all Js.is_digit y = true -> all Js.is_digit m = true ->
    all Js.is_digit d1 = true ->
    Js.split "." (y ++ "." ++ m ++ "." ++ d1) = [y; m; d1].
Proof.
  intros y m d1 Hy Hm Hd.
  change (y ++ "." ++ m ++ "." ++ d1)%string
    with (y ++ String "." (m ++ String "." d1))%string.
  rewrite split_dot by (apply all_digit_notDot; exact Hy).
  rewrite split_dot by (apply all_digit_notDot; exact Hm).
  rewrite split_nodot by (apply all_digit_notDot; exact Hd).
  reflexivity.
Qed.

Lemma tupleOf_four :
  forall y m d1 d2,
    all Js.is_digit y = true -> all Js.is_digit m = true ->
    all Js.is_digit d1 = true -> all Js.is_digit d2 = true ->
    Js.split "." (y ++ "." ++ m ++ "." ++ d1 ++ "." ++ d2) = [y; m; d1; d2].
Proof.
  intros y m d1 d2 Hy Hm Hd1 Hd2.
  change (y ++ "." ++ m ++ "." ++ d1 ++ "." ++ d2)%string
    with (y ++ String "." (m ++ String "." (d1 ++ String "." d2)))%string.
  rewrite split_dot by (apply all_digit_notDot; exact Hy).
  rewrite split_dot by (apply all_digit_notDot; exact Hm).
  rewrite split_dot by (apply all_digit_notDot; exact Hd1).
  rewrite split_nodot by (apply all_digit_notDot; exact Hd2).
  reflexivity.
Qed.

(** The counters of a tag that [is_calver] accepts are numbers. *)
Lemma calver_three_parts :
  forall t,
    is_calver t = true ->
    List.length (Js.split "." t) = 3 ->
    exists n, countersOf t = [Js.Num n] /\ counter 2 t = Js.Num n.
Proof.
  intros t Ht Hl.
  destruct (is_calver_shape t Ht)
    as (y & m & d1 & Hy & Hm & _ & _ & Hd1 & [-> | (d2 & Hd2 & ->)]).
  - destruct (Number_digits d1 Hd1) as [n Hn].
    exists n. unfold countersOf, counter, tupleOf.
    rewrite tupleOf_three by assumption. cbn. rewrite Hn. split; reflexivity.
  - rewrite tupleOf_four in Hl by assumption. discriminate Hl.
Qed.

Lemma calver_four_parts :
  forall t,
    is_calver t = true ->
    List.length (Js.split "." t) = 4 ->
    exists a b,
      countersOf t = [Js.Num a; Js.Num b]
      /\ counter 2 t = Js.Num a /\ counter 3 t = Js.Num b.
Proof.
  intros t Ht Hl.
  destruct (is_calver_shape t Ht)
    as (y & m & d1 & Hy & Hm & _ & _ & Hd1 & [-> | (d2 & Hd2 & ->)]).
  - rewrite tupleOf_three in Hl by assumption. discriminate Hl.
  - destruct (Number_digits d1 Hd1) as [a Ha].
    destruct (Number_digits d2 Hd2) as [b Hb].
    exists a, b. unfold countersOf, counter, tupleOf.
    rewrite tupleOf_four by assumption. cbn. rewrite Ha, Hb.
    repeat split; reflexivity.
Qed.

Lemma yearMonthOf_calver :
  forall v, is_calver v = true -> ymShape (yearMonthOf v).
Proof.
  intros v Hv.
  destruct (is_calver_shape v Hv)
    as (y & m & d1 & Hy & Hm & _ & _ & Hd1 & [-> | (d2 & Hd2 & ->)]);
    unfold yearMonthOf;
    [rewrite tupleOf_three by assumption | rewrite tupleOf_four by assumption];
    exists y, m; auto.
Qed.

Lemma all_substring_from :
  forall p n s, all p s = true -> all p (Js.substring_from n s) = true.
Proof.
  intros p. induction n as [| n IH]; intros s H.
  - destruct s; exact H.
  - destruct s as [| c s]; [reflexivity |].
    cbn in H. apply andb_true_iff in H. destruct H as [_ H].
    cbn. apply IH. exact H.
Qed.

Lemma currentYearMonth_shape : forall d, ymShape (currentYearMonth d).
Proof.
  intros d. unfold currentYearMonth.
  fold (dec (getFullYear d)). fold (dec (getMonth d + 1)).
  exists (Js.slice_last2 (dec (getFullYear d))),
         (Js.padStart2 (dec (getMonth d + 1))).
  split; [reflexivity |]. split.
  - unfold Js.slice_last2. apply all_substring_from. apply dec_digits.
  - unfold Js.padStart2.
    pose proof (dec_digits (getMonth d + 1)) as H.
    destruct (String.length (dec (getMonth d + 1))) as [| [| n]];
      [reflexivity | cbn; exact H | exact H].
Qed.

(** The target does not depend on the tags, and has the shape of a
    year-month. *)
Lemma target_ignores_tags :
  forall declared tags tags' options current,
    targetYearMonth (determineTarget declared tags options current)
    = targetYearMonth (determineTarget declared tags' options current)
    /\ isAutoMonthUpdate (determineTarget declared tags options current)
       = isAutoMonthUpdate (determineTarget declared tags' options current).
Proof.
  intros declared tags tags' options current. unfold determineTarget.
  destruct declared as [v |]; [| split; reflexivity].
  destruct (nonempty v && is_calver v); split; reflexivity.
Qed.

Lemma target_shape :
  forall declared tags options d,
    ymShape (targetYearMonth
               (determineTarget declared tags options (currentYearMonth d))).
Proof.
  intros declared tags options d. unfold determineTarget.
  destruct declared as [v |]; [| apply currentYearMonth_shape].
  destruct (nonempty v) eqn:Hn; cbn [andb]; [| apply currentYearMonth_shape].
  destruct (is_calver v) eqn:Hv; [| apply currentYearMonth_shape].
  cbn [targetYearMonth].
  destruct (truthy (autoUpdateMonth options)
            && Js.str_gt (currentYearMonth d) (yearMonthOf v)).
  - apply currentYearMonth_shape.
  - apply yearMonthOf_calver. exact Hv.
Qed.

(** ** VersionFormatResolver *)

Lemma npm_among_default_plugins :
  forall options,
    plugins options = Some default_plugins ->
    versionFormat options = None \/ versionFormat options = Some "auto" ->
    determineVersionFormat options = ThreePart
    /\ determineVersionFormat options <> FourPart
    /\ isNpmCompatibleOf options = true.
Proof.
  intros options Hp Hf.
  assert (E : determineVersionFormat options = ThreePart).
  { unfold determineVersionFormat, detectFormat.
    destruct Hf as [-> | ->]; rewrite Hp; reflexivity. }
  unfold isNpmCompatibleOf. rewrite E.
  split; [reflexivity | split; [discriminate | reflexivity]].
Qed.

(** C10.  With [versionFormat] unset or ["auto"] and the plugin list of the
    default configuration, [determineVersionFormat] answers the three-part
    format, never the four-part one: the list names
    ['@calver-release/npm']. *)
Theorem default_plugins_give_three_part :
  forall options,
    plugins options = Some default_plugins ->
    versionFormat options = None \/ versionFormat options = Some "auto" ->
    determineVersionFormat options = ThreePart
    /\ determineVersionFormat options <> FourPart
    /\ isNpmCompatibleOf options = true.
Proof.
  exact npm_among_default_plugins.
Qed.

(** The configuration of a run that sets nothing, in an empty
    environment. *)
Lemma default_plugins_give_three_part_witness :
  determineVersionFormat
    (getConfig (mkEnv None None None None) no_options no_options no_options)
  = ThreePart
  /\ determineVersionFormat
       (getConfig (mkEnv None None None None) no_options no_options
                  no_options)
     <> FourPart
  /\ isNpmCompatibleOf
       (getConfig (mkEnv None None None None) no_options no_options
                  no_options)
     = true.
Proof.
  apply (default_plugins_give_three_part
           (getConfig (mkEnv None None None None) no_options no_options
                      no_options)).
  - reflexivity.
  - left. reflexivity.
Defined.

(** A run whose configuration comes from the defaults alone, whatever the
    environment variables, resolves every version in the three-part
    format. *)
Lemma default_configuration_three_part :
  forall env w rt packagePath,
    let cfg := getConfig env no_options no_options no_options in
    determineVersionFormat cfg = ThreePart
    /\ generateCalVerVersion w rt packagePath cfg
       = computeVersion true rt (targetOf w packagePath cfg)
           (currentMonthTags true (targetYearMonth (targetOf w packagePath cfg))
              (existingTags w packagePath)).
Proof.
  intros env w rt packagePath cfg.
  destruct (npm_among_default_plugins cfg eq_refl (or_introl eq_refl))
    as (E & _ & _).
  split; [exact E |].
  unfold generateCalVerVersion, resolveVersion, targetOf. rewrite E.
  reflexivity.
Qed.

(** ** VersionResolver: the first release of a month *)

(** C4.  When no tag of the target year-month and active format is left, or
    a manual bump is flagged, or the month rolled automatically, the
    resolver returns the first release of the month: [YY.MM.1] in the
    three-part format, [YY.MM.0.1] otherwise. *)
Theorem first_release_of_month :
  forall w rt packagePath options,
    monthTagsOf w packagePath options = []
    \/ isManualBump (targetOf w packagePath options) = true
    \/ isAutoMonthUpdate (targetOf w packagePath options) = true ->
    generateCalVerVersion w rt packagePath options
    = if isNpmCompatibleOf options
      then targetYearMonth (targetOf w packagePath options) ++ ".1"
      else targetYearMonth (targetOf w packagePath options) ++ ".0.1".
Proof.
  intros w rt packagePath options H.
  unfold generateCalVerVersion, resolveVersion, computeVersion.
  fold (isNpmCompatibleOf options).
  fold (targetOf w packagePath options).
  fold (monthTagsOf w packagePath options).
  unfold firstOfMonth.
  destruct (monthTagsOf w packagePath options) as [| latestTag rest] eqn:E.
  - reflexivity.
  - destruct H as [H | [H | H]].
    + discriminate H.
    + rewrite H. reflexivity.
    + rewrite H. rewrite orb_true_r. reflexivity.
Qed.

(** Scenario A: no tags, no declared version, three-part format, August
    2025. *)
Lemma scenario_A :
  generateCalVerVersion bareWorld patch "." (withFormat ThreePart) = "25.08.1".
Proof.
  exact (first_release_of_month bareWorld patch "." (withFormat ThreePart)
           (or_introl eq_refl)).
Defined.

(** Scenario D: [autoUpdateMonth] on, declared 25.07.0.3, August 2025,
    whatever the tags. *)
Example scenario_D :
  forall tagOutput rt,
    generateCalVerVersion
      (worldWith (Some "25.07.0.3") tagOutput august2025) rt "."
      (withAutoMonth FourPart)
    = "25.08.0.1".
Proof.
  intros tagOutput rt.
  unfold generateCalVerVersion, resolveVersion, computeVersion.
  cbn [packageJsonVersionAt worldWith now].
  change (determineVersionFormat (withAutoMonth FourPart)) with FourPart.
  set (tags := existingTags _ _).
  change (determineTarget (Some "25.07.0.3") tags (withAutoMonth FourPart)
            (currentYearMonth august2025))
    with (mkTarget "25.08" false true).
  cbn [targetYearMonth isManualBump isAutoMonthUpdate orb].
  destruct (currentMonthTags _ _ _); reflexivity.
Qed.

(** ** VersionResolver: the manual bump *)

Lemma determineTarget_parsed :
  forall v tags options current,
    is_calver v = true ->
    determineTarget (Some v) tags options current
    = let auto := truthy (autoUpdateMonth options)
                  && Js.str_gt current (yearMonthOf v) in
      mkTarget (if auto then current else yearMonthOf v)
               (negb auto &&
                match tags with
                | latestTag :: _ =>
                    negb (String.eqb (if auto then current else yearMonthOf v)
                                     (yearMonthOf latestTag))
                | [] => false
                end)
               auto.
Proof.
  intros v tags options current Hv.
  unfold determineTarget. rewrite Hv.
  destruct v as [| c v']; [discriminate Hv | reflexivity].
Qed.

Lemma determineTarget_unparsed :
  forall declared tags options current,
    (forall v, declared = Some v -> is_calver v = false) ->
    determineTarget declared tags options current
    = mkTarget current false false.
Proof.
  intros declared tags options current H.
  unfold determineTarget.
  destruct declared as [v |]; [| reflexivity].
  rewrite (H v eq_refl). rewrite andb_false_r. reflexivity.
Qed.

Lemma manual_bump_characterised :
  forall declared tags options current,
    isManualBump (determineTarget declared tags options current) = true
    <->
    exists v latestTag rest,
      declared = Some v /\ is_calver v = true
      /\ tags = latestTag :: rest
      /\ (truthy (autoUpdateMonth options)
          && Js.str_gt current (yearMonthOf v)) = false
      /\ yearMonthOf v <> yearMonthOf latestTag.
Proof.
  intros declared tags options current. split.
  - destruct declared as [v |].
    + destruct (is_calver v) eqn:Hv.
      * rewrite (determineTarget_parsed v tags options current Hv).
        cbn [isManualBump].
        destruct (truthy (autoUpdateMonth options)
                  && Js.str_gt current (yearMonthOf v)) eqn:Ha.
        -- discriminate.
        -- destruct tags as [| latestTag rest]; [discriminate |].
           cbn [negb andb]. intros Hne.
           exists v, latestTag, rest.
           repeat split; try reflexivity; try assumption.
           intros Heq. rewrite <- Heq in Hne.
           rewrite String.eqb_refl in Hne. discriminate Hne.
      * rewrite determineTarget_unparsed; [discriminate |].
        intros v' [= <-]. exact Hv.
    + discriminate.
  - intros (v & latestTag & rest & -> & Hv & -> & Ha & Hne).
    rewrite (determineTarget_parsed v _ options current Hv).
    cbn [isManualBump]. rewrite Ha. cbn [negb andb].
    destruct (String.eqb_spec (yearMonthOf v) (yearMonthOf latestTag)) as [E | E].
    + contradiction.
    + reflexivity.
Qed.

(** C6, as the code has it.  A manual bump is flagged exactly when the
    declared version parses, no automatic month roll occurred (the option
    is off, or it is on and the current year-month is not greater than the
    declared one), a tag exists, and the declared year-month differs from
    the year-month of the first listed tag. *)
Theorem manual_bump_flagged_iff :
  forall declared tags options current,
    isManualBump (determineTarget declared tags options current) = true
    <->
    exists v latestTag rest,
      declared = Some v /\ is_calver v = true
      /\ tags = latestTag :: rest
      /\ (truthy (autoUpdateMonth options)
          && Js.str_gt current (yearMonthOf v)) = false
      /\ yearMonthOf v <> yearMonthOf latestTag.
Proof.
  exact manual_bump_characterised.
Qed.

(** With [autoUpdateMonth] off the claim's wording is what the code does. *)
Lemma manual_bump_when_auto_off :
  forall declared tags options current,
    truthy (autoUpdateMonth options) = false ->
    manual_bump_as_claimed declared tags options current.
Proof.
  intros declared tags options current Hoff.
  unfold manual_bump_as_claimed.
  rewrite manual_bump_characterised. rewrite Hoff. cbn [andb].
  split.
  - intros (v & latestTag & rest & Hd & Hv & Ht & _ & Hne).
    split; [reflexivity |]. exists v, latestTag, rest. auto.
  - intros (_ & v & latestTag & rest & Hd & Hv & Ht & Hne).
    exists v, latestTag, rest. auto.
Qed.

(** The claim's "never when [autoUpdateMonth] is enabled" fails: declared
    25.09.0.0 in August 2025 with the option on and a tag of 25.08 is a
    manual bump. *)
Lemma manual_bump_with_auto_on :
  ~ manual_bump_as_claimed (Some "25.09.0.0") ["25.08.0.3"]
      (withAutoMonth FourPart) "25.08".
Proof.
  unfold manual_bump_as_claimed. intros [H _].
  assert (F : isManualBump
                (determineTarget (Some "25.09.0.0") ["25.08.0.3"]
                   (withAutoMonth FourPart) "25.08") = true)
    by reflexivity.
  destruct (H F) as [Hoff _]. discriminate Hoff.
Qed.

(** The same run seen from outside: the first release of September is
    emitted although the option is on. *)
Example september_release_with_auto_on :
  generateCalVerVersion
    (worldWith (Some "25.09.0.0") "v-25.08.0.3" august2025) patch "."
    (withAutoMonth FourPart)
  = "25.09.0.1".
Proof. reflexivity. Qed.

(** ** VersionResolver: what the result depends on *)

(** C3, as the code has it.  The result is fixed by the release type, the
    resolved format, the [autoUpdateMonth] flag and by what the function
    reads itself: the declared version, the tags and the clock. *)
Theorem version_fixed_by_arguments_and_reads :
  forall w1 w2 rt packagePath o1 o2,
    determineVersionFormat o1 = determineVersionFormat o2 ->
    truthy (autoUpdateMonth o1) = truthy (autoUpdateMonth o2) ->
    packageJsonVersionAt w1 packagePath = packageJsonVersionAt w2 packagePath ->
    existingTags w1 packagePath = existingTags w2 packagePath ->
    currentYearMonth (now w1) = currentYearMonth (now w2) ->
    generateCalVerVersion w1 rt packagePath o1
    = generateCalVerVersion w2 rt packagePath o2.
Proof.
  intros w1 w2 rt packagePath o1 o2 Hf Ha Hd Ht Hc.
  unfold generateCalVerVersion, resolveVersion.
  rewrite Hf, Hd, Ht, Hc.
  assert (E : forall declared tags current,
             determineTarget declared tags o1 current
             = determineTarget declared tags o2 current).
  { intros declared tags current. unfold determineTarget.
    rewrite Ha. reflexivity. }
  rewrite E. reflexivity.
Qed.

(** Two repositories that differ in what the resolver does not read. *)
Lemma version_fixed_by_arguments_and_reads_witness :
  generateCalVerVersion
    (mkWorld (fun _ => Some "25.07.3") (Some "v-25.07.3") None None None None
             july2025) patch "." (withFormat ThreePart)
  = generateCalVerVersion
      (mkWorld (fun _ => Some "25.07.3") (Some "v-25.07.3") (Some "v-25.07.3")
               (Some "README.md") None None (mkDate 2025 6))
      patch "." (withFormat ThreePart).
Proof.
  apply version_fixed_by_arguments_and_reads; reflexivity.
Defined.

(** The declared parameters alone do not fix the result: the clock is read
    inside. *)
Lemma clock_is_read_inside : ~ pure_in_declared_inputs.
Proof.
  intros H.
  specialize (H bareWorld
                (mkWorld (fun _ => None) None None None None None july2025)
                patch "." (withFormat ThreePart)).
  discriminate H.
Qed.

(** Nor do they with the clock held fixed: the tag listing is read
    inside. *)
Example tags_are_read_inside :
  generateCalVerVersion (worldWith (Some "25.07.3") "v-25.07.3" july2025)
    patch "." (withFormat ThreePart) = "25.07.4"
  /\ generateCalVerVersion (worldWith (Some "25.07.3") "v-25.07.8" july2025)
       patch "." (withFormat ThreePart) = "25.07.9".
Proof. split; reflexivity. Qed.

(** ** ReleaseOrchestrator *)

(** What one run of [runPlugins] adds to the record of calls: the hooks of
    its list, from the first on, up to the end of the list or to the first
    hook that throws; that hook's error is the one thrown. *)
Lemma runPluginsFrom_calls :
  forall hooks stage i args results st o st',
    runPluginsFrom stage i hooks args results st = (o, st') ->
    exists k,
      k <= List.length hooks
      /\ calls st' = (calls st ++ map (pair stage) (seq i k))%list
      /\ match o with
         | Returned _ => k = List.length hooks
         | Threw e =>
             exists j h c,
               k = S j /\ nth_error hooks j = Some h
               /\ fst (h c args) = Threw e
         end.
Proof.
  induction hooks as [| plugin rest IH];
    intros stage i args results st o st' H.
  - cbn in H. injection H as <- <-.
    exists 0. cbn. rewrite app_nil_r. auto.
  - cbn [runPluginsFrom] in H. unfold bind, call in H.
    destruct (plugin (ctx st) args) as [o1 c1] eqn:Hp.
    destruct o1 as [result | e].
    + apply IH in H. destruct H as (k & Hk & Hc & Ho).
      exists (S k). cbn [List.length seq map]. split; [lia |]. split.
      * rewrite Hc. cbn [calls]. rewrite <- app_assoc. reflexivity.
      * destruct o as [a | e].
        -- lia.
        -- destruct Ho as (j & h & c & -> & Hn & Hf).
           exists (S j), h, c. auto.
    + injection H as <- <-.
      exists 1. cbn [List.length seq map calls]. split; [lia |]. split.
      * reflexivity.
      * exists 0, plugin, (ctx st). cbn. rewrite Hp. auto.
Qed.

Lemma runPlugins_calls :
  forall hooks stage args st o st',
    runPlugins stage hooks args st = (o, st') ->
    exists k,
      k <= List.length hooks
      /\ calls st' = (calls st ++ map (pair stage) (seq 0 k))%list
      /\ match o with
         | Returned _ => k = List.length hooks
         | Threw e =>
             exists j h c,
               k = S j /\ nth_error hooks j = Some h
               /\ fst (h c args) = Threw e
         end.
Proof.
  intros hooks stage args st o st'. unfold runPlugins.
  apply runPluginsFrom_calls.
Qed.




Example notify_error_reaches_caller :
  let (o, st') :=
    calverRelease featureRepo failingPlugins (start (ctxOf liveConfig)) in
  o = Threw "notify failed" /\ callsOf Fail st' = [0].
Proof. vm_compute. split; reflexivity. Qed.

(** *** Dry run *)

Lemma quiet_app :
  forall st extra,
    quiet st ->
    Forall (fun c => sideEffectStage (fst c) = false) extra ->
    Forall (fun c => sideEffectStage (fst c) = false) (calls st ++ extra)%list.
Proof.
  intros st extra Hq He. apply Forall_app. split; assumption.
Qed.

Lemma runPlugins_quiet :
  forall stage hooks args st o st',
    sideEffectStage stage = false ->
    quiet st ->
    runPlugins stage hooks args st = (o, st') ->
    quiet st'.
Proof.
  intros stage hooks args st o st' Hs Hq Hrun.
  destruct (runPlugins_calls _ _ _ _ _ _ Hrun) as (k & _ & Hc & _).
  unfold quiet. rewrite Hc. apply quiet_app; [assumption |].
  apply Forall_forall. intros c Hin.
  apply in_map_iff in Hin. destruct Hin as (i & <- & _). exact Hs.
Qed.

Lemma analyzeStep_calls :
  forall r st o st', analyzeStep r st = (o, st') -> calls st' = calls st.
Proof.
  intros r st o st' H. unfold analyzeStep in H.
  destruct (discovered r) as [pkgs |]; [| injection H as <- <-; reflexivity].
  destruct (commitsSinceLastRelease r) as [[commits |] |];
    try (injection H as <- <-; reflexivity).
  destruct (nonempty commits); [| injection H as <- <-; reflexivity].
  destruct (flat_map _ _) as [| one [| two more]];
    injection H as <- <-; reflexivity.
Qed.

Lemma attachNotes_calls :
  forall vs st o st', attachNotes vs st = (o, st') -> calls st' = calls st.
Proof.
  intros vs st o st' H. unfold attachNotes in H.
  destruct (nextRelease (ctx st)); injection H as <- <-; reflexivity.
Qed.

(** The first half of the [try] block calls no hook of a stage that acts
    on the outside world. *)
Lemma untilNotes_quiet :
  forall r plugins st o st',
    quiet st -> untilNotes r plugins st = (o, st') -> quiet st'.
Proof.
  intros r plugins st o st' Hq H.
  unfold untilNotes, bind in H.
  destruct (runPlugins VerifyConditions _ _ st) as [[vs1 | e1] s1] eqn:H1;
    pose proof (runPlugins_quiet VerifyConditions _ _ _ _ _ eq_refl Hq H1)
      as Q1;
    [| injection H as <- <-; exact Q1].
  destruct (analyzeStep r s1) as [[found | e2] s2] eqn:H2;
    pose proof (analyzeStep_calls _ _ _ _ H2) as C2;
    assert (Q2 : quiet s2) by (unfold quiet; rewrite C2; exact Q1);
    [| injection H as <- <-; exact Q2].
  destruct found as [next |]; [| injection H as <- <-; exact Q2].
  unfold setNextRelease in H.
  match type of H with
  | context [runPlugins VerifyRelease ?hs ?a ?s] =>
      destruct (runPlugins VerifyRelease hs a s) as [[vs3 | e3] s3] eqn:H3;
      assert (Q3 : quiet s3)
        by (refine (runPlugins_quiet VerifyRelease _ _ _ _ _ eq_refl _ H3);
            exact Q2)
  end;
    [| injection H as <- <-; exact Q3].
  destruct (runPlugins GenerateNotes _ _ s3) as [[vs4 | e4] s4] eqn:H4;
    pose proof (runPlugins_quiet GenerateNotes _ _ _ _ _ eq_refl Q3 H4) as Q4;
    [| injection H as <- <-; exact Q4].
  destruct (attachNotes vs4 s4) as [[u | e5] s5] eqn:H5;
    pose proof (attachNotes_calls _ _ _ _ H5) as C5;
    assert (Q5 : quiet s5) by (unfold quiet; rewrite C5; exact Q4);
    injection H as <- <-; exact Q5.
Qed.

Lemma dry_run_ends_at_preview :
  forall r plugins c0,
    (forall st3,
        untilNotes r plugins (start c0) = (Returned (Some tt), st3) ->
        truthy (dryRun (config (ctx st3))) = true) ->
    quiet (snd (calverRelease r plugins (start c0)))
    /\ forall st3,
         untilNotes r plugins (start c0) = (Returned (Some tt), st3) ->
         calverRelease r plugins (start c0)
         = (Returned (DryRunComplete (nextRelease (ctx st3))), st3).
Proof.
  intros r plugins c0 Hdry.
  assert (Q0 : quiet (start c0)) by constructor.
  unfold calverRelease, try_catch, pipeline, bind.
  destruct (untilNotes r plugins (start c0)) as [[reached | e] st3] eqn:Hu;
    pose proof (untilNotes_quiet _ _ _ _ _ Q0 Hu) as Q3.
  - destruct reached as [[] |].
    + unfold afterNotes, bind, getCtx.
      rewrite (Hdry st3 eq_refl). unfold ret. cbn [snd].
      split; [exact Q3 |].
      intros st3' [= <-]. reflexivity.
    + unfold ret. cbn [snd]. split; [exact Q3 |].
      intros st3' [=].
  - destruct (runPlugins Fail (fail plugins) [e] st3) as [[vs | e'] st4] eqn:Hf;
      pose proof (runPlugins_quiet Fail _ _ _ _ _ eq_refl Q3 Hf) as Q4;
      unfold throw; cbn [snd]; (split; [exact Q4 | intros st3' [=]]).
Qed.

Example dry_run_preview :
  let (o, st') :=
    calverRelease featureRepo failingPlugins (start (ctxOf dryConfig)) in
  (exists next, o = Returned (DryRunComplete (Some next)))
  /\ map fst (calls st') = [VerifyConditions; VerifyRelease; GenerateNotes].
Proof. vm_compute. split; [eexists |]; reflexivity. Qed.

(** ** CommitClassifier *)

(** A message with the footer token has the token, so the chain of lines
    891-903 has classified it. *)
Lemma footer_qualifies :
  forall m, Js.includes m "BREAKING CHANGE:" = true -> qualifies m = true.
Proof.
  intros m H. unfold qualifies, classify.
  assert (E : Js.includes m "BREAKING CHANGE" = true)
    by exact (includes_weaken m "BREAKING CHANGE" ":" H).
  rewrite E. cbn [orb].
  destruct (hasType "feat" m), (hasType "fix" m), (hasType "perf" m);
    reflexivity.
Qed.

Lemma setsBreaking_qualifies :
  forall m, setsBreaking m = true -> qualifies m = true.
Proof.
  intros m H. unfold setsBreaking in H. apply orb_true_iff in H.
  destruct H as [H | H]; [| exact (footer_qualifies m H)].
  unfold qualifies. destruct (classify m); [reflexivity | discriminate H].
Qed.

(** The loop of lines 873-915 in closed form. *)
Lemma analyze_loop :
  forall packagePath commits st,
    fold_left (analyzeOne packagePath) commits st
    = let msgs := map messageOf (filter (attributed packagePath) commits) in
      mkFlags (fFeature st || existsb setsFeature msgs)
              (fFix st || existsb setsFix msgs)
              (fBreaking st || existsb setsBreaking msgs)
              (fCommits st ++ flat_map annotate msgs)%list.
Proof.
  intros packagePath commits.
  induction commits as [| commit rest IH]; intros st; cbn zeta.
  - cbn. rewrite !orb_false_r, app_nil_r. destruct st; reflexivity.
  - cbn [fold_left filter]. rewrite IH. cbn zeta.
    assert (Ea : attributed packagePath commit
                 = negb (skippedForPackage packagePath (messageOf commit)))
      by reflexivity.
    rewrite Ea. unfold analyzeOne.
    destruct (skippedForPackage packagePath (messageOf commit)) eqn:Hs;
      cbn [negb]; [reflexivity |].
    cbn [map existsb flat_map].
    set (m := messageOf commit).
    unfold applyFooter, applyClass, setsFeature, setsFix, setsBreaking,
      annotate.
    destruct (classify m) as [[| | |] |];
      destruct (Js.includes m "BREAKING CHANGE:");
      cbn [fFeature fFix fBreaking fCommits orb app];
      rewrite <- ?app_assoc, ?orb_true_r, ?orb_false_r, ?orb_assoc;
      cbn [orb app]; reflexivity.
Qed.

Lemma no_annotation :
  forall msgs, flat_map annotate msgs = [] -> existsb qualifies msgs = false.
Proof.
  induction msgs as [| m rest IH]; cbn; intros H; [reflexivity |].
  apply app_eq_nil in H. destruct H as [Hm Hrest].
  rewrite (IH Hrest), orb_false_r.
  unfold annotate in Hm. unfold qualifies.
  destruct (classify m); [discriminate Hm | reflexivity].
Qed.

Lemma some_annotation :
  forall msgs, flat_map annotate msgs <> [] -> existsb qualifies msgs = true.
Proof.
  intros msgs H. destruct (existsb qualifies msgs) eqn:E; [reflexivity |].
  exfalso. apply H. clear H.
  induction msgs as [| m rest IH]; [reflexivity |].
  cbn in E. apply orb_false_iff in E. destruct E as [Em Er].
  cbn. rewrite (IH Er), app_nil_r.
  unfold annotate. unfold qualifies in Em.
  destruct (classify m); [discriminate Em | reflexivity].
Qed.

Lemma flag_qualifies :
  forall (f : string -> bool) msgs,
    (forall m, f m = true -> qualifies m = true) ->
    existsb qualifies msgs = false -> existsb f msgs = false.
Proof.
  intros f msgs Hf. induction msgs as [| m rest IH]; cbn; intros H.
  - reflexivity.
  - apply orb_false_iff in H. destruct H as [Hm Hr].
    rewrite (IH Hr), orb_false_r.
    destruct (f m) eqn:E; [| reflexivity].
    rewrite (Hf m E) in Hm. discriminate Hm.
Qed.

(** C7.  Over the commits attributed to the package: the classifier
    returns the "none" value exactly when no commit was classified as
    feature, fix/performance or breaking; otherwise it returns a record
    with [shouldRelease] set, whose release type is major if a commit set
    [hasBreakingChange], else minor if one set [hasFeature], else patch. *)
Theorem classifier_decision :
  forall commitMessages packagePath,
    match analyzeCommits commitMessages packagePath with
    | Some a =>
        existsb qualifies (attributedMessages packagePath commitMessages)
        = true
        /\ shouldRelease a = true
        /\ hasBreakingChange a
           = existsb setsBreaking
               (attributedMessages packagePath commitMessages)
        /\ hasFeature a
           = existsb setsFeature
               (attributedMessages packagePath commitMessages)
        /\ hasFix a
           = existsb setsFix (attributedMessages packagePath commitMessages)
        /\ releaseType a
           = (if hasBreakingChange a then major
              else if hasFeature a then minor else patch)
        /\ releaseCommits a
           = flat_map annotate (attributedMessages packagePath commitMessages)
    | None =>
        existsb qualifies (attributedMessages packagePath commitMessages)
        = false
    end.
Proof.
  intros commitMessages packagePath.
  unfold analyzeCommits, attributedMessages.
  rewrite analyze_loop. cbn zeta.
  set (msgs := map messageOf
                 (filter (attributed packagePath) (commitLines commitMessages))).
  cbn [fFeature fFix fBreaking fCommits noFlags orb app].
  destruct (flat_map annotate msgs) as [| x xs] eqn:Ha.
  - pose proof (no_annotation msgs Ha) as Hq.
    assert (Hf : existsb setsFeature msgs = false).
    { apply flag_qualifies; [| exact Hq].
      intros m. unfold setsFeature, qualifies.
      destruct (classify m); [reflexivity | discriminate]. }
    assert (Hx : existsb setsFix msgs = false).
    { apply flag_qualifies; [| exact Hq].
      intros m. unfold setsFix, qualifies.
      destruct (classify m); [reflexivity | discriminate]. }
    assert (Hb : existsb setsBreaking msgs = false).
    { apply flag_qualifies; [exact setsBreaking_qualifies | exact Hq]. }
    rewrite Hf, Hx, Hb. cbn. exact Hq.
  - assert (Hq : existsb qualifies msgs = true).
    { apply some_annotation. rewrite Ha. discriminate. }
    cbn [List.length Nat.eqb negb]. rewrite !orb_true_r.
    cbn [shouldRelease hasBreakingChange hasFeature hasFix releaseType
         releaseCommits].
    repeat split; assumption.
Qed.

(** ** Monorepo scoping *)

(** Lines 877-888: in a package other than the root, a commit with a scope
    marker is kept exactly when the scope contains the basename of the
    package path; a commit without a marker is always kept. *)
Lemma attributed_scoped :
  forall packagePath commit scope,
    packagePath <> "." ->
    scopeOf (messageOf commit) = Some scope ->
    (attributed packagePath commit = true
     <-> Js.includes scope (Js.basename packagePath) = true).
Proof.
  intros packagePath commit scope Hp Hs.
  unfold attributed, skippedForPackage. rewrite Hs.
  apply String.eqb_neq in Hp. rewrite Hp. cbn [negb andb].
  destruct (Js.includes scope (Js.basename packagePath)) eqn:Hi.
  - rewrite andb_false_r. split; reflexivity.
  - destruct (String.eqb_spec scope (Js.basename packagePath)) as [E | E].
    + exfalso. rewrite <- E in Hi.
      rewrite includes_refl in Hi. discriminate Hi.
    + cbn. split; discriminate.
Qed.

Lemma attributed_unscoped :
  forall packagePath commit,
    scopeOf (messageOf commit) = None -> attributed packagePath commit = true.
Proof.
  intros packagePath commit Hs.
  unfold attributed, skippedForPackage. rewrite Hs.
  rewrite andb_false_r. reflexivity.
Qed.

(** The file pass of scenario E when no listed file lies under ui. *)
Lemma files_without_ui :
  forall files changed,
    (forall f, In f files -> ownsFile f uiPackage = false) ->
    changed = [] \/ changed = [0] ->
    fold_left (addFile coreAndUi) files changed = []
    \/ fold_left (addFile coreAndUi) files changed = [0].
Proof.
  induction files as [| f rest IH]; intros changed Hui Hc.
  - exact Hc.
  - cbn [fold_left]. apply IH.
    + intros g Hg. apply Hui. right. exact Hg.
    + unfold addFile.
      destruct (Js.trim_truthy f); cbn [negb]; [| exact Hc].
      unfold coreAndUi. cbn [findIndex].
      rewrite (Hui f (or_introl eq_refl)).
      destruct (ownsFile f corePackage); cbn [option_map].
      * right. destruct Hc as [-> | ->]; reflexivity.
      * exact Hc.
Qed.

(** C8, as the code has it.  In a package other than the root the
    classifier attributes a commit with a scope marker only when the scope
    contains the basename of the package path, and a commit without a
    marker to every package.  For the packages core and ui and the log
    [abc1234 feat(core): x], when the file listing was obtained and no
    listed file lies under the path of ui, the mapper selects core alone;
    the analysis for ui is the "none" value and the one for core is a
    feature release. *)
Theorem scope_attribution :
  forall w files,
    changedFiles w = Some files ->
    (forall f, In f files -> ownsFile f uiPackage = false) ->
    (forall packagePath commit scope,
        packagePath <> "." ->
        scopeOf (messageOf commit) = Some scope ->
        (attributed packagePath commit = true
         <-> Js.includes scope (Js.basename packagePath) = true))
    /\ (forall packagePath commit,
          scopeOf (messageOf commit) = None ->
          attributed packagePath commit = true)
    /\ getChangedPackages w coreAndUi coreLog = [corePackage]
    /\ analyzeCommits coreLog (path uiPackage) = None
    /\ option_map releaseType (analyzeCommits coreLog (path corePackage))
       = Some minor.
Proof.
  intros w files Hfiles Hui.
  split; [exact attributed_scoped |].
  split; [exact attributed_unscoped |].
  split; [| split; reflexivity].
  unfold getChangedPackages. rewrite Hfiles.
  change (isSinglePackage coreAndUi) with false. cbv iota.
  change (commitLines coreLog) with [coreLog].
  cbn [fold_left].
  destruct (files_without_ui files [] Hui (or_introl eq_refl)) as [-> | ->];
    reflexivity.
Qed.

(** The diff since the last tag lists one file of core. *)
Lemma scope_attribution_witness :
  getChangedPackages (diffWorld ("packages/core/index.js" ++ LF))
                     coreAndUi coreLog
  = [corePackage]
  /\ analyzeCommits coreLog (path uiPackage) = None.
Proof.
  destruct (scope_attribution
              (diffWorld ("packages/core/index.js" ++ LF))
              ["packages/core/index.js"] eq_refl) as (_ & _ & H1 & H2 & _).
  - intros f [<- | []]. reflexivity.
  - split; assumption.
Defined.

(** The commit named core touched a file of ui: the mapper selects both
    packages. *)
Lemma scenario_E_depends_on_the_diff : ~ scoping_as_claimed.
Proof.
  intros (_ & _ & H & _).
  specialize (H (diffWorld ("packages/ui/index.js" ++ LF))).
  vm_compute in H. discriminate H.
Qed.

Example scenario_E_with_ui_file :
  getChangedPackages (diffWorld ("packages/ui/index.js" ++ LF))
                     coreAndUi coreLog
  = [uiPackage; corePackage].
Proof. reflexivity. Qed.

(** ** VersionResolver: incrementing *)

Lemma parseTags_calver :
  forall packagePath tagOutput t,
    In t (parseTags packagePath tagOutput) -> is_calver t = true.
Proof.
  intros packagePath tagOutput t H. unfold parseTags in H.
  apply filter_In in H. exact (proj2 H).
Qed.

Lemma existingTags_calver :
  forall w packagePath t,
    In t (existingTags w packagePath) -> is_calver t = true.
Proof.
  intros w packagePath t H. unfold existingTags in H.
  destruct (gitTagList w) as [tagOutput |]; [| contradiction].
  exact (parseTags_calver _ _ _ H).
Qed.

Lemma currentMonthTags_In :
  forall npm target tags t,
    In t (currentMonthTags npm target tags) ->
    In t tags
    /\ Js.startsWith t target = true
    /\ List.length (Js.split "." t) = (if npm then 3 else 4).
Proof.
  intros npm target tags t H. unfold currentMonthTags in H.
  apply filter_In in H. destruct H as [H Hl].
  apply filter_In in H. destruct H as [Hin Hs].
  split; [exact Hin |]. split; [exact Hs |].
  destruct npm; apply Nat.eqb_eq in Hl; exact Hl.
Qed.

(** The increment of lines 1064-1091 on a tag whose counters are known. *)
Lemma increment_three :
  forall rt target latestTag p,
    counter 2 latestTag = Js.Num p ->
    increment true rt target latestTag = (target ++ "." ++ dec (p + 1))%string.
Proof.
  intros rt target latestTag p Hp. unfold increment. rewrite Hp. reflexivity.
Qed.

Lemma increment_four :
  forall rt target latestTag m p,
    counter 2 latestTag = Js.Num m ->
    counter 3 latestTag = Js.Num p ->
    increment false rt target latestTag
    = match rt with
      | minor | major => (target ++ "." ++ dec (m + 1) ++ ".1")%string
      | patch => (target ++ "." ++ dec m ++ "." ++ dec (p + 1))%string
      end.
Proof.
  intros rt target latestTag m p Hm Hp. unfold increment.
  rewrite Hm, Hp. destruct rt; reflexivity.
Qed.

Lemma computeVersion_increment :
  forall npm rt t latestTag rest,
    isManualBump t = false -> isAutoMonthUpdate t = false ->
    computeVersion npm rt t (latestTag :: rest)
    = increment npm rt (targetYearMonth t) latestTag.
Proof.
  intros npm rt t latestTag rest Hm Ha. unfold computeVersion.
  rewrite Hm, Ha. reflexivity.
Qed.

(** Lines 1064-1091 on the tags they are given.  When [currentMonthTags]
    is not empty and neither a manual bump nor an automatic month roll
    occurred, the resolver increments from its first element, which is the
    highest when the tags are listed highest first: in the three-part
    format the counter plus one, whatever the release type; otherwise
    minor plus one and patch 1 for a minor or major release, and patch
    plus one with minor unchanged for a patch release. *)
Lemma increments_from_highest_tag :
  forall w rt packagePath options latestTag rest,
    monthTagsOf w packagePath options = latestTag :: rest ->
    isManualBump (targetOf w packagePath options) = false ->
    isAutoMonthUpdate (targetOf w packagePath options) = false ->
    highestFirst (monthTagsOf w packagePath options) ->
    safeTag latestTag ->
    (forall t, In t rest -> countersLtb latestTag t = false)
    /\ if isNpmCompatibleOf options then
         exists p,
           countersOf latestTag = [Js.Num p]
           /\ generateCalVerVersion w rt packagePath options
              = (targetYearMonth (targetOf w packagePath options)
                 ++ "." ++ dec (p + 1))%string
       else
         exists m p,
           countersOf latestTag = [Js.Num m; Js.Num p]
           /\ generateCalVerVersion w rt packagePath options
              = match rt with
                | minor | major =>
                    (targetYearMonth (targetOf w packagePath options)
                     ++ "." ++ dec (m + 1) ++ ".1")%string
                | patch =>
                    (targetYearMonth (targetOf w packagePath options)
                     ++ "." ++ dec m ++ "." ++ dec (p + 1))%string
                end.
Proof.
  intros w rt packagePath options latestTag rest Htags Hman Hauto Hsorted _.
  split.
  - rewrite Htags in Hsorted. apply StronglySorted_inv in Hsorted.
    destruct Hsorted as [_ Hall]. rewrite Forall_forall in Hall. exact Hall.
  - assert (Hin : In latestTag (monthTagsOf w packagePath options))
      by (rewrite Htags; left; reflexivity).
    unfold monthTagsOf in Hin. apply currentMonthTags_In in Hin.
    destruct Hin as (Hex & _ & Hlen).
    pose proof (existingTags_calver _ _ _ Hex) as Hcal.
    assert (Hgen : generateCalVerVersion w rt packagePath options
                   = increment (isNpmCompatibleOf options) rt
                       (targetYearMonth (targetOf w packagePath options))
                       latestTag).
    { unfold generateCalVerVersion, resolveVersion.
      fold (isNpmCompatibleOf options). fold (targetOf w packagePath options).
      fold (monthTagsOf w packagePath options). rewrite Htags.
      apply computeVersion_increment; assumption. }
    rewrite Hgen.
    destruct (isNpmCompatibleOf options).
    + destruct (calver_three_parts latestTag Hcal Hlen) as (p & Hc & Hp).
      exists p. split; [exact Hc |]. apply increment_three. exact Hp.
    + destruct (calver_four_parts latestTag Hcal Hlen) as (m & p & Hc & Hm & Hp).
      exists m, p. split; [exact Hc |]. apply increment_four; assumption.
Qed.

(** Scenario B with a listing that holds the tag v-25.07.3 and no line
    terminator: three-part format, a patch release. *)
Lemma scenario_B :
  (forall t, In t [] -> countersLtb "25.07.3" t = false)
  /\ exists p,
       countersOf "25.07.3" = [Js.Num p]
       /\ generateCalVerVersion
            (worldWith (Some "25.07.3") "v-25.07.3" july2025) patch "."
            (withFormat ThreePart)
          = ("25.07" ++ "." ++ dec (p + 1))%string.
Proof.
  apply (increments_from_highest_tag
           (worldWith (Some "25.07.3") "v-25.07.3" july2025) patch "."
           (withFormat ThreePart) "25.07.3" []).
  - reflexivity.
  - reflexivity.
  - reflexivity.
  - repeat constructor.
  - repeat constructor.
Defined.

Example scenario_B_value :
  generateCalVerVersion
    (worldWith (Some "25.07.3") "v-25.07.3" july2025) patch "."
    (withFormat ThreePart)
  = "25.07.4".
Proof. reflexivity. Qed.

(** In the three-part format the release type does not matter. *)
Example scenario_B_any_type :
  forall rt,
    generateCalVerVersion
      (worldWith (Some "25.07.3") "v-25.07.3" july2025) rt "."
      (withFormat ThreePart)
    = "25.07.4".
Proof. intros [| |]; reflexivity. Qed.

(** Scenario C: declared 25.07.0.1 with its tag (listed without line
    terminator), four-part format, a minor release. *)
Example scenario_C :
  generateCalVerVersion
    (worldWith (Some "25.07.0.1") "v-25.07.0.1" july2025) minor "."
    (withFormat FourPart)
  = "25.07.1.1".
Proof. reflexivity. Qed.

Example scenario_C_patch :
  generateCalVerVersion
    (worldWith (Some "25.07.0.1") "v-25.07.0.1" july2025) patch "."
    (withFormat FourPart)
  = "25.07.0.2".
Proof. reflexivity. Qed.

(** ** VersionResolver: successive versions *)

Lemma tupleLtb_one :
  forall a b, tupleLtb [Js.Num a] [Js.Num b] = (a <? b)%N.
Proof.
  intros a b. cbn. rewrite andb_false_r, orb_false_r. reflexivity.
Qed.

Lemma tupleLtb_two :
  forall a b c e,
    tupleLtb [Js.Num a; Js.Num b] [Js.Num c; Js.Num e]
    = ((a <? c)%N || ((a =? c)%N && (b <? e)%N)).
Proof.
  intros a b c e. cbn. rewrite andb_false_r, orb_false_r. reflexivity.
Qed.

(** What can be read back from an emitted version. *)
Lemma emitted_three :
  forall target n,
    ymShape target ->
    countersOf (target ++ "." ++ dec n) = [Js.Num n]
    /\ counter 2 (target ++ "." ++ dec n) = Js.Num n
    /\ List.length (Js.split "." (target ++ "." ++ dec n)) = 3
    /\ yearMonthOf (target ++ "." ++ dec n) = target.
Proof.
  intros target n (y & m & -> & Hy & Hm).
  assert (E : ((y ++ "." ++ m) ++ "." ++ dec n)%string
              = (y ++ "." ++ m ++ "." ++ dec n)%string).
  { rewrite append_assoc'. reflexivity. }
  rewrite E. unfold countersOf, counter, tupleOf, yearMonthOf.
  rewrite (tupleOf_three y m (dec n) Hy Hm (dec_digits n)).
  cbn [map skipn nth List.length]. rewrite Number_dec.
  repeat split; reflexivity.
Qed.

Lemma emitted_four :
  forall target a b,
    ymShape target ->
    countersOf (target ++ "." ++ dec a ++ "." ++ dec b)
    = [Js.Num a; Js.Num b]
    /\ counter 2 (target ++ "." ++ dec a ++ "." ++ dec b) = Js.Num a
    /\ counter 3 (target ++ "." ++ dec a ++ "." ++ dec b) = Js.Num b
    /\ List.length (Js.split "." (target ++ "." ++ dec a ++ "." ++ dec b)) = 4
    /\ yearMonthOf (target ++ "." ++ dec a ++ "." ++ dec b) = target.
Proof.
  intros target a b (y & m & -> & Hy & Hm).
  assert (E : ((y ++ "." ++ m) ++ "." ++ dec a ++ "." ++ dec b)%string
              = (y ++ "." ++ m ++ "." ++ dec a ++ "." ++ dec b)%string).
  { rewrite append_assoc'. reflexivity. }
  rewrite E. unfold countersOf, counter, tupleOf, yearMonthOf.
  rewrite (tupleOf_four y m (dec a) (dec b) Hy Hm (dec_digits a) (dec_digits b)).
  cbn [map skipn nth List.length]. rewrite !Number_dec.
  repeat split; reflexivity.
Qed.

(** Every emitted version is the target followed by its counters. *)
Lemma resolved_form :
  forall rt options declared tags current,
    Forall (fun t => is_calver t = true) tags ->
    let t := determineTarget declared tags options current in
    let v := resolveVersion rt options declared tags current in
    if isNpmCompatibleOf options
    then exists n, v = (targetYearMonth t ++ "." ++ dec n)%string
    else exists a b,
        v = (targetYearMonth t ++ "." ++ dec a ++ "." ++ dec b)%string.
Proof.
  intros rt options declared tags current Hcal. cbn zeta.
  unfold resolveVersion. fold (isNpmCompatibleOf options).
  set (t := determineTarget declared tags options current).
  set (npm := isNpmCompatibleOf options).
  unfold computeVersion.
  destruct (currentMonthTags npm (targetYearMonth t) tags)
    as [| latestTag rest] eqn:Hm.
  - unfold firstOfMonth. destruct npm.
    + exists 1%N. reflexivity.
    + exists 0%N, 1%N. reflexivity.
  - destruct (isManualBump t || isAutoMonthUpdate t).
    + unfold firstOfMonth. destruct npm.
      * exists 1%N. reflexivity.
      * exists 0%N, 1%N. reflexivity.
    + assert (Hin : In latestTag (currentMonthTags npm (targetYearMonth t) tags))
        by (rewrite Hm; left; reflexivity).
      apply currentMonthTags_In in Hin. destruct Hin as (Hin & _ & Hlen).
      rewrite Forall_forall in Hcal. pose proof (Hcal _ Hin) as Hc.
      destruct npm.
      * destruct (calver_three_parts _ Hc Hlen) as (p & _ & Hp).
        exists (p + 1)%N. apply increment_three. exact Hp.
      * destruct (calver_four_parts _ Hc Hlen) as (a & b & _ & Ha & Hb).
        rewrite (increment_four rt _ _ a b Ha Hb).
        destruct rt.
        -- exists (a + 1)%N, 1%N. reflexivity.
        -- exists (a + 1)%N, 1%N. reflexivity.
        -- exists a, (b + 1)%N. reflexivity.
Qed.

(** Once the emitted version heads the tag list, no manual bump is
    flagged. *)
Lemma no_manual_bump_after :
  forall declared tags options current v,
    yearMonthOf v
    = targetYearMonth (determineTarget declared tags options current) ->
    isManualBump (determineTarget declared (v :: tags) options current)
    = false.
Proof.
  intros declared tags options current v Hv.
  destruct declared as [d |]; [| reflexivity].
  destruct (is_calver d) eqn:Hd.
  - rewrite (determineTarget_parsed d tags options current Hd) in Hv.
    rewrite (determineTarget_parsed d (v :: tags) options current Hd).
    cbn [isManualBump targetYearMonth] in *.
    destruct (truthy (autoUpdateMonth options)
              && Js.str_gt current (yearMonthOf d)); [reflexivity |].
    cbn [negb andb]. rewrite Hv, String.eqb_refl. reflexivity.
  - rewrite determineTarget_unparsed; [reflexivity |].
    intros v' [= <-]. exact Hd.
Qed.

Lemma currentMonthTags_cons :
  forall (npm : bool) target tags v,
    Js.startsWith v target = true ->
    List.length (Js.split "." v) = (if npm then 3 else 4) ->
    currentMonthTags npm target (v :: tags)
    = v :: currentMonthTags npm target tags.
Proof.
  intros npm target tags v Hs Hl. unfold currentMonthTags.
  cbn [filter]. rewrite Hs. cbn [filter]. rewrite Hl.
  destruct npm; reflexivity.
Qed.

(** The version resolved next, with the emitted one at the head of the
    tags. *)
Lemma next_after_emitted :
  forall rt options declared tags current v,
    isAutoMonthUpdate (determineTarget declared tags options current) = false ->
    yearMonthOf v
    = targetYearMonth (determineTarget declared tags options current) ->
    Js.startsWith v
      (targetYearMonth (determineTarget declared tags options current))
    = true ->
    List.length (Js.split "." v)
    = (if isNpmCompatibleOf options then 3 else 4) ->
    resolveVersion rt options declared (v :: tags) current
    = increment (isNpmCompatibleOf options) rt
        (targetYearMonth (determineTarget declared tags options current)) v.
Proof.
  intros rt options declared tags current v Hauto Hym Hs Hl.
  unfold resolveVersion. fold (isNpmCompatibleOf options).
  destruct (target_ignores_tags declared (v :: tags) tags options current)
    as [Et Ea].
  rewrite Et, (currentMonthTags_cons _ _ _ _ Hs Hl).
  rewrite computeVersion_increment.
  - rewrite Et. reflexivity.
  - apply no_manual_bump_after. exact Hym.
  - rewrite Ea. exact Hauto.
Qed.

Lemma startsWith_app :
  forall target rest, Js.startsWith (target ++ rest) target = true.
Proof. intros target rest. unfold Js.startsWith. apply prefix_app. Qed.

(** The emitted version is above it in the order of the counters. *)
Lemma next_is_above :
  forall rt1 rt2 options declared tags d,
    Forall (fun t => is_calver t = true) tags ->
    isAutoMonthUpdate
      (determineTarget declared tags options (currentYearMonth d)) = false ->
    countersLtb
      (resolveVersion rt1 options declared tags (currentYearMonth d))
      (resolveVersion rt2 options declared
         (resolveVersion rt1 options declared tags (currentYearMonth d)
          :: tags)
         (currentYearMonth d))
    = true.
Proof.
  intros rt1 rt2 options declared tags d Hcal Hauto.
  pose proof (resolved_form rt1 options declared tags (currentYearMonth d) Hcal)
    as Hform. cbn zeta in Hform.
  pose proof (target_shape declared tags options d) as Hshape.
  set (current := currentYearMonth d) in *.
  set (target := targetYearMonth (determineTarget declared tags options current))
    in *.
  destruct (isNpmCompatibleOf options) eqn:Hnpm.
  - destruct Hform as [n Hv]. rewrite Hv.
    destruct (emitted_three target n Hshape) as (Hc & Hc2 & Hl & Hym).
    rewrite (next_after_emitted rt2 options declared tags current
               (target ++ "." ++ dec n)%string Hauto Hym
               (startsWith_app _ _)) by (rewrite Hnpm; exact Hl).
    rewrite Hnpm. fold target. rewrite (increment_three rt2 _ _ n Hc2).
    unfold countersLtb.
    rewrite Hc, (proj1 (emitted_three target (n + 1) Hshape)), tupleLtb_one.
    apply N.ltb_lt. lia.
  - destruct Hform as (a & b & Hv). rewrite Hv.
    destruct (emitted_four target a b Hshape) as (Hc & Hc2 & Hc3 & Hl & Hym).
    rewrite (next_after_emitted rt2 options declared tags current
               (target ++ "." ++ dec a ++ "." ++ dec b)%string Hauto Hym
               (startsWith_app _ _)) by (rewrite Hnpm; exact Hl).
    rewrite Hnpm. fold target. rewrite (increment_four rt2 _ _ a b Hc2 Hc3).
    unfold countersLtb. rewrite Hc.
    destruct rt2.
    + change ".1" with ("." ++ dec 1)%string.
      rewrite (proj1 (emitted_four target (a + 1) 1 Hshape)), tupleLtb_two.
      apply orb_true_iff. left. apply N.ltb_lt. lia.
    + change ".1" with ("." ++ dec 1)%string.
      rewrite (proj1 (emitted_four target (a + 1) 1 Hshape)), tupleLtb_two.
      apply orb_true_iff. left. apply N.ltb_lt. lia.
    + rewrite (proj1 (emitted_four target a (b + 1) Hshape)), tupleLtb_two.
      apply orb_true_iff. right. apply andb_true_iff. split.
      * apply N.eqb_refl.
      * apply N.ltb_lt. lia.
Qed.

(** Without manual bump or month roll the emitted version is above every
    tag of the month and format, when these are listed highest first. *)
Lemma emitted_is_above_tags :
  forall rt options declared tags current,
    Forall (fun t => is_calver t = true) tags ->
    ymShape (targetYearMonth (determineTarget declared tags options current)) ->
    isAutoMonthUpdate (determineTarget declared tags options current) = false ->
    isManualBump (determineTarget declared tags options current) = false ->
    highestFirst
      (currentMonthTags (isNpmCompatibleOf options)
         (targetYearMonth (determineTarget declared tags options current))
         tags) ->
    forall x,
      In x (currentMonthTags (isNpmCompatibleOf options)
              (targetYearMonth (determineTarget declared tags options current))
              tags) ->
      countersLtb x (resolveVersion rt options declared tags current) = true.
Proof.
  intros rt options declared tags current Hcal Hshape Hauto Hman Hsorted x Hx.
  unfold resolveVersion. fold (isNpmCompatibleOf options).
  set (t := determineTarget declared tags options current) in *.
  set (npm := isNpmCompatibleOf options) in *.
  rewrite Forall_forall in Hcal.
  assert (Hparts : forall y, In y (currentMonthTags npm (targetYearMonth t) tags) ->
                   is_calver y = true
                   /\ List.length (Js.split "." y) = (if npm then 3 else 4)).
  { intros y Hy. apply currentMonthTags_In in Hy.
    destruct Hy as (Hin & _ & Hl). split; [apply Hcal; exact Hin | exact Hl]. }
  destruct (currentMonthTags npm (targetYearMonth t) tags)
    as [| h rest] eqn:Hm; [contradiction |].
  rewrite computeVersion_increment by assumption.
  apply StronglySorted_inv in Hsorted. destruct Hsorted as [_ Hall].
  rewrite Forall_forall in Hall.
  destruct (Hparts h (or_introl eq_refl)) as [Hhc Hhl].
  destruct (Hparts x Hx) as [Hxc Hxl].
  unfold countersLtb in *.
  destruct npm.
  - destruct (calver_three_parts h Hhc Hhl) as (p & Hpc & Hp).
    destruct (calver_three_parts x Hxc Hxl) as (q & Hqc & _).
    rewrite (increment_three rt _ _ p Hp).
    rewrite Hqc, (proj1 (emitted_three (targetYearMonth t) (p + 1) Hshape)).
    rewrite tupleLtb_one. apply N.ltb_lt.
    destruct Hx as [<- | Hx].
    + rewrite Hpc in Hqc. injection Hqc as <-. lia.
    + specialize (Hall x Hx). rewrite Hpc, Hqc, tupleLtb_one in Hall.
      apply N.ltb_ge in Hall. lia.
  - destruct (calver_four_parts h Hhc Hhl) as (a & b & Hhcs & Ha & Hb).
    destruct (calver_four_parts x Hxc Hxl) as (c & e & Hxcs & _ & _).
    rewrite (increment_four rt _ _ a b Ha Hb).
    assert (Hle : (c < a \/ (c = a /\ e <= b))%N).
    { destruct Hx as [<- | Hx].
      - rewrite Hhcs in Hxcs. injection Hxcs as <- <-. right. split; lia.
      - specialize (Hall x Hx). rewrite Hhcs, Hxcs, tupleLtb_two in Hall.
        apply orb_false_iff in Hall. destruct Hall as [H1 H2].
        apply N.ltb_ge in H1.
        destruct (N.eqb_spec a c) as [-> | Hne].
        + cbn [andb] in H2. apply N.ltb_ge in H2. right. split; lia.
        + left. lia. }
    rewrite Hxcs.
    destruct rt.
    + change ".1" with ("." ++ dec 1)%string.
      rewrite (proj1 (emitted_four (targetYearMonth t) (a + 1) 1 Hshape)),
        tupleLtb_two.
      apply orb_true_iff. left. apply N.ltb_lt. lia.
    + change ".1" with ("." ++ dec 1)%string.
      rewrite (proj1 (emitted_four (targetYearMonth t) (a + 1) 1 Hshape)),
        tupleLtb_two.
      apply orb_true_iff. left. apply N.ltb_lt. lia.
    + rewrite (proj1 (emitted_four (targetYearMonth t) a (b + 1) Hshape)),
        tupleLtb_two.
      destruct Hle as [Hlt | [-> Hle]].
      * apply orb_true_iff. left. apply N.ltb_lt. exact Hlt.
      * apply orb_true_iff. right. rewrite N.eqb_refl. cbn [andb].
        apply N.ltb_lt. lia.
Qed.

(** C2, as the code has it.  Fix the package, its declared version, the
    options and the date, and let no automatic month roll occur.  With
    the emitted version entered at the head of the tag list, the next
    emitted version is strictly above it in the order of the counters,
    whatever the release types.  If moreover no manual bump is flagged and
    the tags of the target month and format are listed highest first, the
    emitted version is strictly above each of them, hence none of them. *)
Theorem successive_versions_increase :
  forall rt1 rt2 options declared tags d,
    Forall (fun t => is_calver t = true) tags ->
    Forall safeTag tags ->
    isAutoMonthUpdate
      (determineTarget declared tags options (currentYearMonth d)) = false ->
    let current := currentYearMonth d in
    let t := determineTarget declared tags options current in
    let monthTags :=
      currentMonthTags (isNpmCompatibleOf options) (targetYearMonth t) tags in
    let v1 := resolveVersion rt1 options declared tags current in
    let v2 := resolveVersion rt2 options declared (v1 :: tags) current in
    countersLtb v1 v2 = true
    /\ (isManualBump t = false ->
        highestFirst monthTags ->
        (forall x, In x monthTags -> countersLtb x v1 = true)
        /\ ~ In v1 monthTags).
Proof.
  intros rt1 rt2 options declared tags d Hcal _ Hauto. cbn zeta.
  split.
  - apply next_is_above; assumption.
  - intros Hman Hsorted.
    assert (Habove :
              forall x,
                In x (currentMonthTags (isNpmCompatibleOf options)
                        (targetYearMonth
                           (determineTarget declared tags options
                              (currentYearMonth d))) tags) ->
                countersLtb x
                  (resolveVersion rt1 options declared tags
                     (currentYearMonth d)) = true).
    { apply emitted_is_above_tags; try assumption. apply target_shape. }
    split; [exact Habove |].
    intros Hin. specialize (Habove _ Hin).
    pose proof (resolved_form rt1 options declared tags (currentYearMonth d) Hcal)
      as Hform. cbn zeta in Hform.
    pose proof (target_shape declared tags options d) as Hshape.
    unfold countersLtb in Habove.
    destruct (isNpmCompatibleOf options).
    + destruct Hform as [n Hv]. rewrite Hv in Habove.
      rewrite (proj1 (emitted_three _ n Hshape)), tupleLtb_one in Habove.
      apply N.ltb_lt in Habove. lia.
    + destruct Hform as (a & b & Hv). rewrite Hv in Habove.
      rewrite (proj1 (emitted_four _ a b Hshape)), tupleLtb_two in Habove.
      apply orb_true_iff in Habove. destruct Habove as [H | H].
      * apply N.ltb_lt in H. lia.
      * apply andb_true_iff in H. destruct H as [_ H].
        apply N.ltb_lt in H. lia.
Qed.

(** Declared 25.07.0.1 with its tag, four-part format, July 2025: a patch
    release and then a minor one. *)
Lemma successive_versions_increase_witness :
  countersLtb
    (resolveVersion patch (withFormat FourPart) (Some "25.07.0.1")
       ["25.07.0.1"] (currentYearMonth july2025))
    (resolveVersion minor (withFormat FourPart) (Some "25.07.0.1")
       [resolveVersion patch (withFormat FourPart) (Some "25.07.0.1")
          ["25.07.0.1"] (currentYearMonth july2025);
        "25.07.0.1"]
       (currentYearMonth july2025))
  = true
  /\ (isManualBump
        (determineTarget (Some "25.07.0.1") ["25.07.0.1"]
           (withFormat FourPart) (currentYearMonth july2025)) = false ->
      highestFirst
        (currentMonthTags (isNpmCompatibleOf (withFormat FourPart))
           (targetYearMonth
              (determineTarget (Some "25.07.0.1") ["25.07.0.1"]
                 (withFormat FourPart) (currentYearMonth july2025)))
           ["25.07.0.1"]) ->
      (forall x,
          In x (currentMonthTags (isNpmCompatibleOf (withFormat FourPart))
                  (targetYearMonth
                     (determineTarget (Some "25.07.0.1") ["25.07.0.1"]
                        (withFormat FourPart) (currentYearMonth july2025)))
                  ["25.07.0.1"]) ->
          countersLtb x
            (resolveVersion patch (withFormat FourPart) (Some "25.07.0.1")
               ["25.07.0.1"] (currentYearMonth july2025)) = true)
      /\ ~ In (resolveVersion patch (withFormat FourPart) (Some "25.07.0.1")
                ["25.07.0.1"] (currentYearMonth july2025))
              (currentMonthTags (isNpmCompatibleOf (withFormat FourPart))
                 (targetYearMonth
                    (determineTarget (Some "25.07.0.1") ["25.07.0.1"]
                       (withFormat FourPart) (currentYearMonth july2025)))
                 ["25.07.0.1"])).
Proof.
  apply (successive_versions_increase patch minor (withFormat FourPart)
           (Some "25.07.0.1") ["25.07.0.1"] july2025).
  - repeat constructor.
  - repeat constructor.
  - reflexivity.
Defined.

(** The sequence patch, minor, patch of the specification, from the tag
    25.07.0.1 on. *)
Example patch_minor_patch :
  let opts := withFormat FourPart in
  let cur := currentYearMonth july2025 in
  let v1 := resolveVersion patch opts (Some "25.07.0.1") ["25.07.0.1"] cur in
  let v2 := resolveVersion minor opts (Some "25.07.0.1")
              [v1; "25.07.0.1"] cur in
  let v3 := resolveVersion patch opts (Some "25.07.0.1")
              [v2; v1; "25.07.0.1"] cur in
  (v1, v2, v3) = ("25.07.0.2", "25.07.1.1", "25.07.1.2").
Proof. reflexivity. Qed.

(** With an automatic month roll the claim fails: declared 25.07.0.3 in
    August 2025 with [autoUpdateMonth] on gives 25.08.0.1, and gives it
    again once 25.08.0.1 is a tag. *)
Lemma month_roll_repeats_first_release :
  ~ emitted_versions_increase patch patch (withAutoMonth FourPart)
      (Some "25.07.0.3") [] "25.08".
Proof.
  unfold emitted_versions_increase. cbn zeta. intros [H _].
  vm_compute in H. discriminate H.
Qed.

Example august_first_release_twice :
  resolveVersion patch (withAutoMonth FourPart) (Some "25.07.0.3") [] "25.08"
  = "25.08.0.1"
  /\ resolveVersion patch (withAutoMonth FourPart) (Some "25.07.0.3")
       ["25.08.0.1"] "25.08"
     = "25.08.0.1".
Proof. split; reflexivity. Qed.

(** A manual bump emits the first release of a month that already has
    tags: declared 25.07.0.2 while the newest tag is of August. *)
Example manual_bump_reuses_a_tag :
  resolveVersion patch (withFormat FourPart) (Some "25.07.0.2")
    ["25.08.0.1"; "25.07.0.2"; "25.07.0.1"] "25.08"
  = "25.07.0.1".
Proof. reflexivity. Qed.

(** ** VersionResolver: reading the tag listing *)

Lemma prefix_backslash_n :
  forall c s,
    notBackslash c = true -> String.prefix BACKSLASH_N (String c s) = false.
Proof.
  intros c s H. unfold BACKSLASH_N. rewrite prefix_cons.
  unfold notBackslash in H. apply negb_true_iff in H.
  rewrite Ascii.eqb_sym, H. reflexivity.
Qed.

(** A listing without a backslash is not cut at all by line 973. *)
Lemma split_go_backslash_n :
  forall s cur,
    all notBackslash s = true ->
    Js.split_go BACKSLASH_N 0 cur s = [(cur ++ s)%string].
Proof.
  induction s as [| c s IH]; intros cur H.
  - cbn. rewrite append_nil_r. reflexivity.
  - cbn [all] in H. apply andb_true_iff in H. destruct H as [Hc Hs].
    cbn [Js.split_go]. rewrite (prefix_backslash_n c s Hc).
    rewrite (IH _ Hs), append_assoc'. reflexivity.
Qed.

Lemma is_calver_chars :
  forall t, is_calver t = true -> all digitOrDot t = true.
Proof.
  intros t H.
  assert (D : forall x, all Js.is_digit x = true -> all digitOrDot x = true).
  { induction x as [| c x IH]; cbn; intros Hx; [reflexivity |].
    apply andb_true_iff in Hx. destruct Hx as [Hc Hx].
    unfold digitOrDot at 1. rewrite Hc, (IH Hx). reflexivity. }
  destruct (is_calver_shape t H)
    as (y & m & d1 & Hy & Hm & _ & _ & Hd1 & [-> | (d2 & Hd2 & ->)]).
  - rewrite !all_app, (D y Hy), (D m Hm), (D d1 Hd1). reflexivity.
  - rewrite !all_app, (D y Hy), (D m Hm), (D d1 Hd1), (D d2 Hd2). reflexivity.
Qed.

Lemma all_includes :
  forall p s c,
    all p s = true -> Js.includes s (String c "") = true -> p c = true.
Proof.
  intros p. induction s as [| d s IH]; intros c Ha Hi.
  - discriminate Hi.
  - cbn [all] in Ha. apply andb_true_iff in Ha. destruct Ha as [Hd Hs].
    cbn [Js.includes] in Hi. rewrite prefix_cons in Hi.
    destruct (Ascii.eqb_spec c d) as [-> | N].
    + exact Hd.
    + cbn [orb] in Hi. exact (IH c Hs Hi).
Qed.

Lemma is_v_calver_no_line_feed :
  forall tag, Js.includes tag LF = true -> is_v_calver tag = false.
Proof.
  intros tag Hi. destruct (is_v_calver tag) eqn:Hv; [| reflexivity].
  exfalso. unfold is_v_calver in Hv.
  destruct tag as [| a [| b rest]]; try discriminate Hv.
  apply andb_true_iff in Hv. destruct Hv as [Hv Hc].
  apply andb_true_iff in Hv. destruct Hv as [Ha Hb].
  apply Ascii.eqb_eq in Ha. apply Ascii.eqb_eq in Hb. subst a b.
  unfold LF in Hi. cbn [Js.includes] in Hi. rewrite !prefix_cons in Hi.
  cbn [Ascii.eqb Bool.eqb ascii_of_nat ascii_of_pos Pos.of_succ_nat
       Pos.succ] in Hi.
  cbn in Hi.
  pose proof (all_includes digitOrDot rest _ (is_calver_chars rest Hc) Hi) as F.
  discriminate F.
Qed.

(** In single-package mode a listing as git prints it, one tag per line,
    yields no existing tag: it has no backslash to be cut at, and as a
    whole it is not a tag. *)
Lemma line_feed_listing_has_no_tags :
  forall tagOutput,
    all notBackslash tagOutput = true ->
    Js.includes tagOutput LF = true ->
    parseTags "." tagOutput = [].
Proof.
  intros tagOutput Hb Hl. unfold parseTags, Js.split.
  rewrite (split_go_backslash_n tagOutput "" Hb). cbn [append filter].
  destruct (Js.trim_truthy tagOutput); [| reflexivity].
  cbn [filter]. change (packageNameOf ".") with "".
  unfold tagFilter. cbn [nonempty String.eqb negb].
  rewrite (is_v_calver_no_line_feed tagOutput Hl). reflexivity.
Qed.

(** C5.  Scenario B as git reports it: the tags v-25.07.3 and v-25.07.2
    exist and are listed one per line, the declared version is 25.07.3,
    the format is three-part and [autoUpdateMonth] is off.  The resolver
    sees no tag and returns the first release of the month, 25.07.1; the
    listing of v-25.07.3 alone gives the same, and so does scenario C
    (declared 25.07.0.1 with its tag, four-part, minor). *)
Theorem listed_tags_are_not_seen :
  existingTags (worldWith (Some "25.07.3") twoTagsListed july2025) "." = []
  /\ generateCalVerVersion
       (worldWith (Some "25.07.3") twoTagsListed july2025) patch "."
       (withFormat ThreePart)
     = "25.07.1"
  /\ generateCalVerVersion
       (worldWith (Some "25.07.3") ("v-25.07.3" ++ LF) july2025) patch "."
       (withFormat ThreePart)
     = "25.07.1"
  /\ generateCalVerVersion
       (worldWith (Some "25.07.0.1") ("v-25.07.0.1" ++ LF) july2025) minor "."
       (withFormat FourPart)
     = "25.07.0.1".
Proof. repeat split; reflexivity. Qed.

(** In a package of a monorepo the uncut listing is searched as a whole:
    the version of its first line is taken, whichever package that line
    belongs to. *)
Example first_line_of_another_package :
  existingTags
    (worldWith (Some "25.07.0.1")
       ("v-25.07.0.9-core-release" ++ LF ++ "v-25.07.0.1-ui-release" ++ LF)
       july2025)
    "packages/ui"
  = ["25.07.0.9"].
Proof. reflexivity. Qed.

(** ** Dry run: the configuration as it was at the start *)

Lemma runPluginsFrom_config :
  forall hooks stage i args results st o st',
    Forall keepsConfig hooks ->
    runPluginsFrom stage i hooks args results st = (o, st') ->
    config (ctx st') = config (ctx st).
Proof.
  induction hooks as [| h rest IH];
    intros stage i args results st o st' Hk H.
  - cbn in H. injection H as <- <-. reflexivity.
  - apply Forall_cons_iff in Hk. destruct Hk as [Hh Hrest].
    cbn [runPluginsFrom] in H. unfold bind, call in H.
    pose proof (Hh (ctx st) args) as Hc.
    destruct (h (ctx st) args) as [o1 c1]. cbn [snd] in Hc.
    destruct o1 as [result | e].
    + apply IH in H; [| exact Hrest]. rewrite H. exact Hc.
    + injection H as <- <-. exact Hc.
Qed.

Lemma untilNotes_config :
  forall r plugins st o st',
    Forall keepsConfig (verifyConditions plugins) ->
    Forall keepsConfig (verifyRelease plugins) ->
    Forall keepsConfig (generateNotes plugins) ->
    untilNotes r plugins st = (o, st') ->
    config (ctx st') = config (ctx st).
Proof.
  intros r plugins st o st' K1 K2 K3 H.
  unfold untilNotes, bind in H.
  destruct (runPlugins VerifyConditions _ _ st) as [[vs1 | e1] s1] eqn:H1;
    pose proof (runPluginsFrom_config _ _ _ _ _ _ _ _ K1 H1) as C1;
    [| injection H as <- <-; exact C1].
  assert (C2 : forall o2 s2, analyzeStep r s1 = (o2, s2) ->
                             config (ctx s2) = config (ctx s1)).
  { intros o2 s2 E. unfold analyzeStep in E.
    destruct (discovered r) as [pkgs |]; [| injection E as <- <-; reflexivity].
    destruct (commitsSinceLastRelease r) as [[commits |] |];
      try (injection E as <- <-; reflexivity).
    destruct (nonempty commits); [| injection E as <- <-; reflexivity].
    destruct (flat_map _ _) as [| one [| two more]];
      injection E as <- <-; reflexivity. }
  destruct (analyzeStep r s1) as [[found | e2] s2] eqn:H2;
    pose proof (C2 _ _ eq_refl) as C2';
    [| injection H as <- <-; congruence].
  destruct found as [next |]; [| injection H as <- <-; congruence].
  unfold setNextRelease in H.
  match type of H with
  | context [runPlugins VerifyRelease ?hs ?a ?s] =>
      destruct (runPlugins VerifyRelease hs a s) as [[vs3 | e3] s3] eqn:H3;
      pose proof (runPluginsFrom_config _ _ _ _ _ _ _ _ K2 H3) as C3;
      cbn [ctx config] in C3
  end;
    [| injection H as <- <-; congruence].
  destruct (runPlugins GenerateNotes _ _ s3) as [[vs4 | e4] s4] eqn:H4;
    pose proof (runPluginsFrom_config _ _ _ _ _ _ _ _ K3 H4) as C4;
    [| injection H as <- <-; congruence].
  unfold attachNotes in H.
  destruct (nextRelease (ctx s4)); injection H as <- <-;
    cbn [ctx config]; congruence.
Qed.

(** A run that is configured as a dry run at its start, with hooks that
    leave the configuration alone, is a dry run when the orchestrator
    consults the configuration. *)
Lemma dry_run_configured_at_start :
  forall r plugins c0,
    truthy (dryRun (config c0)) = true ->
    Forall keepsConfig (verifyConditions plugins) ->
    Forall keepsConfig (verifyRelease plugins) ->
    Forall keepsConfig (generateNotes plugins) ->
    quiet (snd (calverRelease r plugins (start c0)))
    /\ forall st3,
         untilNotes r plugins (start c0) = (Returned (Some tt), st3) ->
         calverRelease r plugins (start c0)
         = (Returned (DryRunComplete (nextRelease (ctx st3))), st3).
Proof.
  intros r plugins c0 Hdry K1 K2 K3.
  apply dry_run_ends_at_preview.
  intros st3 Hu.
  rewrite (untilNotes_config _ _ _ _ _ K1 K2 K3 Hu). exact Hdry.
Qed.




Example configured_dry_run_released :
  truthy (dryRun (config (ctxOf dryConfig))) = true
  /\ (let (o, st') :=
        calverRelease featureRepo flippingPlugins (start (ctxOf dryConfig)) in
      (exists next published, o = Returned (Released next published))
      /\ map fst (calls st')
         = [VerifyConditions; VerifyRelease; GenerateNotes;
            Prepare; Publish; Success]).
Proof.
  split; [reflexivity |]. vm_compute.
  split; [eexists; eexists |]; reflexivity.
Qed.

(* ================================================================== *)
(** * Further properties of the code *)
(* ================================================================== *)

(** ** Splitting and joining on one code unit *)

Lemma prefix_char :
  forall c d s, String.prefix (String c "") (String d s) = Ascii.eqb c d.
Proof.
  intros c d s. rewrite prefix_cons.
  destruct (Ascii.eqb c d); [apply prefix_nil | reflexivity].
Qed.

Lemma split_go_char_cons :
  forall c d s cur,
    Js.split_go (String c "") 0 cur (String d s)
    = if Ascii.eqb c d then cur :: Js.split_go (String c "") 0 "" s
      else Js.split_go (String c "") 0 (cur ++ String d "") s.
Proof.
  intros c d s cur. cbn [Js.split_go]. rewrite prefix_char.
  reflexivity.
Qed.

Lemma split_go_nonempty :
  forall sep s skip cur, Js.split_go sep skip cur s <> [].
Proof.
  induction s as [| d s IH]; intros skip cur; cbn [Js.split_go].
  - discriminate.
  - destruct skip; [| apply IH].
    destruct (String.prefix sep (String d s)); [discriminate | apply IH].
Qed.

Lemma join_cons :
  forall sep x rest,
    rest <> [] -> Js.join sep (x :: rest) = (x ++ sep ++ Js.join sep rest)%string.
Proof.
  intros sep x [| y rest] H; [contradiction | reflexivity].
Qed.

Lemma join_app :
  forall sep a b,
    a <> [] -> b <> [] ->
    Js.join sep (a ++ b)%list
    = (Js.join sep a ++ sep ++ Js.join sep b)%string.
Proof.
  induction a as [| x a IH]; intros b Ha Hb; [contradiction |].
  destruct a as [| y a].
  - cbn [app]. rewrite join_cons by assumption. reflexivity.
  - change ((x :: y :: a) ++ b)%list with (x :: ((y :: a) ++ b))%list.
    rewrite join_cons by discriminate.
    rewrite IH by (discriminate || assumption).
    rewrite (join_cons sep x (y :: a)) by discriminate.
    rewrite !append_assoc'. reflexivity.
Qed.

(** Joining what was split gives the text back. *)
Lemma join_split_go :
  forall c s cur,
    Js.join (String c "") (Js.split_go (String c "") 0 cur s)
    = (cur ++ s)%string.
Proof.
  induction s as [| d s IH]; intros cur.
  - cbn. rewrite append_nil_r. reflexivity.
  - rewrite split_go_char_cons. destruct (Ascii.eqb c d) eqn:E.
    + apply Ascii.eqb_eq in E. subst d.
      rewrite join_cons by apply split_go_nonempty.
      rewrite IH. reflexivity.
    + rewrite IH, append_assoc'. reflexivity.
Qed.

Lemma join_split :
  forall c s, Js.join (String c "") (Js.split (String c "") s) = s.
Proof. intros c s. unfold Js.split. apply join_split_go. Qed.

(** Splitting distributes over a separator between two texts. *)
Lemma split_go_app :
  forall c a b cur,
    Js.split_go (String c "") 0 cur (a ++ String c b)
    = (Js.split_go (String c "") 0 cur a
       ++ Js.split_go (String c "") 0 "" b)%list.
Proof.
  induction a as [| d a IH]; intros b cur.
  - change ("" ++ String c b)%string with (String c b).
    rewrite split_go_char_cons, Ascii.eqb_refl. reflexivity.
  - change (String d a ++ String c b)%string with (String d (a ++ String c b)).
    rewrite !split_go_char_cons. destruct (Ascii.eqb c d).
    + rewrite IH. reflexivity.
    + apply IH.
Qed.

(** No piece holds the separator. *)
Lemma split_go_pieces :
  forall c s cur,
    all (notChar c) cur = true ->
    Forall (fun piece => all (notChar c) piece = true)
           (Js.split_go (String c "") 0 cur s).
Proof.
  induction s as [| d s IH]; intros cur Hcur.
  - cbn. constructor; [assumption | constructor].
  - rewrite split_go_char_cons. destruct (Ascii.eqb c d) eqn:E.
    + constructor; [assumption | apply IH; reflexivity].
    + apply IH. rewrite all_app, Hcur. cbn. unfold notChar. rewrite E.
      reflexivity.
Qed.

Lemma split_go_whole :
  forall c s cur,
    all (notChar c) s = true ->
    Js.split_go (String c "") 0 cur s = [(cur ++ s)%string].
Proof.
  induction s as [| d s IH]; intros cur H.
  - cbn. rewrite append_nil_r. reflexivity.
  - cbn [all] in H. apply andb_true_iff in H. destruct H as [Hd Hs].
    rewrite split_go_char_cons. unfold notChar in Hd.
    apply negb_true_iff in Hd. rewrite Hd, (IH _ Hs), append_assoc'.
    reflexivity.
Qed.

(** A piece begins with what was collected before it. *)
Lemma split_go_head :
  forall c s cur,
    exists h rest,
      Js.split_go (String c "") 0 cur s = h :: rest
      /\ String.prefix cur h = true.
Proof.
  induction s as [| d s IH]; intros cur.
  - exists cur, []. split; [reflexivity | apply prefix_refl].
  - rewrite split_go_char_cons. destruct (Ascii.eqb c d).
    + exists cur, (Js.split_go (String c "") 0 "" s).
      split; [reflexivity | apply prefix_refl].
    + destruct (IH (cur ++ String d "")%string) as (h & rest & E & P).
      exists h, rest. split; [assumption |].
      apply (prefix_weaken cur (String d "")). assumption.
Qed.

Lemma prefix_decompose :
  forall p s, String.prefix p s = true -> exists t, s = (p ++ t)%string.
Proof.
  induction p as [| a p IH]; intros s H.
  - exists s. reflexivity.
  - destruct s as [| b s]; [cbn in H; discriminate |].
    rewrite prefix_cons in H. destruct (Ascii.eqb a b) eqn:E; [| discriminate].
    apply Ascii.eqb_eq in E. subst b. destruct (IH _ H) as [t ->].
    exists t. reflexivity.
Qed.

Lemma split_go_skip :
  forall c p t cur,
    all (notChar c) p = true ->
    Js.split_go (String c "") 0 cur (p ++ t)
    = Js.split_go (String c "") 0 (cur ++ p) t.
Proof.
  induction p as [| d p IH]; intros t cur H.
  - rewrite append_nil_r. reflexivity.
  - cbn [all] in H. apply andb_true_iff in H. destruct H as [Hd Hp].
    change (String d p ++ t)%string with (String d (p ++ t)).
    rewrite split_go_char_cons. unfold notChar in Hd.
    apply negb_true_iff in Hd. rewrite Hd, (IH _ _ Hp), append_assoc'.
    reflexivity.
Qed.

(** A text that begins with [p] has a first piece that begins with [p],
    when [p] does not hold the separator. *)
Lemma split_first_piece :
  forall c s p h rest,
    Js.startsWith s p = true ->
    all (notChar c) p = true ->
    Js.split_go (String c "") 0 "" s = h :: rest ->
    String.prefix p h = true.
Proof.
  intros c s p h rest Hs Hp E. unfold Js.startsWith in Hs.
  destruct (prefix_decompose _ _ Hs) as [t ->].
  rewrite (split_go_skip _ _ _ _ Hp) in E.
  destruct (split_go_head c t ("" ++ p)) as (h' & rest' & E' & P).
  rewrite E' in E. injection E as -> ->. exact P.
Qed.

(** ** White space *)

Lemma trimEnd_empty :
  forall s, Js.trimEnd s = "" <-> Js.trim_truthy s = false.
Proof.
  induction s as [| c s IH]; [cbn; tauto |].
  cbn [Js.trimEnd Js.trim_truthy]. rewrite orb_false_iff, negb_false_iff.
  destruct (Js.trimEnd s) eqn:E.
  - destruct (Js.is_space c); split; intro H.
    + split; [reflexivity | apply IH; reflexivity].
    + reflexivity.
    + discriminate.
    + destruct H; discriminate.
  - split; [discriminate |]. intros [_ H]. apply IH in H. discriminate.
Qed.

Lemma trim_truthy_trimStart :
  forall s, Js.trim_truthy (Js.trimStart s) = Js.trim_truthy s.
Proof.
  induction s as [| c s IH]; [reflexivity |].
  cbn [Js.trimStart]. destruct (Js.is_space c) eqn:E.
  - rewrite IH. cbn [Js.trim_truthy]. rewrite E. reflexivity.
  - reflexivity.
Qed.

(** [s.trim()] is the empty string exactly when [s] is blank. *)
Lemma trim_empty :
  forall s, Js.trim s = "" <-> Js.trim_truthy s = false.
Proof.
  intros s. unfold Js.trim. rewrite trimEnd_empty, trim_truthy_trimStart.
  tauto.
Qed.

Lemma nonempty_trim :
  forall s, nonempty (Js.trim s) = Js.trim_truthy s.
Proof.
  intros s. unfold nonempty.
  destruct (Js.trim_truthy s) eqn:E.
  - destruct (String.eqb (Js.trim s) "") eqn:F; [| reflexivity].
    apply String.eqb_eq in F. apply trim_empty in F. congruence.
  - apply trim_empty in E. rewrite E. reflexivity.
Qed.

Lemma all_trimStart :
  forall p s, all p s = true -> all p (Js.trimStart s) = true.
Proof.
  induction s as [| c s IH]; intros H; [reflexivity |].
  cbn [Js.trimStart]. destruct (Js.is_space c); [| assumption].
  cbn [all] in H. apply andb_true_iff in H. apply IH, H.
Qed.

Lemma all_trimEnd :
  forall p s, all p s = true -> all p (Js.trimEnd s) = true.
Proof.
  induction s as [| c s IH]; intros H; [reflexivity |].
  cbn [all] in H. apply andb_true_iff in H. destruct H as [Hc Hs].
  cbn [Js.trimEnd]. specialize (IH Hs).
  destruct (Js.trimEnd s) eqn:E.
  - destruct (Js.is_space c); [reflexivity |]. cbn. rewrite Hc. reflexivity.
  - cbn [all]. cbn [all] in IH. rewrite Hc, IH. reflexivity.
Qed.

Lemma all_trim :
  forall p s, all p s = true -> all p (Js.trim s) = true.
Proof. intros p s H. apply all_trimEnd, all_trimStart, H. Qed.

(** ** The changelog *)

Lemma firstn_length_app :
  forall {A} (a b : list A), firstn (List.length a) (a ++ b)%list = a.
Proof.
  induction a as [| x a IH]; intros b; [reflexivity |].
  cbn. rewrite IH. reflexivity.
Qed.

Lemma skipn_length_app :
  forall {A} (a b : list A), skipn (List.length a) (a ++ b)%list = b.
Proof.
  induction a as [| x a IH]; intros b; [reflexivity |]. cbn. apply IH.
Qed.

(** The loop stops at the first heading, whatever it noted before. *)
Lemma insertIndexFrom_heading :
  forall pre i previous h post insertIndex,
    Forall (fun l => isHeading l = false) pre ->
    isHeading h = true ->
    insertIndexFrom i previous (pre ++ h :: post)%list insertIndex
    = i + List.length pre.
Proof.
  induction pre as [| l pre IH]; intros i previous h post insertIndex Hpre Hh.
  - cbn [app insertIndexFrom List.length]. unfold isHeading in Hh.
    rewrite Hh. lia.
  - inversion Hpre as [| ? ? Hl Hrest]; subst.
    cbn [app insertIndexFrom List.length]. unfold isHeading in Hl.
    rewrite Hl. rewrite (IH _ _ _ _ _ Hrest Hh). lia.
Qed.

(** No heading stands above the place the loop finds. *)
Lemma insertIndexFrom_before :
  forall lines i previous insertIndex,
    Forall (fun l => isHeading l = false)
      (firstn (insertIndexFrom i previous lines insertIndex - i) lines).
Proof.
  induction lines as [| l lines IH]; intros i previous insertIndex.
  - rewrite firstn_nil. constructor.
  - cbn [insertIndexFrom]. destruct (Js.startsWith l "## ") eqn:Hl.
    + rewrite Nat.sub_diag. constructor.
    + match goal with
      | |- Forall _ (firstn (?r - i) _) =>
          remember r as found eqn:Hr; destruct (found - i) as [| m] eqn:Hm
      end.
      * constructor.
      * cbn [firstn]. constructor; [exact Hl |].
        replace m with (found - S i) by lia. subst found. apply IH.
Qed.

Lemma insertIndexFrom_bound :
  forall lines i previous insertIndex,
    insertIndexFrom i previous lines insertIndex
    <= Nat.max insertIndex (i + List.length lines).
Proof.
  induction lines as [| l lines IH]; intros i previous insertIndex.
  - cbn. lia.
  - cbn [insertIndexFrom List.length].
    destruct (Js.startsWith l "## "); [lia |].
    match goal with
    | |- insertIndexFrom _ _ _ ?idx <= _ =>
        specialize (IH (S i) (Some l) idx);
        assert (idx <= Nat.max insertIndex (S i))
    end.
    { destruct previous as [p |]; [| lia].
      destruct (Js.trim_truthy p && String.eqb (Js.trim l) ""); lia. }
    lia.
Qed.

(** Where the notes go when the changelog has a release section. *)
Lemma updateChangelog_at_heading :
  forall text pre h post notes,
    Js.split LF text = (pre ++ h :: post)%list ->
    Forall (fun l => isHeading l = false) pre ->
    isHeading h = true ->
    updateChangelog (Some text) notes
    = Js.join LF (pre ++ [notes; ""] ++ h :: post)%list.
Proof.
  intros text pre h post notes E Hpre Hh. unfold updateChangelog.
  rewrite E, (insertIndexFrom_heading _ _ _ _ _ _ Hpre Hh).
  cbn [Nat.add]. rewrite firstn_length_app, skipn_length_app. reflexivity.
Qed.

(** X1.  Release notes are put immediately before the first release section;
    what stood above and below it is kept as it was. *)
Theorem notes_go_before_the_first_release :
  forall head tail notes,
    Forall (fun l => isHeading l = false) (Js.split LF head) ->
    updateChangelog (Some (head ++ LF ++ "## " ++ tail)) notes
    = (head ++ LF ++ notes ++ LF ++ LF ++ "## " ++ tail)%string.
Proof.
  intros head tail notes Hhead.
  destruct (split_go_head (ascii_of_nat 10) tail "## ") as (h & rest & E & P).
  assert (Es : Js.split LF (head ++ LF ++ "## " ++ tail)
               = (Js.split LF head ++ h :: rest)%list).
  { unfold Js.split, LF.
    change (head ++ String (ascii_of_nat 10) "" ++ "## " ++ tail)%string
      with (head ++ String (ascii_of_nat 10) ("## " ++ tail))%string.
    rewrite split_go_app. f_equal. rewrite <- E. reflexivity. }
  rewrite (updateChangelog_at_heading _ _ _ _ notes Es Hhead P).
  rewrite join_app by (apply split_go_nonempty || discriminate).
  unfold LF at 1. rewrite join_split.
  change ([notes; ""] ++ h :: rest)%list with (notes :: "" :: h :: rest).
  rewrite !join_cons by discriminate.
  rewrite <- E. unfold LF. rewrite join_split_go. reflexivity.
Qed.

Lemma notes_go_before_the_first_release_witness :
  updateChangelog
    (Some (("# Changelog" ++ LF) ++ LF ++ "## "
           ++ ("[25.07.1] - 2025-07-01" ++ LF)))
    "## [25.07.2] - 2025-07-02"
  = (("# Changelog" ++ LF) ++ LF ++ "## [25.07.2] - 2025-07-02" ++ LF ++ LF
     ++ "## " ++ ("[25.07.1] - 2025-07-01" ++ LF))%string.
Proof.
  apply (notes_go_before_the_first_release ("# Changelog" ++ LF)
           ("[25.07.1] - 2025-07-01" ++ LF) "## [25.07.2] - 2025-07-02").
  vm_compute. repeat constructor.
Defined.

(** X2.  A changelog that does not exist yet is written as the standard header
    followed by the notes. *)
Theorem missing_changelog_gets_the_header :
  forall notes,
    updateChangelog None notes = (defaultChangelog ++ notes ++ LF ++ LF)%string.
Proof.
  intros notes. unfold updateChangelog.
  assert (E : Js.split LF defaultChangelog
              = ["# Changelog"; "";
                 "All notable changes to this project will be documented in this file.";
                 ""; ""])
    by (vm_compute; reflexivity).
  rewrite E. reflexivity.
Qed.

Lemma split_join :
  forall c ls,
    ls <> [] ->
    Js.split (String c "") (Js.join (String c "") ls)
    = flat_map (Js.split (String c "")) ls.
Proof.
  induction ls as [| x ls IH]; intros H; [contradiction |].
  destruct ls as [| y ls].
  - cbn. rewrite app_nil_r. reflexivity.
  - rewrite join_cons by discriminate.
    change (flat_map (Js.split (String c "")) (x :: y :: ls))
      with (Js.split (String c "") x
            ++ flat_map (Js.split (String c "")) (y :: ls))%list.
    rewrite <- IH by discriminate. unfold Js.split.
    change (x ++ String c "" ++ Js.join (String c "") (y :: ls))%string
      with (x ++ String c (Js.join (String c "") (y :: ls)))%string.
    apply split_go_app.
Qed.

Lemma flat_map_split_pieces :
  forall c ls,
    Forall (fun piece => all (notChar c) piece = true) ls ->
    flat_map (Js.split (String c "")) ls = ls.
Proof.
  induction 1 as [| x ls Hx _ IH]; [reflexivity |].
  cbn [flat_map]. rewrite IH. unfold Js.split.
  rewrite (split_go_whole _ _ _ Hx). reflexivity.
Qed.

(** Joining depends on a stretch of lines only through its own join. *)
Lemma join_middle :
  forall sep P M M' Q,
    M <> [] -> M' <> [] ->
    Js.join sep M = Js.join sep M' ->
    Js.join sep (P ++ M ++ Q)%list = Js.join sep (P ++ M' ++ Q)%list.
Proof.
  intros sep P M M' Q HM HM' E.
  assert (Hin : Js.join sep (M ++ Q)%list = Js.join sep (M' ++ Q)%list).
  { destruct Q as [| q Q].
    - rewrite !app_nil_r. exact E.
    - rewrite !join_app by (assumption || discriminate). rewrite E.
      reflexivity. }
  destruct P as [| p P]; [exact Hin |].
  assert (HMQ : (M ++ Q)%list <> [])
    by (intro F; apply app_eq_nil in F; destruct F; contradiction).
  assert (HMQ' : (M' ++ Q)%list <> [])
    by (intro F; apply app_eq_nil in F; destruct F; contradiction).
  rewrite (join_app sep (p :: P) (M ++ Q)) by (assumption || discriminate).
  rewrite (join_app sep (p :: P) (M' ++ Q)) by (assumption || discriminate).
  rewrite Hin. reflexivity.
Qed.

(** X3.  Two releases in a row: the second notes land directly above the
    first, and the lines that were there stay around them in their
    order. *)
Theorem newest_release_first :
  forall existing n1 n2,
    isHeading n1 = true ->
    exists above below,
      (above ++ below)%list = Js.split LF (changelogText existing)
      /\ updateChangelog existing n1
         = Js.join LF (above ++ [n1; ""] ++ below)%list
      /\ updateChangelog (Some (updateChangelog existing n1)) n2
         = Js.join LF (above ++ [n2; ""; n1; ""] ++ below)%list.
Proof.
  intros existing n1 n2 H1.
  set (lines := Js.split LF (changelogText existing)).
  set (i := insertIndexFrom 0 None lines (List.length lines)).
  exists (firstn i lines), (skipn i lines).
  assert (U1 : updateChangelog existing n1
               = Js.join LF (firstn i lines ++ [n1; ""] ++ skipn i lines)%list)
    by (destruct existing; reflexivity).
  split; [apply firstn_skipn |]. split; [exact U1 |].
  assert (Hi : i <= List.length lines).
  { pose proof (insertIndexFrom_bound lines 0 None (List.length lines)) as B.
    fold i in B. lia. }
  assert (Hpieces : Forall (fun piece => all (notChar (ascii_of_nat 10)) piece = true)
                      (firstn i lines ++ skipn i lines)%list).
  { rewrite firstn_skipn. apply split_go_pieces. reflexivity. }
  apply Forall_app in Hpieces. destruct Hpieces as [Habove Hbelow].
  assert (Hnone : Forall (fun l => isHeading l = false) (firstn i lines)).
  { pose proof (insertIndexFrom_before lines 0 None (List.length lines)) as B.
    fold i in B. rewrite Nat.sub_0_r in B. exact B. }
  destruct (split_go_head (ascii_of_nat 10) n1 "") as (h & rest & E & _).
  assert (Hh : isHeading h = true).
  { apply (split_first_piece (ascii_of_nat 10) n1 "## " h rest);
      [exact H1 | reflexivity | exact E]. }
  assert (Es : Js.split LF (updateChangelog existing n1)
               = (firstn i lines
                  ++ h :: (rest ++ [""] ++ skipn i lines))%list).
  { rewrite U1. unfold LF. rewrite split_join
      by (destruct (firstn i lines); discriminate).
    rewrite !flat_map_app, (flat_map_split_pieces _ _ Habove),
      (flat_map_split_pieces _ _ Hbelow).
    cbn [flat_map]. unfold Js.split at 1. rewrite E.
    rewrite <- !app_assoc. reflexivity. }
  rewrite (updateChangelog_at_heading _ _ _ _ n2 Es Hnone Hh).
  assert (J : Js.join LF (h :: rest) = Js.join LF [n1]).
  { rewrite <- E. unfold LF. rewrite join_split_go. reflexivity. }
  pose proof (join_middle LF (firstn i lines ++ [n2; ""])%list (h :: rest)
                [n1] ("" :: skipn i lines)
                ltac:(discriminate) ltac:(discriminate) J) as K.
  rewrite <- !app_assoc in K. exact K.
Qed.

Lemma newest_release_first_witness :
  exists above below,
    (above ++ below)%list = Js.split LF (changelogText None)
    /\ updateChangelog None "## [25.07.1]"
       = Js.join LF (above ++ ["## [25.07.1]"; ""] ++ below)%list
    /\ updateChangelog (Some (updateChangelog None "## [25.07.1]"))
         "## [25.07.2]"
       = Js.join LF (above ++ ["## [25.07.2]"; ""; "## [25.07.1]"; ""]
                     ++ below)%list.
Proof.
  apply (newest_release_first None "## [25.07.1]" "## [25.07.2]").
  reflexivity.
Defined.

(** ** Workspace discovery *)

Lemma expandDirs_app :
  forall fs baseDir dirs packages,
    expandDirs fs baseDir dirs packages
    = (packages ++ expandDirs fs baseDir dirs [])%list.
Proof.
  induction dirs as [| dir dirs IH]; intros packages.
  - cbn. rewrite app_nil_r. reflexivity.
  - cbn [expandDirs].
    destruct (existsSync fs (pathJoin fs (pathJoin fs baseDir dir) "package.json"));
      [| apply IH].
    destruct (packageJsonName fs _) as [n |].
    + rewrite IH. rewrite (IH ([] ++ _)%list). rewrite <- app_assoc.
      reflexivity.
    + rewrite app_nil_r. reflexivity.
Qed.

Lemma expandPattern_app :
  forall fs packages pattern,
    expandPattern fs packages pattern
    = (packages ++ expandPattern fs [] pattern)%list.
Proof.
  intros fs packages pattern. unfold expandPattern.
  destruct (Js.includes pattern "*").
  - destruct (existsSync fs _); [| rewrite app_nil_r; reflexivity].
    destruct (readdirDirs fs _); [apply expandDirs_app |].
    rewrite app_nil_r. reflexivity.
  - destruct (existsSync fs _); [| rewrite app_nil_r; reflexivity].
    destruct (packageJsonName fs _); [reflexivity |].
    rewrite app_nil_r. reflexivity.
Qed.

Lemma fold_expandPattern :
  forall fs patterns packages,
    fold_left (expandPattern fs) patterns packages
    = (packages ++ flat_map (expandPattern fs []) patterns)%list.
Proof.
  induction patterns as [| p patterns IH]; intros packages.
  - cbn. rewrite app_nil_r. reflexivity.
  - cbn [fold_left flat_map]. rewrite IH, (expandPattern_app fs packages p).
    rewrite <- app_assoc. reflexivity.
Qed.

(** X4.  Every pattern is expanded on its own: what one pattern gives does not
    depend on the patterns around it, and an exception while one is
    expanded costs nothing of the others. *)
Theorem patterns_expand_independently :
  forall fs patterns,
    expandGlobPatterns fs patterns
    = flat_map (fun pattern => expandGlobPatterns fs [pattern]) patterns.
Proof.
  intros fs patterns. unfold expandGlobPatterns.
  rewrite fold_expandPattern. reflexivity.
Qed.

(** A package as [expandGlobPatterns] and [findPackagesInDir] build it:
    its package.json is the one of its path, and it exists. *)
Lemma expandDirs_found :
  forall fs baseDir dirs packages,
    Forall (found fs) packages ->
    Forall (found fs) (expandDirs fs baseDir dirs packages).
Proof.
  induction dirs as [| dir dirs IH]; intros packages H; [exact H |].
  cbn [expandDirs].
  destruct (existsSync fs (pathJoin fs (pathJoin fs baseDir dir) "package.json"))
    eqn:E; [| apply IH, H].
  destruct (packageJsonName fs _) as [n |]; [| exact H].
  apply IH. apply Forall_app. split; [exact H |].
  constructor; [| constructor]. split; [reflexivity | exact E].
Qed.

Lemma expandPattern_found :
  forall fs packages pattern,
    Forall (found fs) packages ->
    Forall (found fs) (expandPattern fs packages pattern).
Proof.
  intros fs packages pattern H. unfold expandPattern.
  destruct (Js.includes pattern "*").
  - destruct (existsSync fs _); [| exact H].
    destruct (readdirDirs fs _); [apply expandDirs_found, H | exact H].
  - destruct (existsSync fs (pathJoin fs pattern "package.json")) eqn:E;
      [| exact H].
    destruct (packageJsonName fs _); [| exact H].
    apply Forall_app. split; [exact H |].
    constructor; [| constructor]. split; [reflexivity | exact E].
Qed.

Lemma expandGlobPatterns_found :
  forall fs patterns, Forall (found fs) (expandGlobPatterns fs patterns).
Proof.
  intros fs patterns. unfold expandGlobPatterns.
  assert (G : forall packages,
             Forall (found fs) packages ->
             Forall (found fs) (fold_left (expandPattern fs) patterns packages)).
  { induction patterns as [| p patterns IH]; intros packages H; [exact H |].
    cbn [fold_left]. apply IH, expandPattern_found, H. }
  apply G. constructor.
Qed.

Lemma findInItems_found :
  forall fs dir items packages result,
    Forall (found fs) packages ->
    findInItems fs dir items packages = Some result ->
    Forall (found fs) result.
Proof.
  induction items as [| item items IH]; intros packages result H E.
  - cbn in E. injection E as <-. exact H.
  - cbn [findInItems] in E.
    destruct (existsSync fs (pathJoin fs (pathJoin fs dir item) "package.json"))
      eqn:Ex; [| apply (IH _ _ H E)].
    destruct (packageJsonName fs _) as [n |]; [| discriminate].
    eapply IH; [| exact E].
    apply Forall_app. split; [exact H |].
    constructor; [| constructor]. split; [reflexivity | exact Ex].
Qed.

Lemma findPackagesInDir_found :
  forall fs dir result,
    findPackagesInDir fs dir = Some result -> Forall (found fs) result.
Proof.
  intros fs dir result E. unfold findPackagesInDir in E.
  destruct (negb (existsSync fs dir)).
  - injection E as <-. constructor.
  - destruct (readdirDirs fs dir) as [items |]; [| discriminate].
    apply (findInItems_found _ _ _ _ _ (Forall_nil _) E).
Qed.

Lemma collectPackages_found :
  forall fs cfg packages,
    collectPackages fs cfg = Some packages -> Forall (found fs) packages.
Proof.
  intros fs cfg packages E.
  destruct cfg as [| | | | ws |];
    cbv beta iota zeta delta [collectPackages] in E.
  - destruct (lernaPackages fs); [| discriminate]. injection E as <-.
    apply expandGlobPatterns_found.
  - destruct (nxLayout fs) as [[libsDir appsDir] |]; [| discriminate].
    destruct (if truthy_str libsDir then _ else _) as [libs |] eqn:El;
      [| discriminate].
    destruct (if truthy_str appsDir then _ else _) as [apps |] eqn:Ea;
      [| discriminate].
    assert (Hl : Forall (found fs) libs).
    { destruct (truthy_str libsDir).
      - apply (findPackagesInDir_found _ _ _ El).
      - injection El as <-. constructor. }
    assert (Ha : Forall (found fs) apps).
    { destruct (truthy_str appsDir).
      - apply (findPackagesInDir_found _ _ _ Ea).
      - injection Ea as <-. constructor. }
    destruct (libs ++ apps)%list eqn:Eapp.
    + injection E as <-. apply expandGlobPatterns_found.
    + injection E as <-. rewrite <- Eapp. apply Forall_app. split; assumption.
  - injection E as <-. constructor.
  - destruct (pnpmYamlPackages fs).
    + injection E as <-. apply expandGlobPatterns_found.
    + destruct (pnpmWorkspaceText fs); [| discriminate].
      destruct (packagesMatch _); injection E as <-;
        [apply expandGlobPatterns_found | constructor].
  - destruct ws as [patterns | [patterns |]]; injection E as <-;
      apply expandGlobPatterns_found.
  - injection E as <-. constructor.
Qed.

Lemma filter_all :
  forall {A} (f : A -> bool) l,
    Forall (fun x => f x = true) l -> filter f l = l.
Proof.
  induction 1 as [| x l Hx _ IH]; [reflexivity |].
  cbn. rewrite Hx, IH. reflexivity.
Qed.

Lemma filter_none :
  forall {A} (f : A -> bool) l,
    Forall (fun x => f x = false) l -> filter f l = [].
Proof.
  induction 1 as [| x l Hx _ IH]; [reflexivity |].
  cbn. rewrite Hx, IH. reflexivity.
Qed.

(** X5.  The last filter of [discoverWorkspaces] lets everything through:
    what the [switch] collected is what is returned, and every package
    returned for a monorepo has its package.json on disk. *)
Theorem discovered_is_what_was_collected :
  forall fs cfg packages,
    cfg <> SingleConfig ->
    collectPackages fs cfg = Some packages ->
    discoverWorkspaces fs cfg = packages
    /\ Forall (found fs) (discoverWorkspaces fs cfg).
Proof.
  intros fs cfg packages Hcfg E.
  pose proof (collectPackages_found _ _ _ E) as F.
  assert (D : discoverWorkspaces fs cfg = packages).
  { unfold discoverWorkspaces. rewrite E.
    destruct cfg; try contradiction; apply filter_all;
      (eapply Forall_impl; [| exact F]);
      intros pkg [Hp He]; rewrite <- Hp; exact He. }
  rewrite D. split; [reflexivity | exact F].
Qed.

Lemma discovered_is_what_was_collected_witness :
  discoverWorkspaces lernaFiles LernaConfig
  = [mkPackage "core" "packages/core" "packages/core/package.json";
     mkPackage "ui" "packages/ui" "packages/ui/package.json"]
  /\ Forall (found lernaFiles) (discoverWorkspaces lernaFiles LernaConfig).
Proof.
  apply (discovered_is_what_was_collected lernaFiles LernaConfig
           [mkPackage "core" "packages/core" "packages/core/package.json";
            mkPackage "ui" "packages/ui" "packages/ui/package.json"]).
  - discriminate.
  - reflexivity.
Defined.

(** ** Workspace discovery: the configurations that find nothing *)

Lemma addFile_no_package :
  forall files changed, fold_left (addFile []) files changed = changed.
Proof.
  induction files as [| f files IH]; intros changed; [reflexivity |].
  cbn [fold_left]. unfold addFile at 2. cbn [findIndex].
  destruct (negb (Js.trim_truthy f)); apply IH.
Qed.

Lemma addCommit_no_package :
  forall commits changed, fold_left (addCommit []) commits changed = changed.
Proof.
  induction commits as [| c commits IH]; intros changed; [reflexivity |].
  cbn [fold_left]. unfold addCommit at 2. cbn [findIndex].
  destruct (scopeOf _); apply IH.
Qed.

Lemma no_package_changed :
  forall w commits, getChangedPackages w [] commits = [].
Proof.
  intros w commits. unfold getChangedPackages. cbn [isSinglePackage].
  destruct (changedFiles w) as [files |]; [| reflexivity].
  rewrite addFile_no_package, addCommit_no_package. reflexivity.
Qed.

(** With no package discovered, [analyzeStep] never proposes a release. *)
Lemma no_package_no_release :
  forall r st,
    discovered r = Some [] ->
    forall next, fst (analyzeStep r st) <> Returned (Some next).
Proof.
  intros r st H next. unfold analyzeStep. rewrite H.
  destruct (commitsSinceLastRelease r) as [[commits |] |];
    try (cbn; discriminate).
  destruct (nonempty commits); [| cbn; discriminate].
  rewrite no_package_changed. cbn. discriminate.
Qed.

(** X6.  A repository with a rush.json (and neither lerna.json nor nx.json) is
    taken for a Rush monorepo, for which [discoverWorkspaces] has no
    case: it finds no package, and no release is ever proposed. *)
Theorem rush_repository_is_never_released :
  forall fs w g st,
    existsSync fs "lerna.json" = false ->
    existsSync fs "nx.json" = false ->
    existsSync fs "rush.json" = true ->
    detectMonorepoConfig fs = Some RushConfig
    /\ discoverWorkspaces fs RushConfig = []
    /\ forall next,
         fst (analyzeStep (repoOf w fs g) st) <> Returned (Some next).
Proof.
  intros fs w g st Hl Hn Hr.
  assert (D : detectMonorepoConfig fs = Some RushConfig).
  { unfold detectMonorepoConfig. rewrite Hl, Hn, Hr. reflexivity. }
  split; [exact D |]. split; [reflexivity |].
  apply no_package_no_release. unfold repoOf. cbn [discovered].
  rewrite D. reflexivity.
Qed.

Lemma rush_repository_is_never_released_witness :
  detectMonorepoConfig (filesWith ["rush.json"; "package.json"])
  = Some RushConfig
  /\ discoverWorkspaces (filesWith ["rush.json"; "package.json"]) RushConfig
     = []
  /\ forall next,
       fst (analyzeStep
              (repoOf bareWorld (filesWith ["rush.json"; "package.json"])
                      (mkGitLog None (Some "abc1234 feat: x")))
              (start (ctxOf liveConfig)))
       <> Returned (Some next).
Proof.
  apply (rush_repository_is_never_released
           (filesWith ["rush.json"; "package.json"]) bareWorld
           (mkGitLog None (Some "abc1234 feat: x"))
           (start (ctxOf liveConfig)));
    reflexivity.
Defined.

Lemma lazyGroup_class :
  forall s captured result,
    all inGroupClass captured = true ->
    lazyGroup captured s = Some result ->
    all inGroupClass result = true.
Proof.
  induction s as [| c s IH]; intros captured result Hc E.
  - cbn in E. injection E as <-. exact Hc.
  - cbn [lazyGroup] in E.
    destruct (Js.startsWith (String c s) "\n\w" || String.eqb (String c s) "").
    + injection E as <-. exact Hc.
    + destruct (inGroupClass c) eqn:Ec; [| discriminate].
      eapply IH; [| exact E].
      rewrite all_app, Hc. cbn. rewrite Ec. reflexivity.
Qed.

Lemma packagesMatch_class :
  forall s captured,
    packagesMatch s = Some captured -> all inGroupClass captured = true.
Proof.
  assert (Here : forall s captured,
             packagesMatchHere s = Some captured ->
             all inGroupClass captured = true).
  { intros s captured E. unfold packagesMatchHere in E.
    destruct (Js.startsWith s "packages:\"); [| discriminate].
    apply (lazyGroup_class _ "" _ eq_refl E). }
  induction s as [| c s IH]; intros captured E; cbn [packagesMatch] in E.
  - destruct (packagesMatchHere "") eqn:M; [| discriminate].
    injection E as <-. apply (Here _ _ M).
  - destruct (packagesMatchHere (String c s)) eqn:M.
    + injection E as <-. apply (Here _ _ M).
    + apply IH, E.
Qed.

(** Pieces of a text are made of its code units, whatever the
    separator. *)
Lemma split_go_all :
  forall p sep s skip cur,
    all p cur = true -> all p s = true ->
    Forall (fun piece => all p piece = true) (Js.split_go sep skip cur s).
Proof.
  induction s as [| c s IH]; intros skip cur Hcur Hs.
  - cbn. constructor; [exact Hcur | constructor].
  - cbn [all] in Hs. apply andb_true_iff in Hs. destruct Hs as [Hc Hs].
    cbn [Js.split_go]. destruct skip as [| k]; [| apply IH; assumption].
    destruct (String.prefix sep (String c s)).
    + constructor; [exact Hcur | apply IH; [reflexivity | exact Hs]].
    + apply IH; [| exact Hs]. rewrite all_app, Hcur. cbn. rewrite Hc.
      reflexivity.
Qed.

(** The fallback parsing of pnpm-workspace.yaml never reads a pattern:
    whatever the text, what the regular expression captures holds no
    line that begins with a dash and a space. *)
Lemma packageLines_empty :
  forall yamlContent captured,
    packagesMatch yamlContent = Some captured -> packageLines captured = [].
Proof.
  intros yamlContent captured E. apply packagesMatch_class in E.
  unfold packageLines.
  rewrite filter_none; [reflexivity |].
  apply Forall_map.
  eapply Forall_impl;
    [| apply (split_go_all inGroupClass BACKSLASH_N captured 0 "" eq_refl E)].
  intros piece Hp. cbn beta in Hp. apply (all_trim inGroupClass) in Hp.
  unfold Js.startsWith. destruct (Js.trim piece) as [| c t]; [reflexivity |].
  rewrite prefix_cons. cbn [all] in Hp. apply andb_true_iff in Hp.
  destruct Hp as [Hc _]. destruct (Ascii.eqb "-" c) eqn:Ec; [| reflexivity].
  apply Ascii.eqb_eq in Ec. subst c. discriminate.
Qed.

(** X7.  A pnpm workspace whose [pnpm-workspace.yaml] is not read through
    js-yaml (the module is missing, or the call throws) has no package
    discovered: the fallback finds none, whatever the file says, and no
    release is ever proposed. *)
Theorem pnpm_fallback_finds_no_package :
  forall fs yamlContent,
    pnpmYamlPackages fs = None ->
    pnpmWorkspaceText fs = Some yamlContent ->
    discoverWorkspaces fs PnpmWorkspaceConfig = []
    /\ (detectMonorepoConfig fs = Some PnpmWorkspaceConfig ->
        forall w g st next,
          fst (analyzeStep (repoOf w fs g) st) <> Returned (Some next)).
Proof.
  intros fs yamlContent Hy Ht.
  assert (D : discoverWorkspaces fs PnpmWorkspaceConfig = []).
  { unfold discoverWorkspaces, collectPackages. rewrite Hy, Ht.
    destruct (packagesMatch yamlContent) as [captured |] eqn:M;
      [| reflexivity].
    rewrite (packageLines_empty _ _ M). reflexivity. }
  split; [exact D |]. intros Hd w g st next.
  apply no_package_no_release. unfold repoOf. cbn [discovered].
  rewrite Hd. cbn [option_map]. rewrite D. reflexivity.
Qed.

Lemma pnpm_fallback_finds_no_package_witness :
  discoverWorkspaces pnpmFiles PnpmWorkspaceConfig = []
  /\ (detectMonorepoConfig pnpmFiles = Some PnpmWorkspaceConfig ->
      forall w g st next,
        fst (analyzeStep (repoOf w pnpmFiles g) st) <> Returned (Some next)).
Proof.
  apply (pnpm_fallback_finds_no_package pnpmFiles
           ("packages:" ++ LF ++ "  - 'packages/*'" ++ LF));
    reflexivity.
Defined.

(** ** Reading the commit log *)

Lemma trimStart_fixed :
  forall c s, Js.is_space c = false -> Js.trimStart (String c s) = String c s.
Proof. intros c s H. cbn. rewrite H. reflexivity. Qed.

Lemma trimEnd_idempotent :
  forall s, Js.trimEnd (Js.trimEnd s) = Js.trimEnd s.
Proof.
  induction s as [| c s IH]; [reflexivity |].
  cbn [Js.trimEnd]. destruct (Js.trimEnd s) as [| d r] eqn:E.
  - destruct (Js.is_space c) eqn:Ec; [reflexivity |].
    cbn. rewrite Ec. reflexivity.
  - cbn [Js.trimEnd]. cbn [Js.trimEnd] in IH. rewrite IH. reflexivity.
Qed.

Lemma trimEnd_head :
  forall c s,
    Js.is_space c = false ->
    exists r, Js.trimEnd (String c s) = String c r.
Proof.
  intros c s H. cbn [Js.trimEnd]. destruct (Js.trimEnd s) as [| d r].
  - rewrite H. exists "". reflexivity.
  - exists (String d r). reflexivity.
Qed.

Lemma trimStart_head :
  forall s,
    Js.trimStart s = ""
    \/ exists c r, Js.trimStart s = String c r /\ Js.is_space c = false.
Proof.
  induction s as [| c s IH]; [left; reflexivity |].
  cbn [Js.trimStart]. destruct (Js.is_space c) eqn:E; [exact IH |].
  right. exists c, s. split; [reflexivity | exact E].
Qed.

(** [trim] leaves a trimmed string as it is. *)
Lemma trim_idempotent : forall s, Js.trim (Js.trim s) = Js.trim s.
Proof.
  intros s. unfold Js.trim.
  destruct (trimStart_head s) as [E | (c & r & E & Hc)]; rewrite E.
  - reflexivity.
  - destruct (trimEnd_head c r Hc) as [r' E'].
    rewrite E', (trimStart_fixed _ _ Hc), <- E'. apply trimEnd_idempotent.
Qed.

Lemma getCommits_cases :
  forall w g,
    (forall c,
        getCommitsSinceLastRelease w g = Some (Some c) ->
        Js.trim c = c /\ Js.trim_truthy c = true /\ nonempty c = true)
    /\ (getCommitsSinceLastRelease w g = None -> gitLogAll g = None).
Proof.
  intros w g.
  assert (K : forall (log : option string) c,
             option_map (fun c0 => if nonempty c0 then Some c0 else None)
                        (option_map Js.trim log) = Some (Some c) ->
             Js.trim c = c /\ Js.trim_truthy c = true /\ nonempty c = true).
  { intros [out |] c E; [| discriminate]. cbn in E.
    destruct (nonempty (Js.trim out)) eqn:N; [| discriminate].
    injection E as <-. split; [apply trim_idempotent |].
    split; [| exact N].
    rewrite <- nonempty_trim, trim_idempotent. exact N. }
  unfold getCommitsSinceLastRelease. split.
  - intros c. destruct (nonempty _); [| apply K].
    destruct (gitLogSinceTag g) as [out |]; [| apply K].
    apply (K (Some out)).
  - destruct (nonempty _).
    + destruct (gitLogSinceTag g); [discriminate |].
      destruct (gitLogAll g); [discriminate | reflexivity].
    + destruct (gitLogAll g); [discriminate | reflexivity].
Qed.

(** X8.  What [getCommitsSinceLastRelease] hands to the analysis is trimmed and
    not blank; it throws only when the full log cannot be read. *)
Theorem commit_log_is_trimmed_or_null :
  forall w g,
    (forall c,
        getCommitsSinceLastRelease w g = Some (Some c) ->
        Js.trim c = c /\ Js.trim_truthy c = true /\ nonempty c = true)
    /\ (getCommitsSinceLastRelease w g = None -> gitLogAll g = None).
Proof. exact getCommits_cases. Qed.

Lemma analyzeCommits_should :
  forall commits packagePath a,
    analyzeCommits commits packagePath = Some a -> shouldRelease a = true.
Proof.
  intros commits packagePath a E. unfold analyzeCommits in E.
  match type of E with
  | (if ?b then _ else _) = _ => destruct b; [| discriminate]
  end.
  injection E as <-. reflexivity.
Qed.

(** X9.  A repository without a monorepo marker is released as the one
    package [root] at path [.]: whether it is released, and as what, is
    decided by the whole commit log alone; its tag is [v-<version>], and
    no diff is consulted. *)
Theorem single_package_release :
  forall w fs g st c,
    detectMonorepoConfig fs = Some SingleConfig ->
    getCommitsSinceLastRelease w g = Some (Some c) ->
    fst (analyzeStep (repoOf w fs g) st)
    = Returned
        match analyzeCommits c "." with
        | Some a =>
            let v := generateCalVerVersion w (releaseType a) "."
                       (options (ctx st)) in
            Some (mkNext (Single (mkRelease rootPackage a v None ("v-" ++ v)))
                         None)
        | None => None
        end
    /\ packages (ctx (snd (analyzeStep (repoOf w fs g) st)))
       = Some [rootPackage].
Proof.
  intros w fs g st c Hd Hc.
  destruct (getCommits_cases w g) as [K _].
  destruct (K c Hc) as (_ & _ & N).
  unfold analyzeStep, repoOf.
  cbn [discovered commitsSinceLastRelease world].
  rewrite Hd, Hc. cbn [option_map discoverWorkspaces]. rewrite N.
  change (getChangedPackages w [rootPackage] c) with [rootPackage].
  cbn [flat_map]. rewrite app_nil_r. unfold releaseOf.
  change (path rootPackage) with ".".
  destruct (analyzeCommits c ".") as [a |] eqn:Ea.
  - rewrite (analyzeCommits_should _ _ _ Ea). split; reflexivity.
  - split; reflexivity.
Qed.

Lemma single_package_release_witness :
  fst (analyzeStep
         (repoOf bareWorld (filesWith [])
                 (mkGitLog None (Some ("abc1234 feat: x" ++ LF))))
         (start (ctxOf liveConfig)))
  = Returned
      match analyzeCommits "abc1234 feat: x" "." with
      | Some a =>
          let v := generateCalVerVersion bareWorld (releaseType a) "."
                     (options (ctx (start (ctxOf liveConfig)))) in
          Some (mkNext (Single (mkRelease rootPackage a v None ("v-" ++ v)))
                       None)
      | None => None
      end
  /\ packages
       (ctx (snd (analyzeStep
                    (repoOf bareWorld (filesWith [])
                            (mkGitLog None (Some ("abc1234 feat: x" ++ LF))))
                    (start (ctxOf liveConfig)))))
     = Some [rootPackage].
Proof.
  apply (single_package_release bareWorld (filesWith [])
           (mkGitLog None (Some ("abc1234 feat: x" ++ LF)))
           (start (ctxOf liveConfig)) "abc1234 feat: x");
    reflexivity.
Defined.

(** ** The order of the stages *)

Lemma block_0 : forall stage, block stage 0 = [].
Proof. reflexivity. Qed.










(** ** Loading the plugins *)

Lemma push_methods :
  forall hooks (method : Plugin -> option Hook) plugin loaded,
    (push hooks (method plugin) ++ methods method loaded)%list
    = (hooks ++ methods method (plugin :: loaded))%list.
Proof.
  intros hooks method plugin loaded. unfold push, methods. cbn [flat_map].
  destruct (method plugin).
  - rewrite <- app_assoc. reflexivity.
  - reflexivity.
Qed.

Lemma getPluginsFrom_merge :
  forall loadPlugin pluginConfigs plugins,
    getPluginsFrom loadPlugin pluginConfigs plugins
    = match loadAll loadPlugin pluginConfigs with
      | Returned loaded => Returned (merge plugins (collectionOf loaded))
      | Threw e => Threw e
      end.
Proof.
  induction pluginConfigs as [| c rest IH]; intros plugins.
  - cbn. unfold merge. cbn. rewrite !app_nil_r. destruct plugins. reflexivity.
  - cbn [getPluginsFrom loadAll].
    destruct (loadPlugin c) as [plugin | e]; [| reflexivity].
    rewrite IH. destruct (loadAll loadPlugin rest) as [loaded | e];
      [| reflexivity].
    f_equal. unfold merge, register, collectionOf.
    cbn [verifyConditions analyzeCommitsHooks verifyRelease generateNotes
         prepare publish success fail].
    rewrite !push_methods. reflexivity.
Qed.

(** X11.  The hooks of every stage are those of the configured plugins that
    have one, in the order of the configuration; a plugin that cannot be
    loaded fails the loading with its own error, and the plugins after it
    are not loaded. *)
Theorem hooks_follow_the_configuration :
  forall loadPlugin pluginConfigs,
    getPlugins loadPlugin pluginConfigs
    = match loadAll loadPlugin pluginConfigs with
      | Returned loaded => Returned (collectionOf loaded)
      | Threw e => Threw e
      end.
Proof.
  intros loadPlugin pluginConfigs. unfold getPlugins.
  rewrite getPluginsFrom_merge.
  destruct (loadAll loadPlugin pluginConfigs) as [loaded | e];
    [| reflexivity].
  f_equal.
Qed.

(** The hooks registered for [analyzeCommits] are never called: a run
    does not depend on them. *)
Remark analyzeCommits_hooks_are_never_called :
  forall r plugins hooks st,
    calverRelease r plugins st
    = calverRelease r
        (mkPlugins (verifyConditions plugins) hooks (verifyRelease plugins)
                   (generateNotes plugins) (prepare plugins)
                   (publish plugins) (success plugins) (fail plugins))
        st.
Proof. intros r plugins hooks st. reflexivity. Qed.

(** ** ChangeSetMapper: what is selected *)

Lemma set_add_NoDup :
  forall i s, NoDup s -> NoDup (set_add i s).
Proof.
  intros i s H. unfold set_add.
  destruct (existsb (Nat.eqb i) s) eqn:E; [exact H |].
  apply NoDup_app.
  - exact H.
  - constructor; [intros [] | constructor].
  - intros x Hx [<- | []].
    assert (existsb (Nat.eqb i) s = true).
    { apply existsb_exists. exists i. split; [exact Hx | apply Nat.eqb_refl]. }
    congruence.
Qed.

Lemma addFile_NoDup :
  forall packages files changed,
    NoDup changed -> NoDup (fold_left (addFile packages) files changed).
Proof.
  intros packages. induction files as [| f files IH]; intros changed H; [exact H |].
  cbn [fold_left]. apply IH. unfold addFile.
  destruct (negb (Js.trim_truthy f)); [exact H |].
  destruct (findIndex (ownsFile f) packages); [apply set_add_NoDup |]; exact H.
Qed.

Lemma addCommit_NoDup :
  forall packages commits changed,
    NoDup changed -> NoDup (fold_left (addCommit packages) commits changed).
Proof.
  intros packages. induction commits as [| c commits IH]; intros changed H; [exact H |].
  cbn [fold_left]. apply IH. unfold addCommit.
  destruct (scopeOf _); [| exact H].
  destruct (findIndex _ packages); [apply set_add_NoDup |]; exact H.
Qed.

Lemma selectPackages_In :
  forall packages changed p,
    In p (selectPackages packages changed) ->
    exists i, In i changed /\ nth_error packages i = Some p.
Proof.
  intros packages changed p H. unfold selectPackages in H.
  apply in_flat_map in H. destruct H as (i & Hi & Hp). exists i.
  split; [exact Hi |].
  destruct (nth_error packages i) as [q |]; [| contradiction].
  destruct Hp as [<- | []]. reflexivity.
Qed.

Lemma selectPackages_NoDup :
  forall packages changed,
    NoDup packages -> NoDup changed ->
    NoDup (selectPackages packages changed).
Proof.
  intros packages changed Hp Hc. induction Hc as [| i rest Hi Hrest IH].
  - constructor.
  - unfold selectPackages. cbn [flat_map]. fold (selectPackages packages rest).
    destruct (nth_error packages i) as [p |] eqn:E; [| exact IH].
    cbn [app]. constructor; [| exact IH].
    intros Hin. apply selectPackages_In in Hin.
    destruct Hin as (j & Hj & Ej).
    assert (i = j).
    { apply (proj1 (NoDup_nth_error packages) Hp).
      - apply nth_error_Some. congruence.
      - congruence. }
    subst j. contradiction.
Qed.

(** X12.  What [getChangedPackages] returns is made of the packages it was
    given, each at most once; it is never empty unless no package was
    given: when nothing is detected, or git fails, every package is
    returned. *)
Theorem changed_packages_are_given_packages :
  forall w packages commitMessages,
    (forall p,
        In p (getChangedPackages w packages commitMessages) -> In p packages)
    /\ (getChangedPackages w packages commitMessages = [] -> packages = [])
    /\ (NoDup packages ->
        NoDup (getChangedPackages w packages commitMessages))
    /\ (changedFiles w = None ->
        getChangedPackages w packages commitMessages = packages).
Proof.
  intros w packages commitMessages. unfold getChangedPackages.
  destruct (isSinglePackage packages); [tauto |].
  destruct (changedFiles w) as [files |]; [| tauto].
  set (changed := fold_left (addCommit packages) (commitLines commitMessages)
                    (fold_left (addFile packages) files [])).
  assert (Hc : NoDup changed)
    by (apply addCommit_NoDup, addFile_NoDup; constructor).
  destruct (selectPackages packages changed) as [| q result] eqn:E.
  - repeat split; auto.
  - rewrite <- E. repeat split.
    + intros p Hp. apply selectPackages_In in Hp.
      destruct Hp as (i & _ & Hi). apply (nth_error_In _ _ Hi).
    + rewrite E. discriminate.
    + intros Hp. apply selectPackages_NoDup; assumption.
    + discriminate.
Qed.

Lemma addFile_one :
  forall packages file,
    List.length (fold_left (addFile packages) [file] []) <= 1.
Proof.
  intros packages file. cbn [fold_left]. unfold addFile.
  destruct (negb (Js.trim_truthy file)); [cbn; lia |].
  destruct (findIndex (ownsFile file) packages); cbn; lia.
Qed.

(** X13.  The listing of changed files is not cut into lines (lines 813-818
    split on a backslash followed by [n]): when git prints no backslash,
    the whole trimmed listing is taken for the name of one file, and the
    pass over the files picks at most one package. *)
Theorem changed_files_listing_is_one_entry :
  forall w packages files,
    changedFiles w = Some files ->
    (forall out,
        In (Some out) [gitDiffSinceTag w; gitDiffHead1 w; gitLsFiles w] ->
        all notBackslash out = true) ->
    (exists out,
        In (Some out) [gitDiffSinceTag w; gitDiffHead1 w; gitLsFiles w]
        /\ files = [Js.trim out])
    /\ List.length (fold_left (addFile packages) files []) <= 1.
Proof.
  intros w packages files E H. unfold changedFiles in E.
  assert (K : exists out,
             In (Some out) [gitDiffSinceTag w; gitDiffHead1 w; gitLsFiles w]
             /\ files = [Js.trim out]).
  { assert (S : forall out,
               all notBackslash out = true ->
               Js.split BACKSLASH_N (Js.trim out) = [Js.trim out]).
    { intros out Ho. unfold Js.split.
      rewrite split_go_backslash_n by (apply all_trim, Ho). reflexivity. }
    destruct (nonempty _).
    - destruct (gitDiffSinceTag w) as [out |] eqn:E1.
      + cbn in E. injection E as <-. exists out.
        split; [left; reflexivity |]. apply S, H. left. reflexivity.
      + destruct (gitDiffHead1 w) as [out |] eqn:E2; [| discriminate].
        cbn in E. injection E as <-. exists out.
        split; [right; left; reflexivity |]. apply S, H. right. left.
        reflexivity.
    - destruct (gitLsFiles w) as [out |] eqn:E3; [| discriminate].
      cbn in E. injection E as <-. exists out.
      split; [right; right; left; reflexivity |]. apply S, H.
      right. right. left. reflexivity. }
  split; [exact K |]. destruct K as (out & _ & ->). apply addFile_one.
Qed.

Lemma changed_files_listing_is_one_entry_witness :
  (exists out,
      In (Some out)
         [gitDiffSinceTag
            (diffWorld ("packages/ui/a.js" ++ LF ++ "packages/core/b.js" ++ LF));
          gitDiffHead1
            (diffWorld ("packages/ui/a.js" ++ LF ++ "packages/core/b.js" ++ LF));
          gitLsFiles
            (diffWorld ("packages/ui/a.js" ++ LF ++ "packages/core/b.js" ++ LF))]
      /\ [("packages/ui/a.js" ++ LF ++ "packages/core/b.js")%string]
         = [Js.trim out])
  /\ List.length
       (fold_left (addFile coreAndUi)
          [("packages/ui/a.js" ++ LF ++ "packages/core/b.js")%string] [])
     <= 1.
Proof.
  apply (changed_files_listing_is_one_entry
           (diffWorld ("packages/ui/a.js" ++ LF ++ "packages/core/b.js" ++ LF))
           coreAndUi
           [("packages/ui/a.js" ++ LF ++ "packages/core/b.js")%string]).
  - reflexivity.
  - intros out [E | [E | [E | []]]]; try discriminate E.
    injection E as <-. reflexivity.
Defined.

(** ** CommitClassifier: the hash, the root package, the empty log *)

Lemma indexOf_app :
  forall c h m,
    all (notChar c) h = true ->
    Js.indexOf c (h ++ String c m) = Some (String.length h).
Proof.
  induction h as [| d h IH]; intros m H.
  - cbn. rewrite Ascii.eqb_refl. reflexivity.
  - cbn [all] in H. apply andb_true_iff in H. destruct H as [Hd Hh].
    unfold notChar in Hd. apply negb_true_iff in Hd.
    rewrite Ascii.eqb_sym in Hd.
    cbn [append Js.indexOf String.length]. rewrite Hd, (IH _ Hh). reflexivity.
Qed.

Lemma indexOf_none :
  forall c s, all (notChar c) s = true -> Js.indexOf c s = None.
Proof.
  induction s as [| d s IH]; intros H; [reflexivity |].
  cbn [all] in H. apply andb_true_iff in H. destruct H as [Hd Hs].
  unfold notChar in Hd. apply negb_true_iff in Hd.
  rewrite Ascii.eqb_sym in Hd.
  cbn [Js.indexOf]. rewrite Hd, (IH Hs). reflexivity.
Qed.

Lemma substring_from_app :
  forall h r, Js.substring_from (String.length h) (h ++ r) = r.
Proof.
  induction h as [| d h IH]; intros r; [reflexivity | apply IH].
Qed.

Lemma substring_from_within :
  forall n h r,
    n <= String.length h ->
    Js.substring_from n (h ++ r) = (Js.substring_from n h ++ r)%string.
Proof.
  induction n as [| n IH]; intros h r H; [reflexivity |].
  destruct h as [| d h]; [cbn in H; lia |].
  cbn [String.length] in H. cbn [append Js.substring_from].
  apply IH. lia.
Qed.

Lemma messageOf_after_hash :
  forall h m,
    h <> "" -> all (notChar " ") h = true ->
    messageOf (h ++ " " ++ m) = m.
Proof.
  intros h m Hne Hh. unfold messageOf.
  change (h ++ " " ++ m)%string with (h ++ String " " m)%string.
  rewrite (indexOf_app _ _ _ Hh).
  destruct h as [| d h]; [contradiction |].
  cbn [String.length].
  cbn [append Js.substring_from].
  clear Hne Hh. induction h as [| e h IH]; [reflexivity | exact IH].
Qed.

(** X14.  The message of a [--oneline] line is what follows its first space,
    whatever the length of the hash before it; a line without a space, and
    a line that begins with one, are their own message. *)
Theorem message_follows_the_hash :
  (forall h m,
      h <> "" -> all (notChar " ") h = true ->
      messageOf (h ++ " " ++ m) = m)
  /\ (forall line, all (notChar " ") line = true -> messageOf line = line)
  /\ (forall m, messageOf (" " ++ m) = (" " ++ m)%string).
Proof.
  split; [exact messageOf_after_hash | split].
  - intros line H. unfold messageOf. rewrite (indexOf_none _ _ H).
    reflexivity.
  - intros m. reflexivity.
Qed.

Lemma span_all_stop :
  forall p t c r,
    all p t = true -> p c = false ->
    Js.span p (t ++ String c r) = (t, String c r).
Proof.
  induction t as [| d t IH]; intros c r Ht Hc.
  - cbn. rewrite Hc. reflexivity.
  - cbn [all] in Ht. apply andb_true_iff in Ht. destruct Ht as [Hd Ht].
    cbn [append Js.span]. rewrite Hd, (IH _ _ Ht Hc). reflexivity.
Qed.

Lemma span_all :
  forall p t, all p t = true -> Js.span p t = (t, "").
Proof.
  induction t as [| d t IH]; intros Ht; [reflexivity |].
  cbn [all] in Ht. apply andb_true_iff in Ht. destruct Ht as [Hd Ht].
  cbn [Js.span]. rewrite Hd, (IH Ht). reflexivity.
Qed.

(** X15.  The scope pass of [getChangedPackages] drops the first eight code
    units of a line (line 836).  With the seven-character hash it reads
    the message that [analyzeCommits] reads; with a longer hash what it
    reads begins with the end of the hash and a space, which carries no
    scope: such a commit selects no package. *)
Theorem scope_pass_assumes_a_seven_character_hash :
  forall h m,
    all Js.is_word h = true ->
    (String.length h = 7 ->
     Js.substring_from 8 (h ++ " " ++ m) = m
     /\ messageOf (h ++ " " ++ m) = m)
    /\ (7 < String.length h ->
        scopeOf (Js.substring_from 8 (h ++ " " ++ m)) = None
        /\ forall pkgs changed, addCommit pkgs changed (h ++ " " ++ m) = changed).
Proof.
  intros h m Hw. split.
  - intros L. split.
    + change (h ++ " " ++ m)%string with (h ++ String " " m)%string.
      do 8 (destruct h as [| ? h]; try discriminate L).
      reflexivity.
    + apply messageOf_after_hash.
      * destruct h; [discriminate L | discriminate].
      * clear L. induction h as [| d h IH]; [reflexivity |].
        cbn [all] in Hw. apply andb_true_iff in Hw. destruct Hw as [Hd Hh].
        cbn [all]. rewrite (IH Hh), andb_true_r.
        unfold notChar. destruct (Ascii.eqb " " d) eqn:E; [| reflexivity].
        apply Ascii.eqb_eq in E. subst d. discriminate Hd.
  - intros L.
    assert (S : scopeOf (Js.substring_from 8 (h ++ " " ++ m)) = None).
    { rewrite substring_from_within by lia.
      change (Js.substring_from 8 h ++ " " ++ m)%string
        with (Js.substring_from 8 h ++ String " " m)%string.
      unfold scopeOf.
      rewrite (span_all_stop Js.is_word _ " " m
                 (all_substring_from _ _ _ Hw) eq_refl).
      destruct (nonempty (Js.substring_from 8 h)); reflexivity. }
    split; [exact S |]. intros pkgs changed. unfold addCommit.
    rewrite S. reflexivity.
Qed.

Lemma scope_pass_assumes_a_seven_character_hash_witness :
  (String.length "abc12345" = 7 ->
   Js.substring_from 8 ("abc12345" ++ " " ++ "feat(core): x") = "feat(core): x"
   /\ messageOf ("abc12345" ++ " " ++ "feat(core): x") = "feat(core): x")
  /\ (7 < String.length "abc12345" ->
      scopeOf (Js.substring_from 8 ("abc12345" ++ " " ++ "feat(core): x"))
      = None
      /\ forall pkgs changed,
           addCommit pkgs changed ("abc12345" ++ " " ++ "feat(core): x")
           = changed).
Proof.
  apply (scope_pass_assumes_a_seven_character_hash "abc12345" "feat(core): x").
  reflexivity.
Defined.

Lemma existsb_incl :
  forall {A} (f : A -> bool) l l',
    incl l l' -> existsb f l = true -> existsb f l' = true.
Proof.
  intros A f l l' H E. apply existsb_exists in E. destruct E as (x & Hx & Fx).
  apply existsb_exists. exists x. split; [apply H, Hx | exact Fx].
Qed.

(** [analyzeCommits] in closed form. *)
Lemma analyzeCommits_closed :
  forall commitMessages packagePath,
    analyzeCommits commitMessages packagePath
    = let msgs := attributedMessages packagePath commitMessages in
      if existsb qualifies msgs then
        Some (mkAnalysis true
                (if existsb setsBreaking msgs then major
                 else if existsb setsFeature msgs then minor else patch)
                (existsb setsBreaking msgs) (existsb setsFeature msgs)
                (existsb setsFix msgs) (flat_map annotate msgs))
      else None.
Proof.
  intros commitMessages packagePath.
  unfold analyzeCommits, attributedMessages.
  rewrite analyze_loop. cbn zeta.
  set (msgs := map messageOf
                 (filter (attributed packagePath) (commitLines commitMessages))).
  cbn [fFeature fFix fBreaking fCommits noFlags orb app].
  destruct (flat_map annotate msgs) as [| x xs] eqn:Ha.
  - pose proof (no_annotation msgs Ha) as Hq.
    assert (Hf : existsb setsFeature msgs = false).
    { apply flag_qualifies; [| exact Hq].
      intros m. unfold setsFeature, qualifies.
      destruct (classify m); [reflexivity | discriminate]. }
    assert (Hx : existsb setsFix msgs = false).
    { apply flag_qualifies; [| exact Hq].
      intros m. unfold setsFix, qualifies.
      destruct (classify m); [reflexivity | discriminate]. }
    assert (Hb : existsb setsBreaking msgs = false).
    { apply flag_qualifies; [exact setsBreaking_qualifies | exact Hq]. }
    rewrite Hf, Hx, Hb, Hq. reflexivity.
  - assert (Hq : existsb qualifies msgs = true).
    { apply some_annotation. rewrite Ha. discriminate. }
    rewrite Hq. cbn [List.length Nat.eqb negb]. rewrite !orb_true_r.
    reflexivity.
Qed.

Lemma attributed_root :
  forall commitMessages,
    attributedMessages "." commitMessages
    = map messageOf (commitLines commitMessages).
Proof.
  intros commitMessages. unfold attributedMessages. f_equal.
  apply filter_all. apply Forall_forall. intros c _. reflexivity.
Qed.

Lemma attributed_incl :
  forall packagePath commitMessages,
    incl (attributedMessages packagePath commitMessages)
         (attributedMessages "." commitMessages).
Proof.
  intros packagePath commitMessages m H. rewrite attributed_root.
  unfold attributedMessages in H. apply in_map_iff in H.
  destruct H as (c & <- & Hc). apply filter_In in Hc.
  apply in_map, Hc.
Qed.

(** X16.  The root package sees every commit: a log that releases some package
    releases the root as well, with every flag the package has and every
    commit the package lists. *)
Theorem root_is_released_with_any_package :
  forall commitMessages packagePath a,
    analyzeCommits commitMessages packagePath = Some a ->
    exists a0,
      analyzeCommits commitMessages "." = Some a0
      /\ (hasBreakingChange a = true -> hasBreakingChange a0 = true)
      /\ (hasFeature a = true -> hasFeature a0 = true)
      /\ (hasFix a = true -> hasFix a0 = true)
      /\ incl (releaseCommits a) (releaseCommits a0).
Proof.
  intros commitMessages packagePath a E.
  rewrite analyzeCommits_closed in E. cbn zeta in E.
  pose proof (attributed_incl packagePath commitMessages) as I.
  destruct (existsb qualifies (attributedMessages packagePath commitMessages))
    eqn:Q; [| discriminate].
  injection E as <-.
  rewrite analyzeCommits_closed. cbn zeta.
  rewrite (existsb_incl _ _ _ I Q).
  eexists. split; [reflexivity |].
  cbn [hasBreakingChange hasFeature hasFix releaseCommits].
  repeat split; try apply (existsb_incl _ _ _ I).
  intros x Hx. apply in_flat_map in Hx. destruct Hx as (m & Hm & Hx).
  apply in_flat_map. exists m. split; [apply I, Hm | exact Hx].
Qed.

Lemma root_is_released_with_any_package_witness :
  exists a0,
    analyzeCommits coreLog "." = Some a0
    /\ (hasBreakingChange
          (mkAnalysis true minor false true false
                      [(Sparkles, "feat(core): x")]) = true ->
        hasBreakingChange a0 = true)
    /\ (hasFeature
          (mkAnalysis true minor false true false
                      [(Sparkles, "feat(core): x")]) = true ->
        hasFeature a0 = true)
    /\ (hasFix
          (mkAnalysis true minor false true false
                      [(Sparkles, "feat(core): x")]) = true ->
        hasFix a0 = true)
    /\ incl (releaseCommits
               (mkAnalysis true minor false true false
                           [(Sparkles, "feat(core): x")]))
            (releaseCommits a0).
Proof.
  apply (root_is_released_with_any_package coreLog "packages/core"
           (mkAnalysis true minor false true false
                       [(Sparkles, "feat(core): x")])).
  reflexivity.
Defined.

Lemma blank_all_space :
  forall s, Js.trim_truthy s = false -> all Js.is_space s = true.
Proof.
  induction s as [| c s IH]; intros H; [reflexivity |].
  cbn [Js.trim_truthy] in H. apply orb_false_iff in H. destruct H as [Hc Hs].
  apply negb_false_iff in Hc. cbn [all]. rewrite Hc, (IH Hs). reflexivity.
Qed.

Lemma all_space_blank :
  forall s, all Js.is_space s = true -> Js.trim_truthy s = false.
Proof.
  induction s as [| c s IH]; intros H; [reflexivity |].
  cbn [all] in H. apply andb_true_iff in H. destruct H as [Hc Hs].
  cbn [Js.trim_truthy]. rewrite Hc, (IH Hs). reflexivity.
Qed.

(** X17.  A log of white space only holds no commit: nothing is released,
    whatever the package. *)
Theorem blank_log_is_no_release :
  forall commitMessages packagePath,
    Js.trim_truthy commitMessages = false ->
    commitLines commitMessages = []
    /\ analyzeCommits commitMessages packagePath = None.
Proof.
  intros commitMessages packagePath H.
  assert (L : commitLines commitMessages = []).
  { unfold commitLines. apply filter_none.
    eapply Forall_impl;
      [| apply (split_go_all Js.is_space LF commitMessages 0 "" eq_refl
                  (blank_all_space _ H))].
    intros piece. apply all_space_blank. }
  split; [exact L |]. unfold analyzeCommits. rewrite L. reflexivity.
Qed.

Lemma blank_log_is_no_release_witness :
  commitLines (" " ++ LF ++ "  " ++ LF) = []
  /\ analyzeCommits (" " ++ LF ++ "  " ++ LF) "packages/core" = None.
Proof.
  apply (blank_log_is_no_release (" " ++ LF ++ "  " ++ LF) "packages/core").
  reflexivity.
Defined.

(** ** VersionResolver: the shape of what is emitted *)

Lemma all_impl :
  forall (p q : ascii -> bool) s,
    (forall c, p c = true -> q c = true) ->
    all p s = true -> all q s = true.
Proof.
  intros p q s H. induction s as [| c s IH]; intros Hs; [reflexivity |].
  cbn [all] in *. apply andb_true_iff in Hs. destruct Hs as [Hc Hs].
  rewrite (H _ Hc), (IH Hs). reflexivity.
Qed.

Lemma dec_nonempty : forall n, nonempty (dec n) = true.
Proof.
  intros n. rewrite dec_NilEmpty. pose proof (to_uint_nonnil n) as H.
  destruct (N.to_uint n); [contradiction | reflexivity ..].
Qed.

Lemma counters_one :
  forall d1,
    all Js.is_digit d1 = true -> nonempty d1 = true ->
    counters_to_end d1 = true.
Proof.
  intros d1 H1 N1. unfold counters_to_end. rewrite (span_all _ _ H1), N1.
  reflexivity.
Qed.

Lemma counters_two :
  forall d1 d2,
    all Js.is_digit d1 = true -> nonempty d1 = true ->
    all Js.is_digit d2 = true -> nonempty d2 = true ->
    counters_to_end (d1 ++ "." ++ d2) = true.
Proof.
  intros d1 d2 H1 N1 H2 N2. unfold counters_to_end.
  change (d1 ++ "." ++ d2)%string with (d1 ++ String "." d2)%string.
  rewrite (span_all_stop _ _ "." d2 H1 eq_refl), N1.
  rewrite (span_all _ _ H2), N2. reflexivity.
Qed.

Lemma yymm_eat :
  forall t rest, yymm t -> eat_yymm (t ++ "." ++ rest) = Some rest.
Proof.
  intros t rest (a & b & c & d & -> & Ha & Hb & Hc & Hd).
  cbn. rewrite Ha, Hb, Hc, Hd. reflexivity.
Qed.

Lemma is_calver_three :
  forall t n, yymm t -> is_calver (t ++ "." ++ dec n) = true.
Proof.
  intros t n H. unfold is_calver. rewrite (yymm_eat _ _ H).
  apply counters_one; [apply dec_digits | apply dec_nonempty].
Qed.

Lemma is_calver_four :
  forall t a b, yymm t -> is_calver (t ++ "." ++ dec a ++ "." ++ dec b) = true.
Proof.
  intros t a b H. unfold is_calver. rewrite (yymm_eat _ _ H).
  apply counters_two;
    [apply dec_digits | apply dec_nonempty | apply dec_digits
     | apply dec_nonempty].
Qed.

(** What [is_calver] lets through, code unit by code unit. *)
Lemma is_calver_exact :
  forall v,
    is_calver v = true ->
    exists t d1,
      yymm t /\ all Js.is_digit d1 = true /\ nonempty d1 = true
      /\ (v = (t ++ "." ++ d1)%string
          \/ exists d2,
               all Js.is_digit d2 = true /\ nonempty d2 = true
               /\ v = (t ++ "." ++ d1 ++ "." ++ d2)%string).
Proof.
  intros v H. unfold is_calver in H.
  destruct v as [| a [| b [| p [| c [| d [| q rest]]]]]]; try discriminate H.
  cbn [eat_yymm] in H.
  destruct (Js.is_digit a) eqn:Ha; [| discriminate H].
  destruct (Js.is_digit b) eqn:Hb; [| discriminate H].
  destruct (Ascii.eqb p ".") eqn:Hp; [| discriminate H].
  destruct (Js.is_digit c) eqn:Hc; [| discriminate H].
  destruct (Js.is_digit d) eqn:Hd; [| discriminate H].
  destruct (Ascii.eqb q ".") eqn:Hq; [| discriminate H].
  cbn [andb] in H. apply Ascii.eqb_eq in Hp, Hq. subst p q.
  unfold counters_to_end in H.
  destruct (Js.span Js.is_digit rest) as [d1 r1] eqn:S1.
  destruct (span_spec _ _ _ _ S1) as [-> H1].
  apply andb_true_iff in H. destruct H as [N1 H].
  exists (String a (String b (String "." (String c (String d ""))))), d1.
  split; [exists a, b, c, d; auto |]. split; [exact H1 |].
  split; [exact N1 |].
  destruct r1 as [| e r2].
  - left. rewrite append_nil_r. reflexivity.
  - right. apply andb_true_iff in H. destruct H as [He H].
    apply Ascii.eqb_eq in He. subst e.
    destruct (Js.span Js.is_digit r2) as [d2 r3] eqn:S2.
    destruct (span_spec _ _ _ _ S2) as [-> H2].
    apply andb_true_iff in H. destruct H as [N2 H3].
    apply String.eqb_eq in H3. subst r3. exists d2.
    split; [exact H2 |]. split; [exact N2 |].
    rewrite append_nil_r. reflexivity.
Qed.

Lemma yymm_nodot_split :
  forall t rest,
    yymm t ->
    exists y m,
      t = (y ++ "." ++ m)%string
      /\ Js.split "." (t ++ "." ++ rest) = y :: m :: Js.split "." rest.
Proof.
  intros t rest (a & b & c & d & -> & Ha & Hb & Hc & Hd).
  exists (String a (String b "")), (String c (String d "")).
  split; [reflexivity |].
  assert (Ya : all notDot (String a (String b "")) = true).
  { apply all_digit_notDot. cbn. rewrite Ha, Hb. reflexivity. }
  assert (Yc : all notDot (String c (String d "")) = true).
  { apply all_digit_notDot. cbn. rewrite Hc, Hd. reflexivity. }
  change (String a (String b (String "." (String c (String d "")))) ++ "." ++ rest)%string
    with (String a (String b "") ++ String "." (String c (String d "") ++ String "." rest))%string.
  rewrite (split_dot _ _ Ya), (split_dot _ _ Yc). reflexivity.
Qed.

Lemma yearMonthOf_yymm :
  forall v, is_calver v = true -> yymm (yearMonthOf v).
Proof.
  intros v H.
  destruct (is_calver_exact v H)
    as (t & d1 & Ht & _ & _ & [-> | (d2 & _ & _ & ->)]).
  - destruct (yymm_nodot_split t d1 Ht) as (y & m & E & S).
    unfold yearMonthOf. rewrite S, <- E. exact Ht.
  - destruct (yymm_nodot_split t (d1 ++ "." ++ d2) Ht) as (y & m & E & S).
    unfold yearMonthOf. rewrite S, <- E. exact Ht.
Qed.

Lemma length_substring_from :
  forall n s,
    String.length (Js.substring_from n s) = String.length s - n.
Proof.
  induction n as [| n IH]; intros s.
  - cbn. lia.
  - destruct s as [| c s]; [reflexivity |]. cbn [Js.substring_from String.length].
    rewrite IH. lia.
Qed.

Lemma one_digit_value :
  forall c n, Js.Number (String c "") = Js.Num n -> (n <= 9)%N.
Proof.
  intros c n H.
  destruct c as [[|] [|] [|] [|] [|] [|] [|] [|]];
    vm_compute in H; try discriminate H; injection H as <-; lia.
Qed.

Lemma dec_two_digits :
  forall n, (10 <= n)%N -> 2 <= String.length (dec n).
Proof.
  intros n H. pose proof (Number_dec n) as E.
  pose proof (dec_nonempty n) as N.
  destruct (dec n) as [| c [| d s]].
  - discriminate N.
  - apply one_digit_value in E. lia.
  - cbn. lia.
Qed.

Lemma currentYearMonth_yymm :
  forall d,
    (10 <= getFullYear d)%N -> (getMonth d <= 11)%N ->
    yymm (currentYearMonth d).
Proof.
  intros d Hy Hm. unfold currentYearMonth.
  fold (dec (getFullYear d)). fold (dec (getMonth d + 1)).
  assert (Y : exists a b,
             Js.slice_last2 (dec (getFullYear d)) = String a (String b "")
             /\ Js.is_digit a = true /\ Js.is_digit b = true).
  { pose proof (dec_two_digits _ Hy) as L.
    pose proof (all_substring_from Js.is_digit
                  (String.length (dec (getFullYear d)) - 2) _
                  (dec_digits (getFullYear d))) as A.
    pose proof (length_substring_from
                  (String.length (dec (getFullYear d)) - 2)
                  (dec (getFullYear d))) as K.
    unfold Js.slice_last2.
    destruct (Js.substring_from _ (dec (getFullYear d))) as [| a [| b [| c s]]];
      cbn [String.length] in K; try lia.
    cbn [all] in A. apply andb_true_iff in A. destruct A as [Aa A].
    apply andb_true_iff in A. destruct A as [Ab _].
    exists a, b. auto. }
  assert (M : exists c e,
             Js.padStart2 (dec (getMonth d + 1)) = String c (String e "")
             /\ Js.is_digit c = true /\ Js.is_digit e = true).
  { remember (N.to_nat (getMonth d)) as k eqn:Hk.
    assert (E : getMonth d = N.of_nat k) by (subst k; rewrite N2Nat.id; reflexivity).
    assert (Hk' : k <= 11) by lia.
    rewrite E. clear - Hk'.
    do 12 (destruct k as [| k];
           [vm_compute; eexists; eexists; split; [reflexivity | split; reflexivity]
           |]).
    lia. }
  destruct Y as (a & b & -> & Ha & Hb). destruct M as (c & e & -> & Hc & He).
  exists a, b, c, e. auto.
Qed.

Lemma target_yymm :
  forall declared tags options d,
    (10 <= getFullYear d)%N -> (getMonth d <= 11)%N ->
    yymm (targetYearMonth
            (determineTarget declared tags options (currentYearMonth d))).
Proof.
  intros declared tags options d Hy Hm.
  pose proof (currentYearMonth_yymm d Hy Hm) as C.
  unfold determineTarget.
  destruct declared as [v |]; [| exact C].
  destruct (nonempty v); cbn [andb]; [| exact C].
  destruct (is_calver v) eqn:Hv; [| exact C].
  cbn [targetYearMonth].
  destruct (truthy (autoUpdateMonth options)
            && Js.str_gt (currentYearMonth d) (yearMonthOf v)).
  - exact C.
  - apply yearMonthOf_yymm, Hv.
Qed.

Lemma existingTags_Forall :
  forall w packagePath,
    Forall (fun t => is_calver t = true) (existingTags w packagePath).
Proof.
  intros w packagePath. apply Forall_forall. intros t.
  apply existingTags_calver.
Qed.

(** X18.  For a declared version that is a string or absent, tags whose
    counters JS numbers hold exactly and a date of the calendar, the
    version is the target year-month followed by one decimal counter
    (three-part) or two (four-part): digits and dots, never [NaN] nor
    [undefined]. *)
Theorem version_is_year_month_and_counters :
  forall w rt packagePath options,
    safeDate (now w) ->
    Forall safeTag (existingTags w packagePath) ->
    let target := targetYearMonth (targetOf w packagePath options) in
    let v := generateCalVerVersion w rt packagePath options in
    ymShape target
    /\ (if isNpmCompatibleOf options
        then exists n, v = (target ++ "." ++ dec n)%string
        else exists a b, v = (target ++ "." ++ dec a ++ "." ++ dec b)%string)
    /\ all digitOrDot v = true.
Proof.
  intros w rt packagePath options _ _. cbn zeta.
  pose proof (target_shape (packageJsonVersionAt w packagePath)
                (existingTags w packagePath) options (now w)) as T.
  pose proof (resolved_form rt options (packageJsonVersionAt w packagePath)
                (existingTags w packagePath) (currentYearMonth (now w))
                (existingTags_Forall w packagePath)) as R.
  cbn zeta in R. fold (targetOf w packagePath options) in T, R.
  fold (generateCalVerVersion w rt packagePath options) in R.
  split; [exact T |]. split; [exact R |].
  assert (D : forall s, all Js.is_digit s = true -> all digitOrDot s = true).
  { intros s. apply all_impl. intros c Hc. unfold digitOrDot. rewrite Hc.
    reflexivity. }
  destruct T as (y & m & E & Hy & Hm).
  destruct (isNpmCompatibleOf options).
  - destruct R as (n & ->). rewrite E, !all_app, (D _ Hy), (D _ Hm).
    rewrite (D _ (dec_digits n)). reflexivity.
  - destruct R as (a & b & ->). rewrite E, !all_app, (D _ Hy), (D _ Hm).
    rewrite (D _ (dec_digits a)), (D _ (dec_digits b)). reflexivity.
Qed.

Lemma version_is_year_month_and_counters_witness :
  ymShape (targetYearMonth
             (targetOf (worldWith (Some "25.07.0.1") "v-25.07.0.1" july2025)
                       "." (withFormat FourPart)))
  /\ (if isNpmCompatibleOf (withFormat FourPart)
      then exists n,
          generateCalVerVersion
            (worldWith (Some "25.07.0.1") "v-25.07.0.1" july2025) minor "."
            (withFormat FourPart)
          = (targetYearMonth
               (targetOf (worldWith (Some "25.07.0.1") "v-25.07.0.1" july2025)
                         "." (withFormat FourPart))
             ++ "." ++ dec n)%string
      else exists a b,
          generateCalVerVersion
            (worldWith (Some "25.07.0.1") "v-25.07.0.1" july2025) minor "."
            (withFormat FourPart)
          = (targetYearMonth
               (targetOf (worldWith (Some "25.07.0.1") "v-25.07.0.1" july2025)
                         "." (withFormat FourPart))
             ++ "." ++ dec a ++ "." ++ dec b)%string)
  /\ all digitOrDot
       (generateCalVerVersion
          (worldWith (Some "25.07.0.1") "v-25.07.0.1" july2025) minor "."
          (withFormat FourPart))
     = true.
Proof.
  apply (version_is_year_month_and_counters
           (worldWith (Some "25.07.0.1") "v-25.07.0.1" july2025) minor "."
           (withFormat FourPart)).
  - split; vm_compute; [reflexivity | discriminate].
  - change (Forall safeTag ["25.07.0.1"]). repeat constructor.
Defined.

(** Within the bounds in which the counters are exact, what is emitted
    has the CalVer shape. *)
Lemma generated_is_calver :
  forall w rt packagePath options,
    (10 <= getFullYear (now w))%N -> safeDate (now w) ->
    Forall safeTag (existingTags w packagePath) ->
    is_calver (generateCalVerVersion w rt packagePath options) = true.
Proof.
  intros w rt packagePath options Hy [_ Hm] _.
  pose proof (target_yymm (packageJsonVersionAt w packagePath)
                (existingTags w packagePath) options (now w) Hy Hm) as T.
  pose proof (resolved_form rt options (packageJsonVersionAt w packagePath)
                (existingTags w packagePath) (currentYearMonth (now w))
                (existingTags_Forall w packagePath)) as R.
  cbn zeta in R.
  fold (generateCalVerVersion w rt packagePath options) in R.
  destruct (isNpmCompatibleOf options).
  - destruct R as (n & ->). apply is_calver_three, T.
  - destruct R as (a & b & ->). apply is_calver_four, T.
Qed.

(** X19.  At a date of the calendar from year 10 on, and with tags whose
    counters JS numbers hold exactly, the version has the shape that the
    tag patterns and the pattern for the declared version accept. *)
Theorem emitted_version_is_calver :
  forall w rt packagePath options,
    (10 <= getFullYear (now w))%N -> safeDate (now w) ->
    Forall safeTag (existingTags w packagePath) ->
    is_calver (generateCalVerVersion w rt packagePath options) = true.
Proof.
  intros w rt packagePath options Hy Hd Ht.
  apply generated_is_calver; assumption.
Qed.

Lemma emitted_version_is_calver_witness :
  is_calver
    (generateCalVerVersion
       (worldWith (Some "25.07.0.1") "v-25.07.0.1" july2025) minor "."
       (withFormat FourPart))
  = true.
Proof.
  apply (emitted_version_is_calver
           (worldWith (Some "25.07.0.1") "v-25.07.0.1" july2025) minor "."
           (withFormat FourPart)).
  - vm_compute. discriminate.
  - split; vm_compute; [reflexivity | discriminate].
  - change (Forall safeTag ["25.07.0.1"]). repeat constructor.
Defined.

(** ** VersionResolver: the tag patterns on the tag of a version *)

Lemma includes_app_r : forall a b, Js.includes (a ++ b) b = true.
Proof.
  induction a as [| c a IH]; intros b.
  - apply includes_refl.
  - cbn [append Js.includes]. rewrite IH. apply orb_true_r.
Qed.

Lemma digitOrDot_notBackslash :
  forall s, all digitOrDot s = true -> all notBackslash s = true.
Proof.
  intros s. apply all_impl. intros c H. unfold digitOrDot in H.
  unfold notBackslash. destruct (Ascii.eqb c "\") eqn:E; [| reflexivity].
  apply Ascii.eqb_eq in E. subst c. discriminate H.
Qed.

Lemma substring_0_0 : forall s, String.substring 0 0 s = "".
Proof. destruct s; reflexivity. Qed.

Lemma capture_three :
  forall t d1 tail,
    yymm t -> all Js.is_digit d1 = true -> nonempty d1 = true ->
    capture_version ("v-" ++ (t ++ "." ++ d1) ++ "-" ++ tail)
    = Some (t ++ "." ++ d1)%string.
Proof.
  intros t d1 tail (a & b & c & d & -> & Ha & Hb & Hc & Hd) H1 N1.
  cbn [append capture_version Ascii.eqb Bool.eqb andb eat_yymm].
  change (Ascii.eqb "v" "v") with true. change (Ascii.eqb "-" "-") with true.
  change (Ascii.eqb "." ".") with true.
  cbn [andb]. rewrite Ha, Hb, Hc, Hd. cbn [andb].
  change (d1 ++ String "-" tail)%string with (d1 ++ String "-" tail)%string.
  rewrite (span_all_stop _ _ "-" tail H1 eq_refl), N1.
  cbn. rewrite substring_0_0. reflexivity.
Qed.

Lemma capture_four :
  forall t d1 d2 tail,
    yymm t -> all Js.is_digit d1 = true -> nonempty d1 = true ->
    all Js.is_digit d2 = true -> nonempty d2 = true ->
    capture_version ("v-" ++ (t ++ "." ++ d1 ++ "." ++ d2) ++ "-" ++ tail)
    = Some (t ++ "." ++ d1 ++ "." ++ d2)%string.
Proof.
  intros t d1 d2 tail (a & b & c & d & -> & Ha & Hb & Hc & Hd) H1 N1 H2 N2.
  cbn [append capture_version Ascii.eqb Bool.eqb andb eat_yymm].
  change (Ascii.eqb "v" "v") with true. change (Ascii.eqb "-" "-") with true.
  change (Ascii.eqb "." ".") with true.
  cbn [andb]. rewrite Ha, Hb, Hc, Hd. cbn [andb].
  rewrite (append_assoc' d1 (String "." d2) (String "-" tail)).
  change (String "." d2 ++ String "-" tail)%string
    with (String "." (d2 ++ String "-" tail)).
  rewrite (span_all_stop _ _ "." _ H1 eq_refl), N1.
  change (Ascii.eqb "." "-") with false. change (Ascii.eqb "." ".") with true.
  cbn iota.
  rewrite (span_all_stop _ _ "-" tail H2 eq_refl), N2.
  cbn. rewrite substring_0_0, prefix_nil. reflexivity.
Qed.

Lemma prefix_includes :
  forall s sub, String.prefix sub s = true -> Js.includes s sub = true.
Proof. intros s sub H. destruct s; cbn [Js.includes]; rewrite H; reflexivity. Qed.

Lemma includes_app_mid : forall a b c, Js.includes (a ++ b ++ c) b = true.
Proof.
  induction a as [| x a IH]; intros b c.
  - cbn [append]. apply prefix_includes, prefix_app.
  - cbn [append Js.includes]. rewrite IH. apply orb_true_r.
Qed.

Lemma capture_own :
  forall v tail,
    is_calver v = true ->
    capture_version ("v-" ++ v ++ "-" ++ tail) = Some v.
Proof.
  intros v tail H.
  destruct (is_calver_exact v H)
    as (t & d1 & Ht & H1 & N1 & [-> | (d2 & H2 & N2 & ->)]).
  - rewrite <- (capture_three t d1 tail Ht H1 N1).
    f_equal; rewrite ?append_assoc'; reflexivity.
  - rewrite <- (capture_four t d1 d2 tail Ht H1 N1 H2 N2).
    f_equal; rewrite ?append_assoc'; reflexivity.
Qed.

Lemma nonempty_neq : forall n, n <> "" -> nonempty n = true.
Proof.
  intros n H. unfold nonempty. destruct (String.eqb n "") eqn:E; [| reflexivity].
  apply String.eqb_eq in E. contradiction.
Qed.

(** The patterns of the single-package branch, lines 980-981 and 991. *)
Lemma tag_patterns_root :
  forall v,
    is_calver v = true ->
    tagFilter "" (tagNameOf v None) = true
    /\ tagVersion "" (tagNameOf v None) = v.
Proof.
  intros v H. unfold tagNameOf. split.
  - unfold tagFilter. cbn [nonempty String.eqb negb append]. unfold is_v_calver.
    change (Ascii.eqb "v" "v") with true.
    change (Ascii.eqb "-" "-") with true. exact H.
  - unfold tagVersion, strip_v, Js.startsWith.
    cbn [nonempty String.eqb negb append].
    rewrite !prefix_cons, prefix_nil. reflexivity.
Qed.

(** The patterns of the package branch, lines 977-978 and 986-988. *)
Lemma tag_patterns_package :
  forall v n,
    is_calver v = true -> nonempty n = true ->
    tagFilter n (tagNameOf v (Some n)) = true
    /\ tagVersion n (tagNameOf v (Some n)) = v.
Proof.
  intros v n H Nn. unfold tagNameOf, tagFilter, tagVersion. rewrite Nn. split.
  - replace ("v-" ++ v ++ "-" ++ n ++ "-release")%string
      with (("v-" ++ v) ++ ("-" ++ n ++ "-release") ++ "")%string
      by (rewrite append_nil_r, append_assoc'; reflexivity).
    apply includes_app_mid.
  - rewrite (capture_own v (n ++ "-release") H). reflexivity.
Qed.

(** The whole listing of a package is read as one tag: the one it begins
    with. *)
Lemma parseTags_first_tag :
  forall packagePath v other rest,
    packagePath <> "." -> Js.basename packagePath <> "" ->
    is_calver v = true ->
    let listing := ("v-" ++ v ++ "-" ++ other ++ "-release" ++ LF ++ rest)%string in
    all notBackslash listing = true ->
    Js.includes listing ("-" ++ Js.basename packagePath ++ "-release") = true ->
    parseTags packagePath listing = [v].
Proof.
  intros packagePath v other rest Hp Hn H. cbn zeta. intros Hb Hi.
  set (n := Js.basename packagePath) in *.
  assert (Np : packageNameOf packagePath = n).
  { unfold packageNameOf. destruct (String.eqb packagePath ".") eqn:E;
      [apply String.eqb_eq in E; contradiction | reflexivity]. }
  pose proof (nonempty_neq n Hn) as Nn.
  unfold parseTags. rewrite Np. unfold Js.split.
  rewrite (split_go_backslash_n _ "" Hb).
  change ("" ++ "v-" ++ v ++ "-" ++ other ++ "-release" ++ LF ++ rest)%string
    with (String "v" (String "-" (v ++ "-" ++ other ++ "-release" ++ LF ++ rest))).
  cbn [filter Js.trim_truthy].
  change (Js.is_space "v") with false. cbn [negb orb filter].
  unfold tagFilter at 1. rewrite Nn.
  change (String "v" (String "-" (v ++ "-" ++ other ++ "-release" ++ LF ++ rest)))
    with ("v-" ++ v ++ "-" ++ other ++ "-release" ++ LF ++ rest)%string.
  rewrite Hi. cbn [map filter]. unfold tagVersion. rewrite Nn.
  rewrite (capture_own v (other ++ "-release" ++ LF ++ rest) H).
  cbn [filter]. rewrite H. reflexivity.
Qed.

(** The listing that git prints when the tag of a version comes first:
    the tag, a line feed, and the lines that follow. *)
Lemma listing_of_root_tag :
  forall v rest,
    is_calver v = true -> all notBackslash rest = true ->
    parseTags "." (tagNameOf v None ++ LF ++ rest) = [].
Proof.
  intros v rest H Hr.
  pose proof (digitOrDot_notBackslash _ (is_calver_chars _ H)) as B.
  apply line_feed_listing_has_no_tags.
  - unfold tagNameOf. rewrite !all_app, B, Hr. reflexivity.
  - apply includes_app_mid.
Qed.

Lemma listing_of_package_tag :
  forall v packagePath rest,
    is_calver v = true -> all notBackslash rest = true ->
    packagePath <> "." -> Js.basename packagePath <> "" ->
    all notBackslash (Js.basename packagePath) = true ->
    parseTags packagePath
      (tagNameOf v (Some (Js.basename packagePath)) ++ LF ++ rest)
    = [v].
Proof.
  intros v packagePath rest H Hr Hp Hn Hb.
  pose proof (digitOrDot_notBackslash _ (is_calver_chars _ H)) as B.
  set (n := Js.basename packagePath) in *.
  unfold tagNameOf. rewrite (nonempty_neq n Hn).
  replace (("v-" ++ v ++ "-" ++ n ++ "-release") ++ LF ++ rest)%string
    with ("v-" ++ v ++ "-" ++ n ++ "-release" ++ LF ++ rest)%string
    by (cbn [append]; rewrite ?append_assoc'; cbn [append];
        rewrite ?append_assoc'; reflexivity).
  apply (parseTags_first_tag packagePath v n rest Hp Hn H).
  - cbn [append all]. rewrite !all_app, B. cbn [all]. rewrite !all_app, Hb.
    cbn [all]. rewrite !all_app, Hr. reflexivity.
  - replace ("v-" ++ v ++ "-" ++ n ++ "-release" ++ LF ++ rest)%string
      with (("v-" ++ v) ++ ("-" ++ n ++ "-release") ++ (LF ++ rest))%string
      by (cbn [append]; rewrite ?append_assoc'; cbn [append];
          rewrite ?append_assoc'; reflexivity).
    apply includes_app_mid.
Qed.

(** X20.  The tag patterns of lines 975-994 accept the tag built for a
    version and give that version back: [v-<version>] for the root
    package, [v-<version>-<name>-release] for a package whose name is the
    basename of its path.  In a listing as git prints it, one tag per
    line, where that tag comes first, the package finds the version, and
    the root package finds no tag at all (the listing is not cut into
    lines, line 973). *)
Theorem built_tag_matches_the_tag_patterns :
  forall v packagePath rest,
    is_calver v = true ->
    all notBackslash rest = true ->
    packagePath <> "." ->
    Js.basename packagePath <> "" ->
    all notBackslash (Js.basename packagePath) = true ->
    let n := Js.basename packagePath in
    (tagFilter "" (tagNameOf v None) = true
     /\ tagVersion "" (tagNameOf v None) = v
     /\ parseTags "." (tagNameOf v None ++ LF ++ rest) = [])
    /\ (tagFilter n (tagNameOf v (Some n)) = true
        /\ tagVersion n (tagNameOf v (Some n)) = v
        /\ parseTags packagePath (tagNameOf v (Some n) ++ LF ++ rest) = [v]).
Proof.
  intros v packagePath rest H Hr Hp Hn Hb. cbn zeta. split.
  - destruct (tag_patterns_root v H) as [F V].
    split; [exact F |]. split; [exact V |].
    apply listing_of_root_tag; assumption.
  - destruct (tag_patterns_package v _ H (nonempty_neq _ Hn)) as [F V].
    split; [exact F |]. split; [exact V |].
    apply listing_of_package_tag; assumption.
Qed.

Lemma built_tag_matches_the_tag_patterns_witness :
  (tagFilter "" (tagNameOf "25.07.0.2" None) = true
   /\ tagVersion "" (tagNameOf "25.07.0.2" None) = "25.07.0.2"
   /\ parseTags "."
        (tagNameOf "25.07.0.2" None ++ LF ++ ("v-25.07.0.1" ++ LF))
      = [])
  /\ (tagFilter (Js.basename "packages/core")
        (tagNameOf "25.07.0.2" (Some (Js.basename "packages/core")))
      = true
      /\ tagVersion (Js.basename "packages/core")
           (tagNameOf "25.07.0.2" (Some (Js.basename "packages/core")))
         = "25.07.0.2"
      /\ parseTags "packages/core"
           (tagNameOf "25.07.0.2" (Some (Js.basename "packages/core"))
            ++ LF ++ ("v-25.07.0.1" ++ LF))
         = ["25.07.0.2"]).
Proof.
  apply (built_tag_matches_the_tag_patterns "25.07.0.2" "packages/core"
           ("v-25.07.0.1" ++ LF));
    (discriminate || reflexivity).
Defined.

(** A package whose name is not the basename of its directory does not
    find its own tags: the tag is built from the name and looked for by
    the basename. *)
Example scoped_name_hides_the_tags :
  tagNameOf "25.07.0.2" (Some "@acme/core")
  = "v-25.07.0.2-@acme/core-release"
  /\ parseTags "packages/core"
       (tagNameOf "25.07.0.2" (Some "@acme/core") ++ LF)
     = [].
Proof. split; reflexivity. Qed.

(** X21.  With tags whose counters JS numbers hold exactly and a date of
    the calendar from year 10 on, the tag that [analyzeStep] proposes for
    a release is the one built from its version, and the tag patterns of
    the next run accept it and give the version back, for the root
    package and for a package named after its directory.  In a listing as
    git prints it where that tag comes first, the package finds the
    version released; the root package finds no tag. *)
Theorem proposed_tag_matches_the_tag_patterns :
  forall w opts commits pkg r rest,
    (10 <= getFullYear (now w))%N -> safeDate (now w) ->
    Forall safeTag (existingTags w (path pkg)) ->
    In r (releaseOf w opts commits pkg) ->
    all notBackslash rest = true ->
    (path pkg = "." /\ name pkg = "root")
    \/ (path pkg <> "." /\ name pkg = Js.basename (path pkg)
        /\ name pkg <> "root" /\ name pkg <> ""
        /\ all notBackslash (name pkg) = true) ->
    tagName r = tagNameOf (version r) (packageName r)
    /\ is_calver (version r) = true
    /\ tagFilter (packageNameOf (path pkg)) (tagName r) = true
    /\ tagVersion (packageNameOf (path pkg)) (tagName r) = version r
    /\ parseTags (path pkg) (tagName r ++ LF ++ rest)
       = if String.eqb (path pkg) "." then [] else [version r].
Proof.
  intros w opts commits pkg r rest Hy Hd Ht Hr Hrest Hpkg.
  unfold releaseOf in Hr.
  destruct (analyzeCommits commits (path pkg)) as [a |]; [| contradiction].
  destruct (shouldRelease a); [| contradiction].
  destruct Hr as [<- | []]. cbn [tagName version packageName].
  pose proof (generated_is_calver w (releaseType a) (path pkg) opts Hy Hd Ht)
    as C.
  set (v := generateCalVerVersion w (releaseType a) (path pkg) opts) in *.
  destruct Hpkg as [[Hp Hn] | (Hp & Hn & Hnr & He & Hb)].
  - rewrite Hn, Hp. change (String.eqb "root" "root") with true.
    change (String.eqb "." ".") with true. cbn iota.
    change (packageNameOf ".") with "".
    destruct (tag_patterns_root v C) as [F V].
    split; [reflexivity |]. split; [exact C |].
    split; [exact F |]. split; [exact V |].
    apply (listing_of_root_tag v rest C Hrest).
  - assert (Er : String.eqb (name pkg) "root" = false).
    { destruct (String.eqb (name pkg) "root") eqn:E; [| reflexivity].
      apply String.eqb_eq in E. contradiction. }
    assert (Ep : String.eqb (path pkg) "." = false).
    { destruct (String.eqb (path pkg) ".") eqn:E; [| reflexivity].
      apply String.eqb_eq in E. contradiction. }
    pose proof (nonempty_neq _ He) as Nn.
    rewrite Er, Ep. unfold packageNameOf. rewrite Ep, <- Hn.
    destruct (tag_patterns_package v (name pkg) C Nn) as [F V].
    pose proof (listing_of_package_tag v (path pkg) rest C Hrest Hp) as K.
    rewrite <- Hn in K. specialize (K He Hb).
    unfold tagNameOf in F, V, K |- *. rewrite Nn in F, V, K |- *.
    split; [reflexivity |]. split; [exact C |].
    split; [exact F |]. split; [exact V | exact K].
Qed.

Lemma proposed_tag_matches_the_tag_patterns_witness :
  tagName (mkRelease corePackage
             (mkAnalysis true minor false true false
                         [(Sparkles, "feat(core): x")])
             "25.08.0.1" (Some "core") "v-25.08.0.1-core-release")
  = tagNameOf "25.08.0.1" (Some "core")
  /\ is_calver "25.08.0.1" = true
  /\ tagFilter (packageNameOf (path corePackage)) "v-25.08.0.1-core-release"
     = true
  /\ tagVersion (packageNameOf (path corePackage)) "v-25.08.0.1-core-release"
     = "25.08.0.1"
  /\ parseTags (path corePackage)
       ("v-25.08.0.1-core-release" ++ LF
        ++ ("v-25.07.0.3-core-release" ++ LF))
     = ["25.08.0.1"].
Proof.
  apply (proposed_tag_matches_the_tag_patterns bareWorld no_options coreLog
           corePackage
           (mkRelease corePackage
              (mkAnalysis true minor false true false
                          [(Sparkles, "feat(core): x")])
              "25.08.0.1" (Some "core") "v-25.08.0.1-core-release")
           ("v-25.07.0.3-core-release" ++ LF)).
  - vm_compute. discriminate.
  - split; vm_compute; [reflexivity | discriminate].
  - change (Forall safeTag []). constructor.
  - left. reflexivity.
  - reflexivity.
  - right. split; [discriminate |]. split; [reflexivity |].
    split; [discriminate |]. split; [discriminate | reflexivity].
Defined.

(** ** VersionResolver: what the release type and the format decide *)

(** X22.  The release type moves a counter only in the four-part format, and
    there only as patch against the rest: [major] and [minor] give the
    same version, and in the three-part format all three do. *)
Theorem release_type_only_tells_patch_apart :
  forall w rt rt' packagePath options,
    isNpmCompatibleOf options = true \/ (rt <> patch /\ rt' <> patch) ->
    generateCalVerVersion w rt packagePath options
    = generateCalVerVersion w rt' packagePath options.
Proof.
  intros w rt rt' packagePath options H.
  unfold generateCalVerVersion, resolveVersion.
  fold (isNpmCompatibleOf options).
  unfold computeVersion, increment.
  destruct (currentMonthTags _ _ _) as [| latestTag rest]; [reflexivity |].
  destruct (isManualBump _ || isAutoMonthUpdate _); [reflexivity |].
  destruct H as [-> | [H1 H2]]; [reflexivity |].
  destruct (isNpmCompatibleOf options); [reflexivity |].
  destruct rt, rt'; try reflexivity; contradiction.
Qed.

Lemma release_type_only_tells_patch_apart_witness :
  generateCalVerVersion
    (worldWith (Some "25.07.0.1") "v-25.07.0.1" july2025) major "."
    (withFormat FourPart)
  = generateCalVerVersion
      (worldWith (Some "25.07.0.1") "v-25.07.0.1" july2025) minor "."
      (withFormat FourPart).
Proof.
  apply (release_type_only_tells_patch_apart
           (worldWith (Some "25.07.0.1") "v-25.07.0.1" july2025) major minor
           "." (withFormat FourPart)).
  right. split; discriminate.
Defined.

(** X23.  An explicit [versionFormat] is returned as it is, without a check:
    any text other than [auto] and [YY.MM.PATCH] makes the resolver count
    in four parts. *)
Theorem unknown_format_counts_in_four_parts :
  forall w rt packagePath options f,
    versionFormat options = Some f ->
    f <> "" -> f <> "auto" -> f <> ThreePart ->
    determineVersionFormat options = f
    /\ generateCalVerVersion w rt packagePath options
       = generateCalVerVersion w rt packagePath
           (setVersionFormat FourPart options).
Proof.
  intros w rt packagePath options f Hf H1 H2 H3.
  assert (D : determineVersionFormat options = f).
  { unfold determineVersionFormat. rewrite Hf.
    destruct (String.eqb f "") eqn:E1;
      [apply String.eqb_eq in E1; contradiction |].
    destruct (String.eqb f "auto") eqn:E2;
      [apply String.eqb_eq in E2; contradiction |].
    reflexivity. }
  split; [exact D |].
  unfold generateCalVerVersion, resolveVersion. rewrite D.
  change (determineVersionFormat (setVersionFormat FourPart options))
    with FourPart.
  destruct (String.eqb f ThreePart) eqn:E3;
    [apply String.eqb_eq in E3; contradiction |].
  reflexivity.
Qed.

Lemma unknown_format_counts_in_four_parts_witness :
  determineVersionFormat (withFormat "yy.mm.patch") = "yy.mm.patch"
  /\ generateCalVerVersion bareWorld patch "." (withFormat "yy.mm.patch")
     = generateCalVerVersion bareWorld patch "."
         (setVersionFormat FourPart (withFormat "yy.mm.patch")).
Proof.
  apply (unknown_format_counts_in_four_parts bareWorld patch "."
           (withFormat "yy.mm.patch") "yy.mm.patch");
    (reflexivity || discriminate).
Defined.

Lemma includes_decompose :
  forall s sub,
    Js.includes s sub = true -> exists a b, s = (a ++ sub ++ b)%string.
Proof.
  induction s as [| c s IH]; intros sub H; cbn [Js.includes] in H.
  - rewrite orb_false_r in H. destruct (prefix_decompose _ _ H) as [t E].
    exists "", t. exact E.
  - apply orb_true_iff in H. destruct H as [H | H].
    + destruct (prefix_decompose _ _ H) as [t E]. exists "", t. exact E.
    + destruct (IH _ H) as (a & b & ->). exists (String c a), b. reflexivity.
Qed.

(** The callback of lines 1103-1111 looks for [npm] in the plugin's name
    or path. *)
Lemma isNpmPlugin_text :
  forall plugin, isNpmPlugin plugin = Js.includes (pluginText plugin) "npm".
Proof.
  intros [name | name o | path o]; cbn [isNpmPlugin pluginText];
    try reflexivity.
  destruct path; reflexivity.
Qed.

(** X24.  Without an explicit format (none, the empty text or [auto]), the
    format is three-part exactly when [npm] occurs in the name of some
    configured plugin, given as a string or as the head of an array, or
    in the path of one given as an object; it is four-part otherwise,
    also when no plugin list is configured. *)
Theorem three_part_iff_an_npm_plugin :
  forall options,
    versionFormat options = None
    \/ versionFormat options = Some ""
    \/ versionFormat options = Some "auto" ->
    (determineVersionFormat options = ThreePart
     <-> exists ps p before after,
           plugins options = Some ps /\ In p ps
           /\ pluginText p = (before ++ "npm" ++ after)%string)
    /\ (determineVersionFormat options = ThreePart
        \/ determineVersionFormat options = FourPart).
Proof.
  intros options H.
  assert (D : determineVersionFormat options = detectFormat options).
  { unfold determineVersionFormat.
    destruct H as [-> | [-> | ->]]; reflexivity. }
  rewrite D. unfold detectFormat.
  destruct (plugins options) as [ps |].
  - destruct (existsb isNpmPlugin ps) eqn:E.
    + split; [| left; reflexivity]. split; [| reflexivity].
      intros _. apply existsb_exists in E. destruct E as (p & Hp & Hn).
      rewrite isNpmPlugin_text in Hn.
      destruct (includes_decompose _ _ Hn) as (a & b & E).
      exists ps, p, a, b. auto.
    + split; [| right; reflexivity]. split; [discriminate |].
      intros (ps' & p & a & b & Hps & Hp & Hn). injection Hps as <-.
      assert (existsb isNpmPlugin ps = true).
      { apply existsb_exists. exists p. split; [exact Hp |].
        rewrite isNpmPlugin_text, Hn. apply includes_app_mid. }
      congruence.
  - split; [| right; reflexivity]. split; [discriminate |].
    intros (ps' & p & a & b & Hps & _). discriminate.
Qed.

Lemma three_part_iff_an_npm_plugin_witness :
  (determineVersionFormat autoWithNpm = ThreePart
   <-> exists ps p before after,
         plugins autoWithNpm = Some ps /\ In p ps
         /\ pluginText p = (before ++ "npm" ++ after)%string)
  /\ (determineVersionFormat autoWithNpm = ThreePart
      \/ determineVersionFormat autoWithNpm = FourPart).
Proof.
  apply (three_part_iff_an_npm_plugin autoWithNpm).
  right. right. reflexivity.
Defined.

(** The npm plugin, wherever it stands in the list and however it is
    written, makes the format three-part; a list without it, or no list,
    leaves it four-part. *)
Example npm_plugin_decides_the_format :
  determineVersionFormat autoWithNpm = ThreePart
  /\ determineVersionFormat
       (mkOptions None None None None None None None None
          (Some [PluginObject "./plugins/npm-publish" None]))
     = ThreePart
  /\ determineVersionFormat
       (mkOptions None None None None None None None None
          (Some [PluginName "@calver-release/github"]))
     = FourPart
  /\ determineVersionFormat (withFormat "auto") = FourPart.
Proof. repeat split; reflexivity. Qed.

(** ** Configuration *)

(** X25.  Every property is taken from the strongest source that has it:
    the options, then package.json, then the configuration file, then
    the defaults.  The environment can only switch the dry run and the
    debug output on, and continuous-integration mode off. *)
Theorem configuration_precedence :
  forall env configFileConfig packageJsonConfig options,
    let c := getConfig env configFileConfig packageJsonConfig options in
    let from {A} (property : Options -> option A) :=
      firstPresent [property options; property packageJsonConfig;
                    property configFileConfig; property defaults] in
    branches c = from branches
    /\ tagFormat c = from tagFormat
    /\ repositoryUrl c = from repositoryUrl
    /\ autoUpdateMonth c = from autoUpdateMonth
    /\ versionFormat c = from versionFormat
    /\ plugins c = from plugins
    /\ dryRun c
       = Some (truthy (from dryRun) || env_is_true (DRY_RUN env))
    /\ debug c = Some (truthy (from debug) || env_is_true (DEBUG env))
    /\ ci c
       = Some (truthy (from ci)
               && (env_is_true (CI env) || env_is_true (GITLAB_CI env))).
Proof.
  intros env configFileConfig packageJsonConfig options. cbn zeta.
  unfold getConfig, spread, over, firstPresent.
  cbn [branches tagFormat dryRun debug ci repositoryUrl autoUpdateMonth
       versionFormat plugins defaults].
  repeat split.
  - destruct (branches options), (branches packageJsonConfig),
      (branches configFileConfig); reflexivity.
  - destruct (tagFormat options), (tagFormat packageJsonConfig),
      (tagFormat configFileConfig); reflexivity.
  - destruct (repositoryUrl options), (repositoryUrl packageJsonConfig),
      (repositoryUrl configFileConfig); reflexivity.
  - destruct (autoUpdateMonth options), (autoUpdateMonth packageJsonConfig),
      (autoUpdateMonth configFileConfig); reflexivity.
  - destruct (versionFormat options), (versionFormat packageJsonConfig),
      (versionFormat configFileConfig); reflexivity.
  - destruct (plugins options), (plugins packageJsonConfig),
      (plugins configFileConfig); reflexivity.
  - destruct (dryRun options), (dryRun packageJsonConfig),
      (dryRun configFileConfig); reflexivity.
  - destruct (debug options), (debug packageJsonConfig),
      (debug configFileConfig); reflexivity.
  - destruct (ci options), (ci packageJsonConfig),
      (ci configFileConfig); reflexivity.
Qed.

Lemma never_released_when_dry :
  forall r plugins c0,
    (forall st3,
        untilNotes r plugins (start c0) = (Returned (Some tt), st3) ->
        calverRelease r plugins (start c0)
        = (Returned (DryRunComplete (nextRelease (ctx st3))), st3)) ->
    forall next published,
      fst (calverRelease r plugins (start c0))
      <> Returned (Released next published).
Proof.
  intros r plugins c0 H next published.
  destruct (untilNotes r plugins (start c0)) as [[[[] |] | e] st3] eqn:U.
  - rewrite (H st3 eq_refl). discriminate.
  - unfold calverRelease, try_catch, pipeline, bind. rewrite U. discriminate.
  - unfold calverRelease, try_catch, pipeline, bind. rewrite U.
    destruct (runPlugins Fail (fail plugins) [e] st3) as [[v | e'] st4];
      discriminate.
Qed.

(** X26.  A dry run asked for by the environment ([DRY_RUN=true]) or by any
    configuration source is a dry run for the orchestrator: with hooks
    that leave the configuration alone, no prepare, publish or success
    hook is called and the run never reports a release. *)
Theorem dry_run_from_any_source :
  forall env configFileConfig packageJsonConfig options r plugins,
    DRY_RUN env = Some "true"
    \/ firstPresent [dryRun options; dryRun packageJsonConfig;
                     dryRun configFileConfig] = Some true ->
    Forall keepsConfig (verifyConditions plugins) ->
    Forall keepsConfig (verifyRelease plugins) ->
    Forall keepsConfig (generateNotes plugins) ->
    let c0 := ctxOf (getConfig env configFileConfig packageJsonConfig options) in
    quiet (snd (calverRelease r plugins (start c0)))
    /\ forall next published,
         fst (calverRelease r plugins (start c0))
         <> Returned (Released next published).
Proof.
  intros env configFileConfig packageJsonConfig options r plugins H K1 K2 K3.
  cbn zeta.
  assert (D : truthy (dryRun (config (ctxOf (getConfig env configFileConfig
                                               packageJsonConfig options))))
              = true).
  { cbn [ctxOf config getConfig dryRun truthy].
    destruct H as [H | H].
    - rewrite H. cbn [env_is_true]. change (String.eqb "true" "true") with true.
      rewrite orb_true_r. reflexivity.
    - unfold spread, over. cbn [dryRun defaults]. cbn [firstPresent] in H.
      destruct (dryRun options) as [b |].
      + injection H as ->. reflexivity.
      + destruct (dryRun packageJsonConfig) as [b |].
        * injection H as ->. reflexivity.
        * destruct (dryRun configFileConfig) as [b |]; [| discriminate].
          injection H as ->. reflexivity. }
  destruct (dry_run_configured_at_start r plugins _ D K1 K2 K3) as [Q P].
  split; [exact Q |]. apply never_released_when_dry. exact P.
Qed.

Lemma dry_run_from_any_source_witness :
  quiet (snd (calverRelease featureRepo failingPlugins
                (start (ctxOf (getConfig (mkEnv (Some "true") None None None)
                                 no_options no_options liveConfig)))))
  /\ forall next published,
       fst (calverRelease featureRepo failingPlugins
              (start (ctxOf (getConfig (mkEnv (Some "true") None None None)
                               no_options no_options liveConfig))))
       <> Returned (Released next published).
Proof.
  apply (dry_run_from_any_source (mkEnv (Some "true") None None None)
           no_options no_options liveConfig featureRepo failingPlugins).
  - left. reflexivity.
  - repeat constructor.
  - repeat constructor.
  - repeat constructor.
Defined.

(** ** VersionResolver: the month of the version *)

Lemma ltb_asym :
  forall a b, String.ltb a b = true -> String.ltb b a = false.
Proof.
  intros a b H. unfold String.ltb in *.
  rewrite (String.compare_antisym a b) in H.
  destruct (String.compare b a); try discriminate H; reflexivity.
Qed.

Lemma ltb_irrefl : forall a, String.ltb a a = false.
Proof.
  intros a. destruct (String.ltb a a) eqn:E; [| reflexivity].
  pose proof (ltb_asym _ _ E). congruence.
Qed.

(** Within the bounds in which the counters are exact, the year and
    month that the code reads from a version it has emitted are those of
    the target. *)
Lemma emitted_month :
  forall w rt packagePath options,
    safeDate (now w) ->
    Forall safeTag (existingTags w packagePath) ->
    yearMonthOf (generateCalVerVersion w rt packagePath options)
    = targetYearMonth (targetOf w packagePath options).
Proof.
  intros w rt packagePath options _ _.
  pose proof (target_shape (packageJsonVersionAt w packagePath)
                (existingTags w packagePath) options (now w)) as T.
  pose proof (resolved_form rt options (packageJsonVersionAt w packagePath)
                (existingTags w packagePath) (currentYearMonth (now w))
                (existingTags_Forall w packagePath)) as R.
  cbn zeta in R. fold (targetOf w packagePath options) in T, R.
  fold (generateCalVerVersion w rt packagePath options) in R.
  destruct (isNpmCompatibleOf options).
  - destruct R as (n & ->). apply (emitted_three _ n T).
  - destruct R as (a & b & ->). apply (emitted_four _ a b T).
Qed.

(** X27.  With tags whose counters JS numbers hold exactly and a date of
    the calendar, the year and month of the version are: for a declared
    version that parses, the current ones exactly when [autoUpdateMonth]
    is on and the current year-month is greater, as text, than the
    declared one, and the declared ones in every other case, so never
    earlier than declared; the current ones when the declared version
    is missing or does not parse. *)
Theorem version_month_is_declared_or_current :
  forall w rt packagePath options,
    safeDate (now w) ->
    Forall safeTag (existingTags w packagePath) ->
    let current := currentYearMonth (now w) in
    let month := yearMonthOf (generateCalVerVersion w rt packagePath options) in
    match packageJsonVersionAt w packagePath with
    | Some v =>
        if is_calver v then
          month = (if truthy (autoUpdateMonth options)
                      && Js.str_gt current (yearMonthOf v)
                   then current else yearMonthOf v)
          /\ Js.str_gt (yearMonthOf v) month = false
        else month = current
    | None => month = current
    end.
Proof.
  intros w rt packagePath options Hd Ht. cbn zeta.
  rewrite (emitted_month w rt packagePath options Hd Ht). unfold targetOf.
  destruct (packageJsonVersionAt w packagePath) as [v |]; [| reflexivity].
  destruct (is_calver v) eqn:Hv.
  - rewrite (determineTarget_parsed v _ options _ Hv). cbn zeta.
    cbn [targetYearMonth]. split; [reflexivity |].
    destruct (truthy (autoUpdateMonth options)); cbn [andb].
    + destruct (Js.str_gt (currentYearMonth (now w)) (yearMonthOf v)) eqn:Hg.
      * unfold Js.str_gt in *. apply ltb_asym, Hg.
      * unfold Js.str_gt. apply ltb_irrefl.
    + unfold Js.str_gt. apply ltb_irrefl.
  - rewrite determineTarget_unparsed; [reflexivity |].
    intros v' E. injection E as <-. exact Hv.
Qed.

Lemma version_month_is_declared_or_current_witness :
  yearMonthOf
    (generateCalVerVersion
       (worldWith (Some "25.07.0.3") "v-25.07.0.3" august2025) patch "."
       (withAutoMonth FourPart))
  = "25.08"
  /\ Js.str_gt (yearMonthOf "25.07.0.3")
       (yearMonthOf
          (generateCalVerVersion
             (worldWith (Some "25.07.0.3") "v-25.07.0.3" august2025) patch "."
             (withAutoMonth FourPart)))
     = false.
Proof.
  apply (version_month_is_declared_or_current
           (worldWith (Some "25.07.0.3") "v-25.07.0.3" august2025) patch "."
           (withAutoMonth FourPart)).
  - split; vm_compute; [reflexivity | discriminate].
  - change (Forall safeTag ["25.07.0.3"]). repeat constructor.
Defined.

(** The same declared version without [autoUpdateMonth], and in the month
    it declares. *)
Example declared_month_is_kept :
  generateCalVerVersion
    (worldWith (Some "25.07.0.3") "v-25.07.0.3" august2025) patch "."
    (withFormat FourPart)
  = "25.07.0.4"
  /\ generateCalVerVersion
       (worldWith (Some "25.07.0.3") "v-25.07.0.3" july2025) patch "."
       (withAutoMonth FourPart)
     = "25.07.0.4".
Proof. split; reflexivity. Qed.

(** ** VersionResolver: the listing of a monorepo *)

(** X28.  For a package of a monorepo the listing is not cut into tags either
    (line 973); it is kept when it names the package anywhere, and the
    version read from it is the one of the tag it begins with, whichever
    package that tag belongs to. *)
Theorem package_version_is_read_from_the_first_tag :
  forall packagePath v other rest,
    packagePath <> "." -> Js.basename packagePath <> "" ->
    is_calver v = true ->
    let listing := ("v-" ++ v ++ "-" ++ other ++ "-release" ++ LF ++ rest)%string in
    all notBackslash listing = true ->
    Js.includes listing ("-" ++ Js.basename packagePath ++ "-release") = true ->
    parseTags packagePath listing = [v].
Proof. exact parseTags_first_tag. Qed.

Lemma package_version_is_read_from_the_first_tag_witness :
  parseTags "packages/ui"
    ("v-" ++ "25.07.0.9" ++ "-" ++ "core" ++ "-release" ++ LF
     ++ ("v-25.07.0.1-ui-release" ++ LF))
  = ["25.07.0.9"].
Proof.
  apply (package_version_is_read_from_the_first_tag "packages/ui" "25.07.0.9"
           "core" ("v-25.07.0.1-ui-release" ++ LF));
    (discriminate || reflexivity).
Defined.

(** ** Nothing to release *)

(** X29.  When the analysis proposes no release, the run ends there: only
    verifyConditions hooks have been called (and failure hooks, when the
    run failed), and what is returned is [{ released: false }]. *)
Theorem nothing_to_release_stops_after_verification :
  forall r plugins c0,
    (forall st next, fst (analyzeStep r st) <> Returned (Some next)) ->
    exists k kf,
      calls (snd (calverRelease r plugins (start c0)))
      = (block VerifyConditions k ++ block Fail kf)%list
      /\ match fst (calverRelease r plugins (start c0)) with
         | Returned result =>
             result = NoRelease
             /\ k = List.length (verifyConditions plugins) /\ kf = 0
         | Threw _ => True
         end.
Proof.
  intros r plugins c0 H.
  assert (U : forall o st', untilNotes r plugins (start c0) = (o, st') ->
              (forall u, o <> Returned (Some u))
              /\ exists k,
                   calls st' = block VerifyConditions k
                   /\ (o = Returned None ->
                       k = List.length (verifyConditions plugins))).
  { intros o st' E. unfold untilNotes, bind in E.
    destruct (runPlugins VerifyConditions (verifyConditions plugins) []
                (start c0)) as [o1 st1] eqn:E1.
    destruct (runPlugins_calls _ _ _ _ _ _ E1) as (k & _ & C1 & X1).
    cbn [start calls app] in C1.
    destruct o1 as [v1 | e1].
    - subst k. destruct (analyzeStep r st1) as [o2 st2] eqn:E2.
      pose proof (analyzeStep_calls _ _ _ _ E2) as C2.
      pose proof (H st1) as N. rewrite E2 in N. cbn [fst] in N.
      destruct o2 as [[next |] | e2].
      + exfalso. apply (N next). reflexivity.
      + unfold ret in E. injection E as <- <-.
        split; [discriminate |].
        exists (List.length (verifyConditions plugins)).
        rewrite C2. auto.
      + injection E as <- <-. split; [discriminate |].
        exists (List.length (verifyConditions plugins)).
        rewrite C2. split; [exact C1 | discriminate].
    - injection E as <- <-. split; [discriminate |]. exists k.
      split; [exact C1 | discriminate]. }
  unfold calverRelease, try_catch, pipeline, bind.
  destruct (untilNotes r plugins (start c0)) as [o st'] eqn:E.
  destruct (U _ _ eq_refl) as (N & k & C & K).
  destruct o as [[u |] | e].
  - exfalso. apply (N u). reflexivity.
  - unfold ret. cbn [fst snd]. exists k, 0.
    rewrite block_0, app_nil_r. auto.
  - destruct (runPlugins Fail (fail plugins) [e] st') as [o2 st2] eqn:E2.
    destruct (runPlugins_calls _ _ _ _ _ _ E2) as (kf & _ & C2 & _).
    exists k, kf. rewrite C in C2.
    destruct o2 as [v | e']; cbn [fst snd throw]; auto.
Qed.

Lemma nothing_to_release_stops_after_verification_witness :
  exists k kf,
    calls (snd (calverRelease
                  (repoOf bareWorld (filesWith ["rush.json"; "package.json"])
                          (mkGitLog None (Some "abc1234 feat: x")))
                  failingPlugins (start (ctxOf liveConfig))))
    = (block VerifyConditions k ++ block Fail kf)%list
    /\ match fst (calverRelease
                    (repoOf bareWorld
                            (filesWith ["rush.json"; "package.json"])
                            (mkGitLog None (Some "abc1234 feat: x")))
                    failingPlugins (start (ctxOf liveConfig))) with
       | Returned result =>
           result = NoRelease
           /\ k = List.length (verifyConditions failingPlugins) /\ kf = 0
       | Threw _ => True
       end.
Proof.
  apply (nothing_to_release_stops_after_verification
           (repoOf bareWorld (filesWith ["rush.json"; "package.json"])
                   (mkGitLog None (Some "abc1234 feat: x")))
           failingPlugins (ctxOf liveConfig)).
  intros st next. apply no_package_no_release. reflexivity.
Defined.

(** ** The notes of a release *)

Lemma join_all :
  forall p sep l,
    all p sep = true ->
    Forall (fun x => all p x = true) l ->
    all p (Js.join sep l) = true.
Proof.
  intros p sep l Hsep H. induction H as [| x l Hx Hl IH]; [reflexivity |].
  destruct l as [| y l]; [exact Hx |].
  rewrite join_cons by discriminate. rewrite !all_app, Hx, Hsep, IH.
  reflexivity.
Qed.

(** X30.  The notes of the generateNotes hooks are joined by the four code
    units backslash, n, backslash, n (line 103 writes the separator with
    doubled backslashes): two notes [a] and [b] become [a\n\nb] with
    these characters in it, and no line feed is ever put between notes. *)
Theorem notes_are_joined_without_a_line_feed :
  forall vs st st',
    attachNotes vs st = (Returned tt, st') ->
    exists n text,
      nextRelease (ctx st') = Some n
      /\ notes n = Some text
      /\ (Forall (fun v => all (notChar (ascii_of_nat 10)) (value_string v)
                           = true) vs ->
          all (notChar (ascii_of_nat 10)) text = true)
      /\ (forall a b,
             vs = [Str a; Str b] -> a <> "" -> b <> "" ->
             text = (a ++ "\n\n" ++ b)%string).
Proof.
  intros vs st st' H. unfold attachNotes in H.
  destruct (nextRelease (ctx st)) as [n0 |]; [| discriminate].
  injection H as <-. cbn [ctx nextRelease].
  eexists. eexists. split; [reflexivity |]. cbn [notes].
  split; [reflexivity |]. split.
  - intros Hvs. apply join_all; [reflexivity |].
    apply Forall_map. apply Forall_forall. intros v Hv.
    apply filter_In in Hv. rewrite Forall_forall in Hvs.
    apply Hvs, Hv.
  - intros a b -> Ha Hb. cbn [filter value_truthy].
    assert (Na : nonempty a = true).
    { unfold nonempty. destruct (String.eqb a "") eqn:E; [| reflexivity].
      apply String.eqb_eq in E. contradiction. }
    assert (Nb : nonempty b = true).
    { unfold nonempty. destruct (String.eqb b "") eqn:E; [| reflexivity].
      apply String.eqb_eq in E. contradiction. }
    rewrite Na, Nb. reflexivity.
Qed.

Lemma notes_are_joined_without_a_line_feed_witness :
  exists n text,
    nextRelease
      (ctx (snd (attachNotes [Str "## [25.08.1]"; Str "Thanks"]
                   releaseProposed)))
    = Some n
    /\ notes n = Some text
    /\ (Forall (fun v => all (notChar (ascii_of_nat 10)) (value_string v)
                         = true)
          [Str "## [25.08.1]"; Str "Thanks"] ->
        all (notChar (ascii_of_nat 10)) text = true)
    /\ (forall a b,
           [Str "## [25.08.1]"; Str "Thanks"] = [Str a; Str b] ->
           a <> "" -> b <> "" ->
           text = (a ++ "\n\n" ++ b)%string).
Proof.
  apply (notes_are_joined_without_a_line_feed
           [Str "## [25.08.1]"; Str "Thanks"] releaseProposed
           (snd (attachNotes [Str "## [25.08.1]"; Str "Thanks"]
                   releaseProposed))).
  reflexivity.
Defined.
